(** * chronus: metadata client and hinted-handoff processor

    A shallow embedding of [services/meta/store.go] (the metadata client,
    package [meta]) and of the hinted-handoff node processor that is shipped
    in the same source file (package [hh]), with the properties that the
    specification states about them.

    Layout: Part I holds the definitions (Go base types, the snapshot data
    model, the client, the slice-level view of the read path, the
    hinted-handoff processor, and reference collaborators used as concrete
    inputs); Part II holds the theorems on the statements of the
    specification; Part III holds further properties of the code. *)

From Stdlib Require Import ZArith Lia List String Ascii.
From Stdlib.Strings Require Import Byte.
From stdpp Require Import gmap strings list fin_maps pretty sorting.

Local Open Scope Z_scope.

(* ===================================================================== *)
(** * Part I: definitions *)
(* ===================================================================== *)

(** ** Go base types *)

Module Go.

(** [error] values the two packages create or compare against.  Go compares
    errors by identity ([err == io.EOF], [err != meta.ErrNodeNotFound]); the
    sentinels are constructors, and a value built by [errors.New] or
    [fmt.Errorf] is an [Errorf] carrying its message. *)
Inductive error : Type :=
| ErrNodeNotFound
| ErrUserNotFound
| ErrUserExists
| ErrAuthenticate
| ErrRetentionPolicyDurationTooLow
| ErrRetentionPolicyConflict
| ErrShardGroupExists
| ErrDatabaseNotFound (name : string)
| ErrRetentionPolicyNotFound (name : string)
| EOF
| Errorf (msg : string).

#[global] Instance error_eq_dec : EqDecision error.
Proof. solve_decision. Defined.

(** [int64]: two's complement wrap-around of a mathematical integer. *)
Definition wrap64 (z : Z) : Z := (z + 2 ^ 63) mod 2 ^ 64 - 2 ^ 63.

Definition add64 (a b : Z) : Z := wrap64 (a + b).
Definition mul64 (a b : Z) : Z := wrap64 (a * b).

(** [uint64]: arithmetic modulo 2^64. *)
Definition wrapU64 (z : Z) : Z := z mod 2 ^ 64.
Definition addU64 (a b : Z) : Z := wrapU64 (a + b).

Definition is_int64 (z : Z) : Prop := - 2 ^ 63 <= z < 2 ^ 63.
Definition is_uint64 (z : Z) : Prop := 0 <= z < 2 ^ 64.

(** [byte(v)]: conversion of an unsigned integer to a byte keeps the low
    eight bits. *)
Definition byte_of_Z (z : Z) : byte :=
  match Byte.of_N (Z.to_N (z mod 256)) with
  | Some b => b
  | None => x00
  end.

#[global] Instance byte_eq_dec : EqDecision byte.
Proof.
  intros a b. destruct (N.eq_dec (Byte.to_N a) (Byte.to_N b)) as [e|n].
  - left. apply (f_equal Byte.of_N) in e. rewrite !Byte.of_to_N in e. congruence.
  - right. congruence.
Defined.

(** [uint64(b)] for a byte [b]. *)
Definition Z_of_byte (b : byte) : Z := Z.of_N (Byte.to_N b).

(** [binary.BigEndian.PutUint64(b, v)] on an 8-byte slice [b]. *)
Definition PutUint64 (v : Z) : list byte :=
  [ byte_of_Z (Z.shiftr v 56); byte_of_Z (Z.shiftr v 48);
    byte_of_Z (Z.shiftr v 40); byte_of_Z (Z.shiftr v 32);
    byte_of_Z (Z.shiftr v 24); byte_of_Z (Z.shiftr v 16);
    byte_of_Z (Z.shiftr v 8); byte_of_Z v ].

(** [binary.BigEndian.Uint64(b)]; the callers pass exactly eight bytes
    ([b[:8]] after a length check). *)
Definition Uint64 (b : list byte) : Z :=
  match b with
  | [b0; b1; b2; b3; b4; b5; b6; b7] =>
      Z.lor (Z_of_byte b7)
        (Z.lor (Z.shiftl (Z_of_byte b6) 8)
           (Z.lor (Z.shiftl (Z_of_byte b5) 16)
              (Z.lor (Z.shiftl (Z_of_byte b4) 24)
                 (Z.lor (Z.shiftl (Z_of_byte b3) 32)
                    (Z.lor (Z.shiftl (Z_of_byte b2) 40)
                       (Z.lor (Z.shiftl (Z_of_byte b1) 48)
                          (Z.shiftl (Z_of_byte b0) 56)))))))
  | _ => 0
  end.

(** The byte ['\n']. *)
Definition newline : byte := x0a.

(** [time.Time] instants are counted in nanoseconds from the zero
    [time.Time]; a [time.Duration] is an [int64] count of nanoseconds. *)
Definition Time := Z.
Definition IsZero (t : Time) : bool := t =? 0.
Definition Before (t u : Time) : bool := t <? u.
Definition After (t u : Time) : bool := u <? t.
Definition Nanosecond : Z := 1.
Definition Second : Z := 1000000000.
Definition Minute : Z := 60 * Second.
Definition Hour : Z := 60 * Minute.

End Go.

Export Go.

(* ===================================================================== *)
(** ** Package [meta]: the snapshot data model *)
(* ===================================================================== *)

Module Meta.

(** [influxql.Privilege]. *)
Inductive Privilege : Type :=
| NoPrivileges
| ReadPrivilege
| WritePrivilege
| AllPrivileges.

(** The struct types of the snapshot are declared outside [store.go]; their
    fields are the ones the specification lists (section 3.1) and the ones
    the file reads. *)
Module NodeInfo.
Record t : Type := mk { ID : Z; Host : string; TCPHost : string; Frozen : bool }.
End NodeInfo.

Module ShardInfo.
Record t : Type := mk { ID : Z; Owners : list Z }.
End ShardInfo.

Module ShardGroupInfo.
Record t : Type := mk {
  ID : Z;
  StartTime : Time;
  EndTime : Time;
  DeletedAt : Time;
  Shards : list ShardInfo.t;
  TruncatedAt : Time }.
End ShardGroupInfo.

Module SubscriptionInfo.
Record t : Type := mk { Name : string; Mode : string; Destinations : list string }.
End SubscriptionInfo.

Module RetentionPolicyInfo.
Record t : Type := mk {
  Name : string;
  ReplicaN : Z;
  Duration : Z;
  ShardGroupDuration : Z;
  ShardGroups : list ShardGroupInfo.t;
  Subscriptions : list SubscriptionInfo.t }.
End RetentionPolicyInfo.

Module ContinuousQueryInfo.
Record t : Type := mk { Name : string; Query : string }.
End ContinuousQueryInfo.

Module DatabaseInfo.
Record t : Type := mk {
  Name : string;
  DefaultRetentionPolicy : string;
  RetentionPolicies : list RetentionPolicyInfo.t;
  ContinuousQueries : list ContinuousQueryInfo.t }.
End DatabaseInfo.

Module UserInfo.
Record t : Type := mk {
  Name : string;
  Hash : string;
  Admin : bool;
  Privileges : gmap string Privilege }.
End UserInfo.

(** [meta.RetentionPolicySpec]: the optional fields are Go pointers. *)
Module RetentionPolicySpec.
Record t : Type := mk {
  Name : string;
  ReplicaN : option Z;
  Duration : option Z;
  ShardGroupDuration : Z }.
End RetentionPolicySpec.

Module RetentionPolicyUpdate.
Record t : Type := mk {
  Name : option string;
  Duration : option Z;
  ReplicaN : option Z;
  ShardGroupDuration : option Z }.
End RetentionPolicyUpdate.

(** The snapshot.  [Index] and [ClusterID] are [uint64]; the three [Max*]
    counters are the monotonic counters IDs are drawn from. *)
Module Data.
Record t : Type := mk {
  ClusterID : Z;
  Index : Z;
  Databases : list DatabaseInfo.t;
  Users : list UserInfo.t;
  DataNodes : list NodeInfo.t;
  MetaNodes : list NodeInfo.t;
  MaxNodeID : Z;
  MaxShardGroupID : Z;
  MaxShardID : Z }.

Definition set_Index (i : Z) (d : t) : t :=
  mk (ClusterID d) i (Databases d) (Users d) (DataNodes d) (MetaNodes d)
     (MaxNodeID d) (MaxShardGroupID d) (MaxShardID d).

Definition set_Databases (dbs : list DatabaseInfo.t) (d : t) : t :=
  mk (ClusterID d) (Index d) dbs (Users d) (DataNodes d) (MetaNodes d)
     (MaxNodeID d) (MaxShardGroupID d) (MaxShardID d).

Definition set_Users (us : list UserInfo.t) (d : t) : t :=
  mk (ClusterID d) (Index d) (Databases d) us (DataNodes d) (MetaNodes d)
     (MaxNodeID d) (MaxShardGroupID d) (MaxShardID d).

Definition set_DataNodes (ns : list NodeInfo.t) (d : t) : t :=
  mk (ClusterID d) (Index d) (Databases d) (Users d) ns (MetaNodes d)
     (MaxNodeID d) (MaxShardGroupID d) (MaxShardID d).

(** The value [NewClient] starts from: [ClusterID: 0, Index: 1]. *)
Definition initial : t := mk 0 1 [] [] [] [] 0 0 0.
End Data.

#[global] Instance Data_inhabited : Inhabited Data.t := populate Data.initial.

(** Modelled from the spec: [ShardGroupInfo.Deleted], declared outside the
    file.  "A group is deleted iff [DeletedAt] is non-zero." *)
Definition Deleted (g : ShardGroupInfo.t) : bool :=
  negb (IsZero (ShardGroupInfo.DeletedAt g)).

(** *** The snapshot's methods

    [store.go] calls these methods of [*Data] and of the structs above, but
    none of them is defined in it.  They are parameters of the development:
    a method with a pointer receiver that mutates it is a function from the
    receiver's value to its new value and the results; a method whose
    results the file drops ([data.AddShardOwner(...)] as a statement) only
    returns the new value. *)
Class DataOps : Type := {
  Data_DataNode : Data.t -> Z -> option NodeInfo.t;
  Data_CreateDataNode : Data.t -> string -> string -> Data.t * option error;
  Data_DeleteDataNode : Data.t -> Z -> Data.t * option error;
  Data_IsFreezeDataNode : Data.t -> Z -> bool;
  Data_FreezeDataNode : Data.t -> Z -> Data.t * option error;
  Data_UnfreezeDataNode : Data.t -> Z -> Data.t * option error;
  Data_Database : Data.t -> string -> option DatabaseInfo.t;
  Data_CreateDatabase : Data.t -> string -> Data.t * option error;
  Data_DropDatabase : Data.t -> string -> Data.t * option error;
  Data_RetentionPolicy :
    Data.t -> string -> string -> option RetentionPolicyInfo.t * option error;
  Data_CreateRetentionPolicy :
    Data.t -> string -> RetentionPolicyInfo.t -> bool -> Data.t * option error;
  Data_DropRetentionPolicy : Data.t -> string -> string -> Data.t * option error;
  Data_UpdateRetentionPolicy :
    Data.t -> string -> string -> RetentionPolicyUpdate.t -> bool ->
    Data.t * option error;
  Data_CreateUser : Data.t -> string -> string -> bool -> Data.t * option error;
  Data_UpdateUser : Data.t -> string -> string -> Data.t * option error;
  Data_DropUser : Data.t -> string -> Data.t * option error;
  Data_SetPrivilege :
    Data.t -> string -> string -> Privilege -> Data.t * option error;
  Data_SetAdminPrivilege : Data.t -> string -> bool -> Data.t * option error;
  Data_UserPrivileges :
    Data.t -> string -> option (gmap string Privilege) * option error;
  Data_UserPrivilege :
    Data.t -> string -> string -> option Privilege * option error;
  Data_AdminUserExists : Data.t -> bool;
  Data_AddShardOwner : Data.t -> Z -> Z -> Data.t;
  Data_RemoveShardOwner : Data.t -> Z -> Z -> Data.t;
  Data_DropShard : Data.t -> Z -> Data.t;
  Data_TruncateShardGroups : Data.t -> Time -> Data.t;
  Data_ShardGroupByTimestamp :
    Data.t -> string -> string -> Time -> option ShardGroupInfo.t * option error;
  Data_CreateShardGroup :
    Data.t -> string -> string -> Time -> Data.t * option error;
  Data_DeleteShardGroup :
    Data.t -> string -> string -> Z -> Time -> Data.t * option error;
  Data_CreateContinuousQuery :
    Data.t -> string -> string -> string -> Data.t * option error;
  Data_DropContinuousQuery : Data.t -> string -> string -> Data.t * option error;
  Data_CreateSubscription :
    Data.t -> string -> string -> string -> string -> list string ->
    Data.t * option error;
  Data_DropSubscription :
    Data.t -> string -> string -> string -> Data.t * option error;
  Data_MarshalBinary : Data.t -> list byte * option error;
  (* package meta of influxdb *)
  MinRetentionPolicyDuration : Z;
  DefaultRetentionPolicyInfo : RetentionPolicyInfo.t;
  RetentionPolicySpec_NewRetentionPolicyInfo :
    RetentionPolicySpec.t -> RetentionPolicyInfo.t;
  RetentionPolicySpec_Matches :
    RetentionPolicySpec.t -> option RetentionPolicyInfo.t -> bool;
  DatabaseInfo_RetentionPolicy :
    DatabaseInfo.t -> string -> option RetentionPolicyInfo.t;
  RetentionPolicyInfo_ShardGroupByTimestamp :
    RetentionPolicyInfo.t -> Time -> option ShardGroupInfo.t;
  ShardGroupInfo_Overlaps : ShardGroupInfo.t -> Time -> Time -> bool }.

(** Passwords and hashes: [bcrypt.CompareHashAndPassword] (true when it
    returns a nil error) and [sha256]. *)
Class Crypto : Type := {
  bcrypt_CompareHashAndPassword : list byte -> list byte -> bool;
  sha256_Sum : list byte -> list byte }.

(** *** The client

    [*Data] values are pointers: the client's [cacheData], the argument of
    [SetData] and [ReplaceData], and every clone.  [heap] holds the objects
    they point to, so that an update in place ([c.cacheData.Index = 0],
    [c.data().CreateDataNode(...)], [data.Index++]) is seen through every
    pointer to the object.  The [changed] channel is represented by the
    number of times it has been closed and replaced. *)
Definition loc := positive.

Record authUser : Type := mkAuthUser {
  bhash : string;
  salt : list byte;
  hash : list byte }.

Record Client : Type := mkClient {
  heap : gmap loc Data.t;
  cacheData : loc;
  changed : nat;
  authCache : gmap string authUser;
  path : string;
  retentionAutoCreate : bool }.

Definition set_heap (h : gmap loc Data.t) (c : Client) : Client :=
  mkClient h (cacheData c) (changed c) (authCache c) (path c) (retentionAutoCreate c).
Definition set_cacheData (p : loc) (c : Client) : Client :=
  mkClient (heap c) p (changed c) (authCache c) (path c) (retentionAutoCreate c).
Definition set_changed (n : nat) (c : Client) : Client :=
  mkClient (heap c) (cacheData c) n (authCache c) (path c) (retentionAutoCreate c).
Definition set_authCache (m : gmap string authUser) (c : Client) : Client :=
  mkClient (heap c) (cacheData c) (changed c) m (path c) (retentionAutoCreate c).

(** The pointer [c.cacheData] points to an object. *)
Definition wf (c : Client) : Prop := is_Some (heap c !! cacheData c).

(** A call either returns (the results and the state it leaves) or panics
    (a nil pointer is dereferenced). *)
Inductive res (A : Type) : Type :=
| Ok (a : A)
| Panic.
Arguments Ok {A} a.
Arguments Panic {A}.

Definition M (A : Type) : Type := Client -> res (A * Client).

#[global] Instance M_ret : MRet M := fun A a c => Ok (a, c).
#[global] Instance M_bind : MBind M := fun A B f m c =>
  match m c with
  | Ok (a, c') => f a c'
  | Panic => Panic
  end.

Definition get : M Client := fun c => Ok (c, c).
Definition modify (f : Client -> Client) : M unit := fun c => Ok (tt, f c).
Definition panic {A : Type} : M A := fun _ => Panic.

(** [*p] *)
Definition load (p : loc) : M Data.t := fun c => Ok (heap c !!! p, c).
(** [*p = d] *)
Definition store (p : loc) (d : Data.t) : M unit :=
  modify (fun c => set_heap (<[p := d]> (heap c)) c).
(** [&Data{...}]: a new object at an address not in use. *)
Definition new (d : Data.t) : M loc := fun c =>
  let p := fresh (dom (heap c)) in
  Ok (p, set_heap (<[p := d]> (heap c)) c).
(** [p.Method(args)] for a method that may mutate its receiver. *)
Definition call {R : Type} (p : loc) (f : Data.t -> Data.t * R) : M R :=
  d ← load p;
  let '(d', r) := f d in
  _ ← store p d';
  mret r.
(** [p.Method(args)] for a method that only reads. *)
Definition query {R : Type} (p : loc) (f : Data.t -> R) : M R :=
  d ← load p; mret (f d).

(** The client after the object at [p] has become [d]. *)
Definition withObject (p : loc) (d : Data.t) (c : Client) : Client :=
  set_heap (<[p := d]> (heap c)) c.

(** Modelled from the spec: the method [Clone] of [*Data], which is not in
    the file, is
    "a deep-clone operation": a new object with the contents of the
    original, sharing nothing with it. *)
Definition Data_Clone (p : loc) : M loc :=
  d ← load p; new d.

Notation "'if' c 'is' p 'then' u 'else' v" :=
  (match c with p => u | _ => v end)
  (at level 10, c at level 200, p pattern at level 100, u at level 200,
   v at level 200, only parsing).

Definition NewClient (dir : string) (autoCreate : bool) : Client :=
  mkClient {[ 1%positive := Data.initial ]} 1%positive 0 ∅ dir autoCreate.

(** [snapshot] "saves the current meta data to disk": in this file it only
    returns nil. *)
Definition snapshot (path : string) (data : Data.t) : option error := None.

(** [func (c *Client) commit(data *Data) error] *)
Definition commit (data : loc) : M (option error) :=
  d ← load data;
  _ ← store data (Data.set_Index (addU64 (Data.Index d) 1) d);
  c ← get;
  d ← load data;
  if snapshot (path c) d is Some err then mret (Some err) else
  _ ← modify (set_cacheData data);
  _ ← modify (fun c => set_changed (S (changed c)) c);
  mret None.

(** [func (c *Client) data() *Data] *)
Definition data : M loc := c ← get; mret (cacheData c).

Section client.
Context {ops : DataOps}.

(** **** Reads *)

(** [func (c *Client) DataIndex() uint64] *)
Definition DataIndex : M Z :=
  c ← get; query (cacheData c) Data.Index.

(** [func (c *Client) MarshalBinary() ([]byte, error)] *)
Definition MarshalBinary : M (list byte * option error) :=
  c ← get; query (cacheData c) Data_MarshalBinary.

(** [func (c *Client) Data() Data]: the value of a clone. *)
Definition Data : M Data.t :=
  c ← get;
  d ← Data_Clone (cacheData c);
  load d.

(** [func (c *Client) DataNode(id uint64)] *)
Definition DataNode (id : Z) : M (option NodeInfo.t * option error) :=
  p ← data;
  n ← query p (fun d => Data_DataNode d id);
  if n is Some n then mret (Some n, None) else mret (None, Some ErrNodeNotFound).

(** [DataNodeByTCPHost]: the first node, in slice order, whose [TCPHost] is
    [tcpAddr]. *)
Definition DataNodeByTCPHost (tcpAddr : string)
  : M (option NodeInfo.t * option error) :=
  p ← data;
  nodes ← query p Data.DataNodes;
  if List.find (fun n => String.eqb (NodeInfo.TCPHost n) tcpAddr) nodes is Some n
  then mret (Some n, None)
  else mret (None, Some ErrNodeNotFound).

(** [DataNodeByHTTPHost] *)
Definition DataNodeByHTTPHost (httpAddr : string)
  : M (option NodeInfo.t * option error) :=
  p ← data;
  nodes ← query p Data.DataNodes;
  if List.find (fun n => String.eqb (NodeInfo.Host n) httpAddr) nodes is Some n
  then mret (Some n, None)
  else mret (None, Some ErrNodeNotFound).

(** [func (c *Client) user(name string) (meta.User, error)]: a pointer to a
    copy of the first user of that name, or [nil, meta.ErrUserNotFound]. *)
Definition user (name : string) : M (option UserInfo.t * option error) :=
  c ← get;
  users ← query (cacheData c) Data.Users;
  if List.find (fun u => String.eqb (UserInfo.Name u) name) users is Some u
  then mret (Some u, None)
  else mret (None, Some ErrUserNotFound).

(** [func (c *Client) User(name string) (meta.User, error)] *)
Definition User (name : string) : M (option UserInfo.t * option error) :=
  user name.

(** [func (c *Client) UserCount() int] *)
Definition UserCount : M Z :=
  c ← get;
  users ← query (cacheData c) Data.Users;
  mret (Z.of_nat (length users)).

(** [func (c *Client) ClusterID() uint64] *)
Definition ClusterID : M Z :=
  c ← get; query (cacheData c) Data.ClusterID.

(** [func (c *Client) MetaNodeByAddr(addr string)]: a pointer to a copy of
    the first meta node whose [Host] is [addr], or nil. *)
Definition MetaNodeByAddr (addr : string) : M (option NodeInfo.t) :=
  p ← data;
  nodes ← query p Data.MetaNodes;
  mret (List.find (fun n => String.eqb (NodeInfo.Host n) addr) nodes).

(** [func (c *Client) Database(name string)]: a pointer to a copy of the
    first database of that name, or nil. *)
Definition Database (name : string) : M (option DatabaseInfo.t) :=
  c ← get;
  dbs ← query (cacheData c) Data.Databases;
  mret (List.find (fun d => String.eqb (DatabaseInfo.Name d) name) dbs).

(** [func (c *Client) RetentionPolicy(database, name string)] *)
Definition RetentionPolicy (database name : string)
  : M (option RetentionPolicyInfo.t * option error) :=
  c ← get;
  db ← query (cacheData c) (fun d => Data_Database d database);
  if db is Some db
  then mret (DatabaseInfo_RetentionPolicy db name, None)
  else mret (None, Some (ErrDatabaseNotFound database)).

(** [func (c *Client) UserPrivileges(username string)] *)
Definition UserPrivileges (username : string)
  : M (option (gmap string Privilege) * option error) :=
  c ← get;
  '(p, err) ← query (cacheData c) (fun d => Data_UserPrivileges d username);
  if err is Some err then mret (None, Some err) else mret (p, None).

(** [func (c *Client) UserPrivilege(username, database string)] *)
Definition UserPrivilege (username database : string)
  : M (option Privilege * option error) :=
  c ← get;
  '(p, err) ← query (cacheData c) (fun d => Data_UserPrivilege d username database);
  if err is Some err then mret (None, Some err) else mret (p, None).

(** [func (c *Client) AdminUserExists() bool] *)
Definition AdminUserExists : M bool :=
  c ← get; query (cacheData c) Data_AdminUserExists.

(** [func (c *Client) IsDataNodeFreezed(id uint64) bool] *)
Definition IsDataNodeFreezed (id : Z) : M bool :=
  c ← get; query (cacheData c) (fun d => Data_IsFreezeDataNode d id).

(** [func (c *Client) ShardGroupByTimestamp(database, policy, timestamp)]:
    the error of the snapshot's method is dropped. *)
Definition ShardGroupByTimestamp (database policy : string) (timestamp : Time)
  : M (option ShardGroupInfo.t) :=
  c ← get;
  '(sg, _) ← query (cacheData c)
               (fun d => Data_ShardGroupByTimestamp d database policy timestamp);
  mret sg.

(** The shard groups of a snapshot, in the order of its databases and
    retention policies. *)
Definition shardGroupsOf (d : Data.t) : list ShardGroupInfo.t :=
  flat_map (fun di =>
    flat_map RetentionPolicyInfo.ShardGroups (DatabaseInfo.RetentionPolicies di))
    (Data.Databases d).

(** The shard IDs of a list of databases, in the order in which the four
    nested loops of [ShardIDs] append them. *)
Definition shardIDsOf (dbs : list DatabaseInfo.t) : list Z :=
  flat_map (fun dbi =>
    flat_map (fun rpi =>
      flat_map (fun sgi => List.map ShardInfo.ID (ShardGroupInfo.Shards sgi))
        (RetentionPolicyInfo.ShardGroups rpi))
      (DatabaseInfo.RetentionPolicies dbi))
    dbs.

(** [func (c *Client) ShardIDs() []uint64].  [sort.Sort(uint64Slice(a))]
    orders [a] by [a[i] < a[j]]; equal keys are equal values, so the sorted
    slice does not depend on the algorithm, and a merge sort stands for
    it. *)
Definition ShardIDs : M (list Z) :=
  c ← get;
  dbs ← query (cacheData c) Data.Databases;
  mret (merge_sort Z.le (shardIDsOf dbs)).

(** A [for ... range] loop whose body may return from the function: the
    result of the first element for which it does. *)
Fixpoint firstReturn {A B : Type} (body : A -> option B) (l : list A) : option B :=
  match l with
  | [] => None
  | x :: l => if body x is Some b then Some b else firstReturn body l
  end.

(** [func (c *Client) ShardOwner(shardID uint64) (database, policy string,
    sgi *meta.ShardGroupInfo)]; the named results are the empty strings and
    nil when the loops run to their end. *)
Definition ShardOwner (shardID : Z) : M (string * string * option ShardGroupInfo.t) :=
  c ← get;
  dbs ← query (cacheData c) Data.Databases;
  let found :=
    firstReturn (fun dbi =>
      firstReturn (fun rpi =>
        firstReturn (fun g =>
          if Deleted g then None else
          firstReturn (fun sh =>
            if ShardInfo.ID sh =? shardID
            then Some (DatabaseInfo.Name dbi, RetentionPolicyInfo.Name rpi, Some g)
            else None)
            (ShardGroupInfo.Shards g))
          (RetentionPolicyInfo.ShardGroups rpi))
        (DatabaseInfo.RetentionPolicies dbi))
      dbs in
  mret (default (""%string, ""%string, None) found).

(** [func (c *Client) ShardGroupsByTimeRange(database, policy string, min,
    max time.Time)] *)
Definition ShardGroupsByTimeRange (database policy : string) (min max : Time)
  : M (list ShardGroupInfo.t * option error) :=
  c ← get;
  '(rpi, err) ← query (cacheData c) (fun d => Data_RetentionPolicy d database policy);
  if err is Some err then mret ([], Some err) else
  match rpi with
  | None => mret ([], Some (ErrRetentionPolicyNotFound policy))
  | Some rpi =>
      mret (List.filter
              (fun g => negb (Deleted g || negb (ShardGroupInfo_Overlaps g min max)))
              (RetentionPolicyInfo.ShardGroups rpi),
            None)
  end.

(** **** Mutations

    Each mutation holds [c.mu] for its whole body, so it is a function of
    the state it starts in.  Where the source keeps a pointer into the
    clone ([db := data.Database(name)]) and reads through it after a later
    call has updated the clone, the model looks the object up again. *)

(** [func (c *Client) CreateDataNode(httpAddr, tcpAddr string)]: the only
    mutation that works on [c.data()] itself, not on a clone. *)
Definition CreateDataNode (httpAddr tcpAddr : string)
  : M (option NodeInfo.t * option error) :=
  p ← data;
  err ← call p (fun d => Data_CreateDataNode d httpAddr tcpAddr);
  if err is Some err then mret (None, Some err) else
  '(n, err) ← DataNodeByTCPHost tcpAddr;
  if err is Some err then mret (None, Some err) else
  p ← data;
  err ← commit p;
  if err is Some err then mret (None, Some err) else
  mret (n, None).

(** [func (c *Client) DeleteDataNode(id uint64) error] *)
Definition DeleteDataNode (id : Z) : M (option error) :=
  c ← get;
  data ← Data_Clone (cacheData c);
  err ← call data (fun d => Data_DeleteDataNode d id);
  if err is Some err then mret (Some err) else
  err ← commit data;
  if err is Some err then mret (Some err) else
  mret None.

(** [func (c *Client) CreateDatabase(name string)] *)
Definition CreateDatabase (name : string)
  : M (option DatabaseInfo.t * option error) :=
  c ← get;
  data ← Data_Clone (cacheData c);
  db ← query data (fun d => Data_Database d name);
  if db is Some db then mret (Some db, None) else
  err ← call data (fun d => Data_CreateDatabase d name);
  if err is Some err then mret (None, Some err) else
  err ← (if retentionAutoCreate c
         then call data (fun d =>
                Data_CreateRetentionPolicy d name DefaultRetentionPolicyInfo true)
         else mret None);
  if err is Some err then mret (None, Some err) else
  db ← query data (fun d => Data_Database d name);
  err ← commit data;
  if err is Some err then mret (None, Some err) else
  mret (db, None).

Definition durationTooLow (spec : RetentionPolicySpec.t) : bool :=
  if RetentionPolicySpec.Duration spec is Some dur
  then (dur <? MinRetentionPolicyDuration) && negb (dur =? 0)
  else false.

(** [func (c *Client) CreateDatabaseWithRetentionPolicy(name, spec)];
    [spec] is a pointer, [None] is nil. *)
Definition CreateDatabaseWithRetentionPolicy
    (name : string) (spec : option RetentionPolicySpec.t)
  : M (option DatabaseInfo.t * option error) :=
  match spec with
  | None =>
      mret (None,
            Some (Errorf "CreateDatabaseWithRetentionPolicy called with nil spec"))
  | Some spec =>
      c ← get;
      data ← Data_Clone (cacheData c);
      if durationTooLow spec
      then mret (None, Some ErrRetentionPolicyDurationTooLow) else
      db ← query data (fun d => Data_Database d name);
      err ← (if db is None
             then call data (fun d => Data_CreateDatabase d name)
             else mret None);
      if err is Some err then mret (None, Some err) else
      db ← query data (fun d => Data_Database d name);
      match db with
      | None => panic
      | Some db =>
          let rpi := RetentionPolicySpec_NewRetentionPolicyInfo spec in
          err ← (if Nat.eqb (length (DatabaseInfo.RetentionPolicies db)) 0
                 then call data (fun d =>
                        Data_CreateRetentionPolicy d name rpi true)
                 else if negb (RetentionPolicySpec_Matches spec
                                 (DatabaseInfo_RetentionPolicy db
                                    (RetentionPolicyInfo.Name rpi)))
                 then mret (Some ErrRetentionPolicyConflict)
                 else mret None);
          if err is Some err then mret (None, Some err) else
          db ← query data (fun d => Data_Database d name);
          match db with
          | None => panic
          | Some db =>
              if negb (String.eqb (DatabaseInfo.DefaultRetentionPolicy db)
                         (RetentionPolicyInfo.Name rpi))
              then mret (None, Some ErrRetentionPolicyConflict) else
              err ← commit data;
              if err is Some err then mret (None, Some err) else
              db ← query data (fun d => Data_Database d name);
              mret (db, None)
          end
      end
  end.

(** [func (c *Client) DropDatabase(name string) error] *)
Definition DropDatabase (name : string) : M (option error) :=
  c ← get;
  data ← Data_Clone (cacheData c);
  err ← call data (fun d => Data_DropDatabase d name);
  if err is Some err then mret (Some err) else
  err ← commit data;
  if err is Some err then mret (Some err) else
  mret None.

(** [func (c *Client) CreateRetentionPolicy(database, spec, makeDefault)];
    a nil [spec] is dereferenced by [spec.Duration]. *)
Definition CreateRetentionPolicy
    (database : string) (spec : option RetentionPolicySpec.t) (makeDefault : bool)
  : M (option RetentionPolicyInfo.t * option error) :=
  c ← get;
  data ← Data_Clone (cacheData c);
  match spec with
  | None => panic
  | Some spec =>
      if durationTooLow spec
      then mret (None, Some ErrRetentionPolicyDurationTooLow) else
      let rp := RetentionPolicySpec_NewRetentionPolicyInfo spec in
      err ← call data (fun d => Data_CreateRetentionPolicy d database rp makeDefault);
      if err is Some err then mret (None, Some err) else
      err ← commit data;
      if err is Some err then mret (None, Some err) else
      mret (Some rp, None)
  end.

(** [func (c *Client) DropRetentionPolicy(database, name string) error] *)
Definition DropRetentionPolicy (database name : string) : M (option error) :=
  c ← get;
  data ← Data_Clone (cacheData c);
  err ← call data (fun d => Data_DropRetentionPolicy d database name);
  if err is Some err then mret (Some err) else
  err ← commit data;
  if err is Some err then mret (Some err) else
  mret None.

(** [func (c *Client) UpdateRetentionPolicy(database, name, rpu, makeDefault)] *)
Definition UpdateRetentionPolicy
    (database name : string) (rpu : RetentionPolicyUpdate.t) (makeDefault : bool)
  : M (option error) :=
  c ← get;
  data ← Data_Clone (cacheData c);
  err ← call data (fun d => Data_UpdateRetentionPolicy d database name rpu makeDefault);
  if err is Some err then mret (Some err) else
  err ← commit data;
  if err is Some err then mret (Some err) else
  mret None.

(** [func (c *Client) CreateUser(name, hashedPassword string, admin bool)].
    The test [err != nil && u != nil] is kept as written. *)
Definition CreateUser (name hashedPassword : string) (admin : bool)
  : M (option UserInfo.t * option error) :=
  c ← get;
  data ← Data_Clone (cacheData c);
  '(u, err) ← user name;
  match err, u with
  | Some _, Some info =>
      if negb (String.eqb (UserInfo.Hash info) hashedPassword)
         || negb (Bool.eqb (UserInfo.Admin info) admin)
      then mret (None, Some ErrUserExists)
      else mret (Some info, None)
  | _, _ =>
      err ← call data (fun d => Data_CreateUser d name hashedPassword admin);
      if err is Some err then mret (None, Some err) else
      err ← commit data;
      if err is Some err then mret (None, Some err) else
      user name
  end.

(** [func (c *Client) UpdateUser(name, hashedPassword string) error];
    [defer delete(c.authCache, name)] runs when the function returns. *)
Definition UpdateUser (name hashedPassword : string) : M (option error) :=
  c ← get;
  data ← Data_Clone (cacheData c);
  err ← call data (fun d => Data_UpdateUser d name hashedPassword);
  if err is Some err then mret (Some err) else
  err ← commit data;
  _ ← modify (fun c => set_authCache (delete name (authCache c)) c);
  mret err.

(** [func (c *Client) DropUser(name string) error] *)
Definition DropUser (name : string) : M (option error) :=
  c ← get;
  data ← Data_Clone (cacheData c);
  err ← call data (fun d => Data_DropUser d name);
  if err is Some err then mret (Some err) else
  err ← commit data;
  _ ← modify (fun c => set_authCache (delete name (authCache c)) c);
  if err is Some err then mret (Some err) else
  mret None.

(** [func (c *Client) SetPrivilege(username, database string, p)] *)
Definition SetPrivilege (username database : string) (p : Privilege)
  : M (option error) :=
  c ← get;
  data ← Data_Clone (cacheData c);
  err ← call data (fun d => Data_SetPrivilege d username database p);
  if err is Some err then mret (Some err) else
  err ← commit data;
  if err is Some err then mret (Some err) else
  mret None.

(** [func (c *Client) SetAdminPrivilege(username string, admin bool) error] *)
Definition SetAdminPrivilege (username : string) (admin : bool) : M (option error) :=
  c ← get;
  data ← Data_Clone (cacheData c);
  err ← call data (fun d => Data_SetAdminPrivilege d username admin);
  if err is Some err then mret (Some err) else
  err ← commit data;
  if err is Some err then mret (Some err) else
  mret None.

(** [func (c *Client) AddShardOwner(shardID, nodeID uint64) error] *)
Definition AddShardOwner (shardID nodeID : Z) : M (option error) :=
  c ← get;
  data ← Data_Clone (cacheData c);
  _ ← call data (fun d => (Data_AddShardOwner d shardID nodeID, tt));
  commit data.

(** [func (c *Client) RemoveShardOwner(shardID, nodeID uint64) error] *)
Definition RemoveShardOwner (shardID nodeID : Z) : M (option error) :=
  c ← get;
  data ← Data_Clone (cacheData c);
  _ ← call data (fun d => (Data_RemoveShardOwner d shardID nodeID, tt));
  commit data.

(** [func (c *Client) DropShard(id uint64) error] *)
Definition DropShard (id : Z) : M (option error) :=
  c ← get;
  data ← Data_Clone (cacheData c);
  _ ← call data (fun d => (Data_DropShard d id, tt));
  commit data.

(** [func (c *Client) TruncateShardGroups(t time.Time) error] *)
Definition TruncateShardGroups (t : Time) : M (option error) :=
  c ← get;
  data ← Data_Clone (cacheData c);
  _ ← call data (fun d => (Data_TruncateShardGroups d t, tt));
  commit data.

(** The loop body of [PruneShardGroups] for one retention policy: the
    groups that stay, and whether one was dropped. *)
Definition remainingShardGroups (expiration : Time) (groups : list ShardGroupInfo.t)
  : list ShardGroupInfo.t :=
  List.filter
    (fun sgi => IsZero (ShardGroupInfo.DeletedAt sgi)
                || negb (After expiration (ShardGroupInfo.DeletedAt sgi)))
    groups.

Definition pruneRetentionPolicy (expiration : Time) (rp : RetentionPolicyInfo.t)
  : RetentionPolicyInfo.t :=
  RetentionPolicyInfo.mk
    (RetentionPolicyInfo.Name rp) (RetentionPolicyInfo.ReplicaN rp)
    (RetentionPolicyInfo.Duration rp) (RetentionPolicyInfo.ShardGroupDuration rp)
    (remainingShardGroups expiration (RetentionPolicyInfo.ShardGroups rp))
    (RetentionPolicyInfo.Subscriptions rp).

Definition pruneDatabase (expiration : Time) (d : DatabaseInfo.t) : DatabaseInfo.t :=
  DatabaseInfo.mk
    (DatabaseInfo.Name d) (DatabaseInfo.DefaultRetentionPolicy d)
    (List.map (pruneRetentionPolicy expiration) (DatabaseInfo.RetentionPolicies d))
    (DatabaseInfo.ContinuousQueries d).

Definition pruneChanged (expiration : Time) (dbs : list DatabaseInfo.t) : bool :=
  List.existsb (fun d =>
    List.existsb (fun rp =>
      negb (Nat.eqb
              (length (remainingShardGroups expiration
                         (RetentionPolicyInfo.ShardGroups rp)))
              (length (RetentionPolicyInfo.ShardGroups rp))))
      (DatabaseInfo.RetentionPolicies d)) dbs.

(** [func (c *Client) PruneShardGroups(expiration time.Time) error] *)
Definition PruneShardGroups (expiration : Time) : M (option error) :=
  c ← get;
  data ← Data_Clone (cacheData c);
  changed ← call data (fun d =>
    (Data.set_Databases (List.map (pruneDatabase expiration) (Data.Databases d)) d,
     pruneChanged expiration (Data.Databases d)));
  if changed : bool then commit data else mret None.

(** [func createShardGroup(data *Data, database, policy string, timestamp)] *)
Definition createShardGroup (data : loc) (database policy : string) (timestamp : Time)
  : M (option ShardGroupInfo.t * option error) :=
  '(sg, _) ← query data (fun d => Data_ShardGroupByTimestamp d database policy timestamp);
  if sg is Some _ then mret (None, Some ErrShardGroupExists) else
  err ← call data (fun d => Data_CreateShardGroup d database policy timestamp);
  if err is Some err then mret (None, Some err) else
  '(rpi, err) ← query data (fun d => Data_RetentionPolicy d database policy);
  if err is Some err then mret (None, Some err) else
  match rpi with
  | None =>
      mret (None, Some (Errorf "retention policy deleted after shard group created"))
  | Some rpi =>
      let sgi := RetentionPolicyInfo_ShardGroupByTimestamp rpi timestamp in
      mret (sgi, None)
  end.

(** [func (c *Client) CreateShardGroup(database, policy string, timestamp)] *)
Definition CreateShardGroup (database policy : string) (timestamp : Time)
  : M (option ShardGroupInfo.t * option error) :=
  c ← get;
  '(sg, _) ← query (cacheData c)
               (fun d => Data_ShardGroupByTimestamp d database policy timestamp);
  if sg is Some sg then mret (Some sg, None) else
  data ← Data_Clone (cacheData c);
  '(sg, _) ← query data (fun d => Data_ShardGroupByTimestamp d database policy timestamp);
  if sg is Some sg then mret (Some sg, None) else
  '(sgi, err) ← createShardGroup data database policy timestamp;
  if err is Some err then mret (None, Some err) else
  err ← commit data;
  if err is Some err then mret (None, Some err) else
  mret (sgi, None).

(** [func (c *Client) FreezeDataNode(id uint64) error] *)
Definition FreezeDataNode (id : Z) : M (option error) :=
  c ← get;
  data ← Data_Clone (cacheData c);
  err ← call data (fun d => Data_FreezeDataNode d id);
  if err is Some err then mret (Some err) else
  err ← commit data;
  if err is Some err then mret (Some err) else
  mret None.

(** [func (c *Client) UnfreezeDataNode(id uint64) error] *)
Definition UnfreezeDataNode (id : Z) : M (option error) :=
  c ← get;
  data ← Data_Clone (cacheData c);
  err ← call data (fun d => Data_UnfreezeDataNode d id);
  if err is Some err then mret (Some err) else
  err ← commit data;
  if err is Some err then mret (Some err) else
  mret None.

(** [func (c *Client) DeleteShardGroup(database, policy string, id, t)] *)
Definition DeleteShardGroup (database policy : string) (id : Z) (t : Time)
  : M (option error) :=
  c ← get;
  data ← Data_Clone (cacheData c);
  err ← call data (fun d => Data_DeleteShardGroup d database policy id t);
  if err is Some err then mret (Some err) else
  err ← commit data;
  if err is Some err then mret (Some err) else
  mret None.

(** A [for ... range] loop that threads a local variable. *)
Fixpoint forRange {A B : Type} (l : list A) (b : B) (body : B -> A -> M B) : M B :=
  match l with
  | [] => mret b
  | x :: l => b ← body b x; forRange l b body
  end.

(** The body of the inner loop of [PrecreateShardGroups], for the retention
    policy [rp] of the database named [diName]; [changed] is the local
    variable of that name.  The last log call reads [newGroup.ID]. *)
Definition precreateRetentionPolicy
    (from to : Time) (data : loc) (diName : string)
    (changed : bool) (rp : RetentionPolicyInfo.t) : M bool :=
  match last (RetentionPolicyInfo.ShardGroups rp) with
  | None => mret changed
  | Some g =>
      if negb (Deleted g)
         && Before (ShardGroupInfo.EndTime g) to
         && After (ShardGroupInfo.EndTime g) from
      then
        let nextShardGroupTime := ShardGroupInfo.EndTime g + 1 * Nanosecond in
        '(sg, _) ← query data (fun d =>
                     Data_ShardGroupByTimestamp d diName
                       (RetentionPolicyInfo.Name rp) nextShardGroupTime);
        if sg is Some _ then mret changed else
        '(newGroup, err) ← createShardGroup data diName
                             (RetentionPolicyInfo.Name rp) nextShardGroupTime;
        if err is Some _ then mret changed else
        if newGroup is Some _ then mret true else panic
      else mret changed
  end.

(** [func (c *Client) PrecreateShardGroups(from, to time.Time) error].
    [range] copies each element when its turn comes; the snapshot's
    [CreateShardGroup] rewrites the retention policy it is called for, the
    one whose copy [rp] the body already holds, so the loops run over the
    elements of the clone as they are when the function starts. *)
Definition PrecreateShardGroups (from to : Time) : M (option error) :=
  c ← get;
  data ← Data_Clone (cacheData c);
  dbs ← query data Data.Databases;
  changed ← forRange dbs false (fun changed di =>
    forRange (DatabaseInfo.RetentionPolicies di) changed
      (precreateRetentionPolicy from to data (DatabaseInfo.Name di)));
  if changed : bool then
    err ← commit data;
    if err is Some err then mret (Some err) else mret None
  else mret None.

(** [func (c *Client) CreateContinuousQuery(database, name, query string)] *)
Definition CreateContinuousQuery (database name q : string) : M (option error) :=
  c ← get;
  data ← Data_Clone (cacheData c);
  err ← call data (fun d => Data_CreateContinuousQuery d database name q);
  if err is Some err then mret (Some err) else
  err ← commit data;
  if err is Some err then mret (Some err) else
  mret None.

(** [func (c *Client) DropContinuousQuery(database, name string) error] *)
Definition DropContinuousQuery (database name : string) : M (option error) :=
  c ← get;
  data ← Data_Clone (cacheData c);
  err ← call data (fun d => Data_DropContinuousQuery d database name);
  if err is Some err then mret (Some err) else
  err ← commit data;
  if err is Some err then mret (Some err) else
  mret None.

(** [func (c *Client) CreateSubscription(database, rp, name, mode, dests)] *)
Definition CreateSubscription
    (database rp name mode : string) (destinations : list string)
  : M (option error) :=
  c ← get;
  data ← Data_Clone (cacheData c);
  err ← call data (fun d =>
          Data_CreateSubscription d database rp name mode destinations);
  if err is Some err then mret (Some err) else
  err ← commit data;
  if err is Some err then mret (Some err) else
  mret None.

(** [func (c *Client) DropSubscription(database, rp, name string) error] *)
Definition DropSubscription (database rp name : string) : M (option error) :=
  c ← get;
  data ← Data_Clone (cacheData c);
  err ← call data (fun d => Data_DropSubscription d database rp name);
  if err is Some err then mret (Some err) else
  err ← commit data;
  if err is Some err then mret (Some err) else
  mret None.

(** [func (c *Client) SetData(data *Data) error] *)
Definition SetData (data : loc) : M (option error) :=
  c ← get;
  d ← load (cacheData c);
  _ ← store (cacheData c) (Data.set_Index 0 d);
  clone ← Data_Clone data;
  err ← commit clone;
  if err is Some err then mret (Some err) else
  mret None.

(** [func (c *Client) ReplaceData(data *Data) error] *)
Definition ReplaceData (data : loc) : M (option error) :=
  c ← get;
  d ← load data;
  if snapshot (path c) d is Some err then mret (Some err) else
  _ ← modify (set_cacheData data);
  _ ← modify (fun c => set_changed (S (changed c)) c);
  mret None.

(** **** [PrecreateShardGroups] in the specification's words

    "For each retention policy with at least one group, consider the
    chronologically last group [g].  If [g] is live and [g.EndTime] lies
    in [(from, to)], then create the successor group at timestamp
    [g.EndTime + 1ns].  Skip if already present.  One commit at the end
    covers all creations; no commit if nothing changed."  The definitions
    below say this on the value of the snapshot. *)

(** The retention policies of a snapshot, each with the name of its
    database, in the order of the snapshot. *)
Definition policiesOf (d : Data.t) : list (string * RetentionPolicyInfo.t) :=
  flat_map (fun di =>
    List.map (fun rp => (DatabaseInfo.Name di, rp))
      (DatabaseInfo.RetentionPolicies di))
    (Data.Databases d).

(** The timestamp at which a successor of the last group of [rp] is due in
    the snapshot [d], if one is. *)
Definition successorDue (from to : Time) (d : Data.t) (database : string)
    (rp : RetentionPolicyInfo.t) : option Time :=
  match last (RetentionPolicyInfo.ShardGroups rp) with
  | None => None
  | Some g =>
      let ts := ShardGroupInfo.EndTime g + 1 in
      if negb (Deleted g)
         && (from <? ShardGroupInfo.EndTime g)
         && (ShardGroupInfo.EndTime g <? to)
      then
        if (Data_ShardGroupByTimestamp d database (RetentionPolicyInfo.Name rp) ts).1
           is Some _
        then None
        else Some ts
      else None
  end.

(** Creating the group of [policy] at [ts] in the snapshot [d]: the new
    snapshot, and the group or the reason why there is none. *)
Definition createGroup (d : Data.t) (database policy : string) (ts : Time)
  : Data.t * (option ShardGroupInfo.t * option error) :=
  if (Data_ShardGroupByTimestamp d database policy ts).1 is Some _
  then (d, (None, Some ErrShardGroupExists))
  else
    let '(d', err) := Data_CreateShardGroup d database policy ts in
    if err is Some err then (d', (None, Some err)) else
    match Data_RetentionPolicy d' database policy with
    | (_, Some err) => (d', (None, Some err))
    | (None, None) =>
        (d', (None, Some (Errorf "retention policy deleted after shard group created")))
    | (Some rpi, None) =>
        (d', (RetentionPolicyInfo_ShardGroupByTimestamp rpi ts, None))
    end.

(** The policies in turn: the snapshot that results and whether a group
    was created.  A creation that is refused is skipped; one that reports
    success without a group is the nil dereference of the log call. *)
Fixpoint precreateAll (from to : Time) (jobs : list (string * RetentionPolicyInfo.t))
    (d : Data.t) (created : bool) : res (Data.t * bool) :=
  match jobs with
  | [] => Ok (d, created)
  | (database, rp) :: jobs =>
      match successorDue from to d database rp with
      | None => precreateAll from to jobs d created
      | Some ts =>
          match createGroup d database (RetentionPolicyInfo.Name rp) ts with
          | (d', (Some _, None)) => precreateAll from to jobs d' true
          | (d', (None, None)) => Panic
          | (d', (_, Some _)) => precreateAll from to jobs d' created
          end
      end
  end.

(** The mutations of the client, as calls. *)
Inductive mutation : Type :=
| mCreateDataNode (httpAddr tcpAddr : string)
| mDeleteDataNode (id : Z)
| mCreateDatabase (name : string)
| mCreateDatabaseWithRetentionPolicy (name : string) (spec : option RetentionPolicySpec.t)
| mDropDatabase (name : string)
| mCreateRetentionPolicy (database : string) (spec : option RetentionPolicySpec.t)
    (makeDefault : bool)
| mDropRetentionPolicy (database name : string)
| mUpdateRetentionPolicy (database name : string) (rpu : RetentionPolicyUpdate.t)
    (makeDefault : bool)
| mCreateUser (name hashedPassword : string) (admin : bool)
| mUpdateUser (name hashedPassword : string)
| mDropUser (name : string)
| mSetPrivilege (username database : string) (p : Privilege)
| mSetAdminPrivilege (username : string) (admin : bool)
| mAddShardOwner (shardID nodeID : Z)
| mRemoveShardOwner (shardID nodeID : Z)
| mDropShard (id : Z)
| mTruncateShardGroups (t : Time)
| mPruneShardGroups (expiration : Time)
| mCreateShardGroup (database policy : string) (timestamp : Time)
| mFreezeDataNode (id : Z)
| mUnfreezeDataNode (id : Z)
| mDeleteShardGroup (database policy : string) (id : Z) (t : Time)
| mPrecreateShardGroups (from to : Time)
| mCreateContinuousQuery (database name q : string)
| mDropContinuousQuery (database name : string)
| mCreateSubscription (database rp name mode : string) (destinations : list string)
| mDropSubscription (database rp name : string)
| mSetData (data : loc)
| mReplaceData (data : loc).

(** The error a mutation returns ([None] is nil). *)
Definition run (m : mutation) : M (option error) :=
  match m with
  | mCreateDataNode h t => r ← CreateDataNode h t; mret r.2
  | mDeleteDataNode id => DeleteDataNode id
  | mCreateDatabase n => r ← CreateDatabase n; mret r.2
  | mCreateDatabaseWithRetentionPolicy n s =>
      r ← CreateDatabaseWithRetentionPolicy n s; mret r.2
  | mDropDatabase n => DropDatabase n
  | mCreateRetentionPolicy db s mk => r ← CreateRetentionPolicy db s mk; mret r.2
  | mDropRetentionPolicy db n => DropRetentionPolicy db n
  | mUpdateRetentionPolicy db n rpu mk => UpdateRetentionPolicy db n rpu mk
  | mCreateUser n h a => r ← CreateUser n h a; mret r.2
  | mUpdateUser n h => UpdateUser n h
  | mDropUser n => DropUser n
  | mSetPrivilege u db p => SetPrivilege u db p
  | mSetAdminPrivilege u a => SetAdminPrivilege u a
  | mAddShardOwner s n => AddShardOwner s n
  | mRemoveShardOwner s n => RemoveShardOwner s n
  | mDropShard id => DropShard id
  | mTruncateShardGroups t => TruncateShardGroups t
  | mPruneShardGroups e => PruneShardGroups e
  | mCreateShardGroup db rp t => r ← CreateShardGroup db rp t; mret r.2
  | mFreezeDataNode id => FreezeDataNode id
  | mUnfreezeDataNode id => UnfreezeDataNode id
  | mDeleteShardGroup db rp id t => DeleteShardGroup db rp id t
  | mPrecreateShardGroups from to => PrecreateShardGroups from to
  | mCreateContinuousQuery db n q => CreateContinuousQuery db n q
  | mDropContinuousQuery db n => DropContinuousQuery db n
  | mCreateSubscription db rp n mode ds => CreateSubscription db rp n mode ds
  | mDropSubscription db rp n => DropSubscription db rp n
  | mSetData p => SetData p
  | mReplaceData p => ReplaceData p
  end.

(** The mutations that write to the cached object itself:
    [CreateDataNode] calls the snapshot's method on [c.data()], and
    [SetData] assigns to [c.cacheData.Index]. *)
Definition writesCache (m : mutation) : bool :=
  match m with
  | mCreateDataNode _ _ | mSetData _ => true
  | _ => false
  end.

(** The mutations whose body is: clone the cached snapshot, call one
    method of the clone, return its error if it has one, commit.  For each,
    the method it calls (one whose results the file drops returns no
    error). *)
Definition dataMethod (m : mutation) : option (Data.t -> Data.t * option error) :=
  match m with
  | mDeleteDataNode id => Some (fun d => Data_DeleteDataNode d id)
  | mDropDatabase n => Some (fun d => Data_DropDatabase d n)
  | mDropRetentionPolicy db n => Some (fun d => Data_DropRetentionPolicy d db n)
  | mUpdateRetentionPolicy db n rpu mk =>
      Some (fun d => Data_UpdateRetentionPolicy d db n rpu mk)
  | mUpdateUser n h => Some (fun d => Data_UpdateUser d n h)
  | mDropUser n => Some (fun d => Data_DropUser d n)
  | mSetPrivilege u db p => Some (fun d => Data_SetPrivilege d u db p)
  | mSetAdminPrivilege u a => Some (fun d => Data_SetAdminPrivilege d u a)
  | mAddShardOwner s n => Some (fun d => (Data_AddShardOwner d s n, None))
  | mRemoveShardOwner s n => Some (fun d => (Data_RemoveShardOwner d s n, None))
  | mDropShard id => Some (fun d => (Data_DropShard d id, None))
  | mTruncateShardGroups t => Some (fun d => (Data_TruncateShardGroups d t, None))
  | mFreezeDataNode id => Some (fun d => Data_FreezeDataNode d id)
  | mUnfreezeDataNode id => Some (fun d => Data_UnfreezeDataNode d id)
  | mDeleteShardGroup db rp id t => Some (fun d => Data_DeleteShardGroup d db rp id t)
  | mCreateContinuousQuery db n q =>
      Some (fun d => Data_CreateContinuousQuery d db n q)
  | mDropContinuousQuery db n => Some (fun d => Data_DropContinuousQuery d db n)
  | mCreateSubscription db rp n mode ds =>
      Some (fun d => Data_CreateSubscription d db rp n mode ds)
  | mDropSubscription db rp n => Some (fun d => Data_DropSubscription d db rp n)
  | _ => None
  end.

(** **** Authentication *)

Context {crypto : Crypto}.

(** [func (c *Client) hashWithSalt(salt []byte, password string) []byte] *)
Definition hashWithSalt (salt : list byte) (password : string) : list byte :=
  sha256_Sum (salt ++ list_byte_of_string password).

(** [SALT_LENGTH] *)
Definition SALT_LENGTH : nat := 32.

(** [func (c *Client) saltedHash(password string)].  [rnd] is what
    [io.ReadFull(crand.Reader, salt)] does: the [SALT_LENGTH] bytes it
    fills [salt] with, or the error it returns. *)
Definition saltedHash (rnd : list byte + error) (password : string)
  : list byte * list byte * option error :=
  match rnd with
  | inr err => ([], [], Some err)
  | inl salt => (salt, hashWithSalt salt password, None)
  end.

(** [func (c *Client) Authenticate(username, password string)] *)
Definition Authenticate (username password : string) (rnd : list byte + error)
  : M (option UserInfo.t * option error) :=
  '(userInfo, err) ← user username;
  if err is Some err then mret (None, Some err) else
  match userInfo with
  | None => mret (None, Some ErrUserNotFound)
  | Some userInfo =>
      c ← get;
      let hit :=
        if authCache c !! username is Some au
        then bool_decide (hashWithSalt (salt au) password = hash au)
        else false in
      if hit then mret (Some userInfo, None) else
      if negb (bcrypt_CompareHashAndPassword
                 (list_byte_of_string (UserInfo.Hash userInfo))
                 (list_byte_of_string password))
      then mret (None, Some ErrAuthenticate) else
      match saltedHash rnd password with
      | (_, _, Some err) => mret (None, Some err)
      | (salt, hashed, None) =>
          _ ← modify (fun c =>
                set_authCache
                  (<[username := mkAuthUser (UserInfo.Hash userInfo) salt hashed]>
                     (authCache c)) c);
          mret (Some userInfo, None)
      end
  end.

End client.

End Meta.

(* ===================================================================== *)
(** ** The read path at the level of slices *)
(* ===================================================================== *)

(** [Meta] represents a field of type [[]T] by its elements.  That hides
    what a caller can do with a slice it was handed: a slice value is a
    pointer to a backing array and a length, and two slice values with the
    same pointer see each other's writes.  This module keeps the backing
    arrays of the snapshot's top-level slices in a store and embeds the
    reads of [store.go] that return them. *)
Module Slices.

Import Meta.

(** A slice value; [array = None] is the nil slice. *)
Record slice : Type := mkSlice { array : option loc; len : nat }.

Definition nilSlice : slice := mkSlice None 0.

Section arrays.
Context {T : Type}.

(** The elements a slice shows: [s[0], ..., s[len(s)-1]]. *)
Definition elements (h : gmap loc (list T)) (s : slice) : list T :=
  match array s with
  | Some p => take (len s) (default [] (h !! p))
  | None => []
  end.

(** [s[i] = v]; [None] when the index is out of range (the statement
    panics). *)
Definition assign (h : gmap loc (list T)) (s : slice) (i : nat) (v : T)
  : option (gmap loc (list T)) :=
  match array s with
  | Some p =>
      if (i <? len s)%nat
      then Some (<[p := <[i := v]> (default [] (h !! p))]> h)
      else None
  | None => None
  end.

(** A new backing array holding [l], and the slice over it. *)
Definition make (h : gmap loc (list T)) (l : list T) : slice * gmap loc (list T) :=
  let p := fresh (dom h) in
  (mkSlice (Some p) (length l), <[p := l]> h).

(** A copy of a slice over a backing array of its own; nil stays nil. *)
Definition cloneSlice (h : gmap loc (list T)) (s : slice) : slice * gmap loc (list T) :=
  match array s with
  | Some _ => make h (elements h s)
  | None => (nilSlice, h)
  end.

End arrays.

(** The snapshot, with its top-level slices as slice values. *)
Record Data : Type := mkData {
  ClusterID : Z;
  Index : Z;
  Databases : slice;
  Users : slice;
  DataNodes : slice;
  MetaNodes : slice }.

(** The backing arrays, by element type, and the object [c.cacheData]
    points to. *)
Record Client : Type := mkClient {
  databaseArrays : gmap loc (list DatabaseInfo.t);
  userArrays : gmap loc (list UserInfo.t);
  nodeArrays : gmap loc (list NodeInfo.t);
  cacheData : Data }.

(** [func (c *Client) Databases() []meta.DatabaseInfo]: the cached slice
    itself, or a new empty slice when it is nil. *)
Definition Client_Databases (c : Client) : slice * Client :=
  let dbs := Databases (cacheData c) in
  if array dbs is None then
    let '(s, h) := make (databaseArrays c) [] in
    (s, mkClient h (userArrays c) (nodeArrays c) (cacheData c))
  else (dbs, c).

(** [func (c *Client) Users() []meta.UserInfo] *)
Definition Client_Users (c : Client) : slice * Client :=
  let users := Users (cacheData c) in
  if array users is None then
    let '(s, h) := make (userArrays c) [] in
    (s, mkClient (databaseArrays c) h (nodeArrays c) (cacheData c))
  else (users, c).

(** [func (c *Client) DataNodes() []meta.NodeInfo] *)
Definition Client_DataNodes (c : Client) : slice * Client :=
  (DataNodes (cacheData c), c).

(** Modelled from the spec: the method [Clone] of [*Data], which is not in
    the file: "a true deep clone (no structural sharing of mutable
    substructures)".  Every slice of the copy gets a backing array of its
    own. *)
Definition Data_Clone (c : Client) : Data * Client :=
  let d := cacheData c in
  let '(dbs, hd) := cloneSlice (databaseArrays c) (Databases d) in
  let '(us, hu) := cloneSlice (userArrays c) (Users d) in
  let '(dns, hn) := cloneSlice (nodeArrays c) (DataNodes d) in
  let '(mns, hn) := cloneSlice hn (MetaNodes d) in
  (mkData (ClusterID d) (Index d) dbs us dns mns, mkClient hd hu hn d).

(** [func (c *Client) Data() Data] *)
Definition Client_Data (c : Client) : Data * Client := Data_Clone c.

(** What a caller does with a slice of databases, users or nodes it holds:
    assign to an element. *)
Definition assignDatabase (c : Client) (s : slice) (i : nat) (v : DatabaseInfo.t)
  : option Client :=
  h ← assign (databaseArrays c) s i v;
  Some (mkClient h (userArrays c) (nodeArrays c) (cacheData c)).

Definition assignUser (c : Client) (s : slice) (i : nat) (v : UserInfo.t)
  : option Client :=
  h ← assign (userArrays c) s i v;
  Some (mkClient (databaseArrays c) h (nodeArrays c) (cacheData c)).

Definition assignNode (c : Client) (s : slice) (i : nat) (v : NodeInfo.t)
  : option Client :=
  h ← assign (nodeArrays c) s i v;
  Some (mkClient (databaseArrays c) (userArrays c) h (cacheData c)).

(** What the reads show of the cached snapshot. *)
Definition seenDatabases (c : Client) : list DatabaseInfo.t :=
  let '(s, c') := Client_Databases c in elements (databaseArrays c') s.

Definition seenUsers (c : Client) : list UserInfo.t :=
  let '(s, c') := Client_Users c in elements (userArrays c') s.

Definition seenDataNodes (c : Client) : list NodeInfo.t :=
  let '(s, c') := Client_DataNodes c in elements (nodeArrays c') s.

(** The slices of the cached snapshot point to arrays that hold at least
    [len] elements. *)
Definition backed {T : Type} (h : gmap loc (list T)) (s : slice) : Prop :=
  match array s with
  | Some p => exists l, h !! p = Some l /\ (len s <= length l)%nat
  | None => True
  end.

Definition wf (c : Client) : Prop :=
  backed (databaseArrays c) (Databases (cacheData c))
  /\ backed (userArrays c) (Users (cacheData c))
  /\ backed (nodeArrays c) (DataNodes (cacheData c))
  /\ backed (nodeArrays c) (MetaNodes (cacheData c)).

End Slices.

(* ===================================================================== *)
(** ** Package [hh]: the hinted-handoff node processor *)
(* ===================================================================== *)

Module HH.

(** The keys of the exported statistics.  The file declares the last
    three; the first two are declared elsewhere in the package and are
    taken from the list of exported statistics (specification, section 6). *)
Definition writeShardReq : string := "writeShardReq".
Definition writeShardReqPoints : string := "writeShardReqPoints".
Definition writeNodeReq : string := "writeNodeReq".
Definition writeNodeReqFail : string := "writeNodeReqFail".
Definition writeNodeReqPoints : string := "writeNodeReqPoints".

(** [models.Point] and the line protocol: [p.String()] and
    [models.ParsePoints]. *)
Class PointOps (Point : Type) : Type := {
  Point_String : Point -> list byte;
  ParsePoints : list byte -> list Point * option error }.

(** The on-disk [queue] of the package (not in the file). *)
Class queueOps (Q : Type) : Type := {
  queue_Append : Q -> list byte -> Q * option error;
  queue_Current : Q -> list byte * option error;
  queue_Advance : Q -> Q * option error;
  queue_PurgeOlderThan : Q -> Time -> Q * option error }.

(** The interface [metaClient]. *)
Class metaClient (M : Type) : Type := {
  meta_DataNode : M -> Z -> option Meta.NodeInfo.t * option error }.

(** The interface [shardWriter]; the writer's state is what the remote
    node has received. *)
Class shardWriter (W Point : Type) : Type := {
  writer_WriteShard : W -> Z -> Z -> list Point -> W * option error }.

Record NodeProcessorStatistics : Type := mkStats {
  WriteShardReq : Z;
  WriteShardReqPoints : Z;
  WriteNodeReq : Z;
  WriteNodeReqFail : Z;
  WriteNodeReqPoints : Z }.

(** [models.Statistic] *)
Record Statistic : Type := mkStatistic {
  Name : string;
  Tags : gmap string string;
  Values : gmap string Z }.

(** [NodeProcessor].  [done] is [true] when the channel is non-nil (the
    processor is open); the locks, the wait group and the logger are left
    out. *)
Record NodeProcessor (Q M W : Type) : Type := mkNodeProcessor {
  PurgeInterval : Z;
  RetryInterval : Z;
  RetryMaxInterval : Z;
  MaxSize : Z;
  MaxAge : Z;
  RetryRateLimit : Z;
  nodeID : Z;
  dir : string;
  done : bool;
  queue : Q;
  meta : M;
  writer : W;
  stats : NodeProcessorStatistics }.
Arguments mkNodeProcessor {Q M W}.
Arguments PurgeInterval {Q M W}.
Arguments RetryInterval {Q M W}.
Arguments RetryMaxInterval {Q M W}.
Arguments MaxSize {Q M W}.
Arguments MaxAge {Q M W}.
Arguments RetryRateLimit {Q M W}.
Arguments nodeID {Q M W}.
Arguments dir {Q M W}.
Arguments done {Q M W}.
Arguments queue {Q M W}.
Arguments meta {Q M W}.
Arguments writer {Q M W}.
Arguments stats {Q M W}.

Section processor.
Context {Point Q M W : Type}.
Context `{PointOps Point} `{queueOps Q} `{metaClient M} `{shardWriter W Point}.

Local Abbreviation Processor := (NodeProcessor Q M W).

Definition set_queue (q : Q) (n : Processor) : Processor :=
  mkNodeProcessor (PurgeInterval n) (RetryInterval n) (RetryMaxInterval n)
    (MaxSize n) (MaxAge n) (RetryRateLimit n) (nodeID n) (dir n) (done n)
    q (meta n) (writer n) (stats n).
Definition set_writer (w : W) (n : Processor) : Processor :=
  mkNodeProcessor (PurgeInterval n) (RetryInterval n) (RetryMaxInterval n)
    (MaxSize n) (MaxAge n) (RetryRateLimit n) (nodeID n) (dir n) (done n)
    (queue n) (meta n) w (stats n).
Definition set_stats (s : NodeProcessorStatistics) (n : Processor) : Processor :=
  mkNodeProcessor (PurgeInterval n) (RetryInterval n) (RetryMaxInterval n)
    (MaxSize n) (MaxAge n) (RetryRateLimit n) (nodeID n) (dir n) (done n)
    (queue n) (meta n) (writer n) s.

(** [atomic.AddInt64(&n.stats.X, delta)] for each counter the file adds
    to. *)
Definition addWriteShardReq (delta : Z) (s : NodeProcessorStatistics) :=
  mkStats (add64 (WriteShardReq s) delta) (WriteShardReqPoints s)
    (WriteNodeReq s) (WriteNodeReqFail s) (WriteNodeReqPoints s).
Definition addWriteShardReqPoints (delta : Z) (s : NodeProcessorStatistics) :=
  mkStats (WriteShardReq s) (add64 (WriteShardReqPoints s) delta)
    (WriteNodeReq s) (WriteNodeReqFail s) (WriteNodeReqPoints s).
Definition addWriteNodeReq (delta : Z) (s : NodeProcessorStatistics) :=
  mkStats (WriteShardReq s) (WriteShardReqPoints s)
    (add64 (WriteNodeReq s) delta) (WriteNodeReqFail s) (WriteNodeReqPoints s).
Definition addWriteNodeReqFail (delta : Z) (s : NodeProcessorStatistics) :=
  mkStats (WriteShardReq s) (WriteShardReqPoints s)
    (WriteNodeReq s) (add64 (WriteNodeReqFail s) delta) (WriteNodeReqPoints s).
Definition addWriteNodeReqPoints (delta : Z) (s : NodeProcessorStatistics) :=
  mkStats (WriteShardReq s) (WriteShardReqPoints s)
    (WriteNodeReq s) (WriteNodeReqFail s) (add64 (WriteNodeReqPoints s) delta).

(** [func marshalWrite(shardID uint64, points []models.Point) []byte] *)
Definition marshalWrite (shardID : Z) (points : list Point) : list byte :=
  fold_left (fun b p => (b ++ Point_String p) ++ [newline]) points (PutUint64 shardID).

(** [func unmarshalWrite(b []byte) (uint64, []models.Point, error)] *)
Definition unmarshalWrite (b : list byte) : Z * list Point * option error :=
  if (length b <? 8)%nat
  then (0, [], Some (Errorf ("too short: len = " ++ pretty (length b))))
  else
    let ownerID := Uint64 (take 8 b) in
    let '(points, err) := ParsePoints (drop 8 b) in
    (ownerID, points, err).

(** The text after the shard ID in an envelope: every point's [String()]
    followed by a newline (specification, section 3.2). *)
Definition lineProtocol (points : list Point) : list byte :=
  flat_map (fun p => Point_String p ++ [newline]) points.

(** [func (n *NodeProcessor) Statistics(tags map[string]string)] *)
Definition Statistics (n : Processor) (tags : gmap string string) : list Statistic :=
  let name := String.concat ":" ["hh_processor"%string; dir n] in
  let t : gmap string string :=
    <["node"%string := pretty (nodeID n)]> (<["path"%string := dir n]> ∅) in
  let t := tags ∪ t in
  [ mkStatistic name t
      (<[writeShardReq := WriteShardReq (stats n)]>
       (<[writeShardReqPoints := WriteShardReqPoints (stats n)]>
        (<[writeNodeReq := WriteNodeReq (stats n)]>
         (<[writeNodeReqFail := WriteNodeReqFail (stats n)]>
          (<[writeNodeReqPoints := WriteShardReqPoints (stats n)]> ∅))))) ].

(** [func (n *NodeProcessor) WriteShard(shardID uint64, points)] *)
Definition WriteShard (n : Processor) (shardID : Z) (points : list Point)
  : Processor * option error :=
  if negb (done n) then (n, Some (Errorf "node processor is closed")) else
  let n := set_stats (addWriteShardReq 1 (stats n)) n in
  let n := set_stats (addWriteShardReqPoints (Z.of_nat (length points)) (stats n)) n in
  let b := marshalWrite shardID points in
  let '(q, err) := queue_Append (queue n) b in
  (set_queue q n, err).

(** [func (n *NodeProcessor) Active() (bool, error)] *)
Definition Active (n : Processor) : bool * option error :=
  let '(nio, err) := meta_DataNode (meta n) (nodeID n) in
  match err with
  | Some err =>
      if bool_decide (err <> ErrNodeNotFound) then (false, Some err)
      else (bool_decide (nio <> None), None)
  | None => (bool_decide (nio <> None), None)
  end.

(** [func (n *NodeProcessor) SendWrite() (int, error)].  An error of
    [queue.Advance] is logged and dropped. *)
Definition SendWrite (n : Processor) : Processor * (Z * option error) :=
  let '(active, err) := Active n in
  if err is Some err then (n, (0, Some err)) else
  if negb active then (n, (0, Some EOF)) else
  let '(buf, err) := queue_Current (queue n) in
  if err is Some err then (n, (0, Some err)) else
  let '(shardID, points, err) := unmarshalWrite buf in
  if err is Some err then
    let '(q, _) := queue_Advance (queue n) in
    (set_queue q n, (0, Some err))
  else
  let '(w, err) := writer_WriteShard (writer n) shardID (nodeID n) points in
  let n := set_writer w n in
  if err is Some err then
    (set_stats (addWriteNodeReqFail 1 (stats n)) n, (0, Some err))
  else
  let n := set_stats (addWriteNodeReq 1 (stats n)) n in
  let n := set_stats (addWriteNodeReqPoints (Z.of_nat (length points)) (stats n)) n in
  let '(q, _) := queue_Advance (queue n) in
  (set_queue q n, (Z.of_nat (length buf), None)).

(** [func (n *NodeProcessor) sendingLoop(curDelay time.Duration)].

    [maxActive] is the package variable [maxActiveProcessorCount]; [gate]
    is what [concurrencyAllow()] answers when it is asked (it spins on a
    shared counter for up to a second, so its answer depends on the other
    processors).  The counter is given back when the function returns, and
    the deferred rate limiter only waits: neither changes the result. *)
Definition sendingLoop (maxActive : Z) (gate : bool) (n : Processor) (curDelay : Z)
  : Processor * Z :=
  if (0 <? maxActive) && negb gate then (n, RetryInterval n) else
  let '(n', (sent, err)) := SendWrite n in
  match err with
  | None => (n', RetryInterval n')
  | Some err =>
      if bool_decide (err = EOF) then (n', RetryInterval n')
      else
        let nextDelay := mul64 2 curDelay in
        if RetryMaxInterval n' <? nextDelay
        then (n', RetryMaxInterval n')
        else (n', nextDelay)
  end.

(** The first lines of [run]: the wait before the first send. *)
Definition initialWaitTime (n : Processor) : Z :=
  let waitTime := RetryInterval n in
  if RetryMaxInterval n <? waitTime then RetryMaxInterval n else waitTime.

(** One turn of the [select] loop of [run]. *)
Inductive tick : Type :=
| tickDone
| tickPurge (now : Time)
| tickSend (maxActive : Z) (gate : bool).

Definition runStep (n : Processor) (waitTime : Z) (ev : tick)
  : option (Processor * Z) :=
  match ev with
  | tickDone => None
  | tickPurge now =>
      let '(q, _) := queue_PurgeOlderThan (queue n) (now - MaxAge n) in
      Some (set_queue q n, waitTime)
  | tickSend maxActive gate => Some (sendingLoop maxActive gate n waitTime)
  end.

(** [run] over the turns [evs] of its [select] loop, from the processor [n]
    and the wait [waitTime]: the processor and the wait it has reached when
    the turns are used up or [done] is closed. *)
Fixpoint runLoop (n : Processor) (waitTime : Z) (evs : list tick) : Processor * Z :=
  match evs with
  | [] => (n, waitTime)
  | ev :: evs =>
      match runStep n waitTime ev with
      | None => (n, waitTime)
      | Some (n', waitTime') => runLoop n' waitTime' evs
      end
  end.

Definition set_done (b : bool) (n : Processor) : Processor :=
  mkNodeProcessor (PurgeInterval n) (RetryInterval n) (RetryMaxInterval n)
    (MaxSize n) (MaxAge n) (RetryRateLimit n) (nodeID n) (dir n) b
    (queue n) (meta n) (writer n) (stats n).

(** [func (n *NodeProcessor) Open() error].  What the file system and the
    queue answer is an input: [mkdir] is the message of the error of
    [os.MkdirAll], if it fails; [created] is what [newQueue] returns, the
    queue or an error; [opened] is the error of [queue.Open], if it fails.
    [go n.run()] starts the loop that [runLoop] describes. *)
Definition Open (n : Processor) (mkdir : option string) (created : Q + error)
    (opened : option error) : Processor * option error :=
  if done n then (n, None) else
  let n := set_done true n in
  if mkdir is Some msg then (n, Some (Errorf ("mkdir all: " ++ msg))) else
  match created with
  | inr err => (n, Some err)
  | inl q =>
      if opened is Some err then (n, Some err) else
      (set_queue q n, None)
  end.

(** [func (n *NodeProcessor) Close() error]; [closed] is what
    [n.queue.Close()] returns. *)
Definition Close (n : Processor) (closed : option error) : Processor * option error :=
  if negb (done n) then (n, None) else
  (set_done false n, closed).

(** [func (n *NodeProcessor) Purge() error]; [removed] is what
    [os.RemoveAll(n.dir)] returns. *)
Definition Purge (n : Processor) (removed : option error) : option error :=
  if done n then Some (Errorf "node processor is open") else removed.

End processor.

End HH.

(* ===================================================================== *)
(** ** Reference collaborators *)
(* ===================================================================== *)

(** The theorems of Part II hold for every implementation of the
    snapshot's methods and of the collaborators of the processor.  The
    implementations below are the ones the concrete inputs of Part II run
    against. *)

(** Modelled from the spec: the snapshot's methods (sections 3.1 and 4.1),
    none of which is in [store.go].  A method that fails returns its
    receiver as it found it. *)
Module RefData.

Import Meta.

Definition nodeExists (d : Data.t) (id : Z) : bool :=
  existsb (fun n => NodeInfo.ID n =? id) (Data.DataNodes d).

Definition DataNode (d : Data.t) (id : Z) : option NodeInfo.t :=
  List.find (fun n => NodeInfo.ID n =? id) (Data.DataNodes d).

Definition CreateDataNode (d : Data.t) (host tcpHost : string)
  : Data.t * option error :=
  if existsb (fun n => String.eqb (NodeInfo.TCPHost n) tcpHost) (Data.DataNodes d)
  then (d, Some (Errorf "node already exists"))
  else
    let id := addU64 (Data.MaxNodeID d) 1 in
    (Data.mk (Data.ClusterID d) (Data.Index d) (Data.Databases d) (Data.Users d)
       (Data.DataNodes d ++ [NodeInfo.mk id host tcpHost false]) (Data.MetaNodes d)
       id (Data.MaxShardGroupID d) (Data.MaxShardID d),
     None).

Definition DeleteDataNode (d : Data.t) (id : Z) : Data.t * option error :=
  if nodeExists d id
  then (Data.set_DataNodes
          (List.filter (fun n => negb (NodeInfo.ID n =? id)) (Data.DataNodes d)) d,
        None)
  else (d, Some ErrNodeNotFound).

Definition IsFreezeDataNode (d : Data.t) (id : Z) : bool :=
  if DataNode d id is Some n then NodeInfo.Frozen n else false.

Definition setFrozen (frozen : bool) (d : Data.t) (id : Z) : Data.t * option error :=
  if nodeExists d id
  then (Data.set_DataNodes
          (List.map (fun n =>
             if NodeInfo.ID n =? id
             then NodeInfo.mk (NodeInfo.ID n) (NodeInfo.Host n) (NodeInfo.TCPHost n) frozen
             else n) (Data.DataNodes d)) d,
        None)
  else (d, Some ErrNodeNotFound).

Definition isDatabase (name : string) (di : DatabaseInfo.t) : bool :=
  String.eqb (DatabaseInfo.Name di) name.
Definition isPolicy (name : string) (rp : RetentionPolicyInfo.t) : bool :=
  String.eqb (RetentionPolicyInfo.Name rp) name.
Definition isUser (name : string) (u : UserInfo.t) : bool :=
  String.eqb (UserInfo.Name u) name.

Definition Database (d : Data.t) (name : string) : option DatabaseInfo.t :=
  List.find (isDatabase name) (Data.Databases d).

Definition CreateDatabase (d : Data.t) (name : string) : Data.t * option error :=
  if String.eqb name "" then (d, Some (Errorf "database name required")) else
  if Database d name is Some _ then (d, None) else
  (Data.set_Databases (Data.Databases d ++ [DatabaseInfo.mk name "" [] []]) d, None).

Definition DropDatabase (d : Data.t) (name : string) : Data.t * option error :=
  (Data.set_Databases
     (List.filter (fun di => negb (isDatabase name di)) (Data.Databases d)) d,
   None).

Definition RetentionPolicy (di : DatabaseInfo.t) (name : string)
  : option RetentionPolicyInfo.t :=
  List.find (isPolicy name) (DatabaseInfo.RetentionPolicies di).

Definition Data_RetentionPolicy (d : Data.t) (database name : string)
  : option RetentionPolicyInfo.t * option error :=
  match Database d database with
  | None => (None, Some (ErrDatabaseNotFound database))
  | Some di => (RetentionPolicy di name, None)
  end.

(** Rewrite the database [database] with [f]. *)
Definition inDatabase (d : Data.t) (database : string)
    (f : DatabaseInfo.t -> DatabaseInfo.t) : Data.t :=
  Data.set_Databases
    (List.map (fun di => if isDatabase database di then f di else di)
       (Data.Databases d)) d.

Definition setPolicies (rps : list RetentionPolicyInfo.t) (def : string)
    (di : DatabaseInfo.t) : DatabaseInfo.t :=
  DatabaseInfo.mk (DatabaseInfo.Name di) def rps (DatabaseInfo.ContinuousQueries di).

(** Rewrite the retention policy [policy] of every database named
    [database] with [f]. *)
Definition inPolicy (d : Data.t) (database policy : string)
    (f : RetentionPolicyInfo.t -> RetentionPolicyInfo.t) : Data.t :=
  inDatabase d database (fun di =>
    setPolicies
      (List.map (fun rp => if isPolicy policy rp then f rp else rp)
         (DatabaseInfo.RetentionPolicies di))
      (DatabaseInfo.DefaultRetentionPolicy di) di).

Definition CreateRetentionPolicy (d : Data.t) (database : string)
    (rpi : RetentionPolicyInfo.t) (makeDefault : bool) : Data.t * option error :=
  match Database d database with
  | None => (d, Some (ErrDatabaseNotFound database))
  | Some di =>
      if String.eqb (RetentionPolicyInfo.Name rpi) ""
      then (d, Some (Errorf "retention policy name required")) else
      if RetentionPolicyInfo.ReplicaN rpi <? 1
      then (d, Some (Errorf "replication factor must be greater than 0")) else
      if RetentionPolicy di (RetentionPolicyInfo.Name rpi) is Some _
      then (d, Some (Errorf "retention policy already exists")) else
      (inDatabase d database (fun di =>
         setPolicies (DatabaseInfo.RetentionPolicies di ++ [rpi])
           (if makeDefault then RetentionPolicyInfo.Name rpi
            else DatabaseInfo.DefaultRetentionPolicy di) di),
       None)
  end.

Definition DropRetentionPolicy (d : Data.t) (database name : string)
  : Data.t * option error :=
  match Database d database with
  | None => (d, None)
  | Some _ =>
      (inDatabase d database (fun di =>
         setPolicies
           (List.filter (fun rp => negb (isPolicy name rp))
              (DatabaseInfo.RetentionPolicies di))
           (if String.eqb (DatabaseInfo.DefaultRetentionPolicy di) name then ""
            else DatabaseInfo.DefaultRetentionPolicy di) di),
       None)
  end.

Definition MinRetentionPolicyDuration : Z := Hour.

Definition applyUpdate (rpu : RetentionPolicyUpdate.t) (rp : RetentionPolicyInfo.t)
  : RetentionPolicyInfo.t :=
  RetentionPolicyInfo.mk
    (default (RetentionPolicyInfo.Name rp) (RetentionPolicyUpdate.Name rpu))
    (default (RetentionPolicyInfo.ReplicaN rp) (RetentionPolicyUpdate.ReplicaN rpu))
    (default (RetentionPolicyInfo.Duration rp) (RetentionPolicyUpdate.Duration rpu))
    (default (RetentionPolicyInfo.ShardGroupDuration rp)
       (RetentionPolicyUpdate.ShardGroupDuration rpu))
    (RetentionPolicyInfo.ShardGroups rp) (RetentionPolicyInfo.Subscriptions rp).

Definition UpdateRetentionPolicy (d : Data.t) (database name : string)
    (rpu : RetentionPolicyUpdate.t) (makeDefault : bool) : Data.t * option error :=
  match Data_RetentionPolicy d database name with
  | (_, Some err) => (d, Some err)
  | (None, None) => (d, Some (ErrRetentionPolicyNotFound name))
  | (Some rp, None) =>
      if (if RetentionPolicyUpdate.Duration rpu is Some dur
          then (dur <? MinRetentionPolicyDuration) && negb (dur =? 0) else false)
      then (d, Some ErrRetentionPolicyDurationTooLow) else
      let d := inPolicy d database name (applyUpdate rpu) in
      (if makeDefault
       then inDatabase d database (fun di =>
              setPolicies (DatabaseInfo.RetentionPolicies di)
                (RetentionPolicyInfo.Name (applyUpdate rpu rp)) di)
       else d, None)
  end.

Definition findUser (d : Data.t) (name : string) : option UserInfo.t :=
  List.find (isUser name) (Data.Users d).

Definition CreateUser (d : Data.t) (name hash : string) (admin : bool)
  : Data.t * option error :=
  if String.eqb name "" then (d, Some (Errorf "username required")) else
  if findUser d name is Some _ then (d, Some ErrUserExists) else
  (Data.set_Users (Data.Users d ++ [UserInfo.mk name hash admin ∅]) d, None).

(** Rewrite the user [name] with [f]. *)
Definition inUser (d : Data.t) (name : string) (f : UserInfo.t -> UserInfo.t)
  : Data.t * option error :=
  if findUser d name is Some _
  then (Data.set_Users
          (List.map (fun u => if isUser name u then f u else u) (Data.Users d)) d,
        None)
  else (d, Some ErrUserNotFound).

Definition UpdateUser (d : Data.t) (name hash : string) : Data.t * option error :=
  inUser d name (fun u =>
    UserInfo.mk (UserInfo.Name u) hash (UserInfo.Admin u) (UserInfo.Privileges u)).

Definition DropUser (d : Data.t) (name : string) : Data.t * option error :=
  if findUser d name is Some _
  then (Data.set_Users
          (List.filter (fun u => negb (isUser name u)) (Data.Users d)) d, None)
  else (d, Some ErrUserNotFound).

Definition SetPrivilege (d : Data.t) (name database : string) (p : Privilege)
  : Data.t * option error :=
  if Database d database is None then (d, Some (ErrDatabaseNotFound database)) else
  inUser d name (fun u =>
    UserInfo.mk (UserInfo.Name u) (UserInfo.Hash u) (UserInfo.Admin u)
      (<[database := p]> (UserInfo.Privileges u))).

Definition SetAdminPrivilege (d : Data.t) (name : string) (admin : bool)
  : Data.t * option error :=
  inUser d name (fun u =>
    UserInfo.mk (UserInfo.Name u) (UserInfo.Hash u) admin (UserInfo.Privileges u)).

(** "Stale entries after database drop are tolerated but never visible." *)
Definition UserPrivileges (d : Data.t) (name : string)
  : option (gmap string Privilege) * option error :=
  match findUser d name with
  | None => (None, Some ErrUserNotFound)
  | Some u =>
      (Some (list_to_map
               (List.map (fun di =>
                  (DatabaseInfo.Name di,
                   if UserInfo.Admin u then AllPrivileges
                   else default NoPrivileges
                          (UserInfo.Privileges u !! DatabaseInfo.Name di)))
                  (Data.Databases d))),
       None)
  end.

Definition UserPrivilege (d : Data.t) (name database : string)
  : option Privilege * option error :=
  match UserPrivileges d name with
  | (Some m, None) => (Some (default NoPrivileges (m !! database)), None)
  | (_, err) => (None, err)
  end.

Definition AdminUserExists (d : Data.t) : bool :=
  existsb UserInfo.Admin (Data.Users d).

(** Rewrite every shard group of the snapshot with [f]. *)
Definition inGroups (d : Data.t) (f : ShardGroupInfo.t -> ShardGroupInfo.t) : Data.t :=
  Data.set_Databases
    (List.map (fun di =>
       setPolicies
         (List.map (fun rp =>
            RetentionPolicyInfo.mk
              (RetentionPolicyInfo.Name rp) (RetentionPolicyInfo.ReplicaN rp)
              (RetentionPolicyInfo.Duration rp)
              (RetentionPolicyInfo.ShardGroupDuration rp)
              (List.map f (RetentionPolicyInfo.ShardGroups rp))
              (RetentionPolicyInfo.Subscriptions rp))
            (DatabaseInfo.RetentionPolicies di))
         (DatabaseInfo.DefaultRetentionPolicy di) di)
       (Data.Databases d)) d.

Definition setShards (shards : list ShardInfo.t) (g : ShardGroupInfo.t)
  : ShardGroupInfo.t :=
  ShardGroupInfo.mk (ShardGroupInfo.ID g) (ShardGroupInfo.StartTime g)
    (ShardGroupInfo.EndTime g) (ShardGroupInfo.DeletedAt g) shards
    (ShardGroupInfo.TruncatedAt g).

Definition inShard (d : Data.t) (shardID : Z) (f : list Z -> list Z) : Data.t :=
  inGroups d (fun g =>
    setShards
      (List.map (fun sh =>
         if ShardInfo.ID sh =? shardID
         then ShardInfo.mk (ShardInfo.ID sh) (f (ShardInfo.Owners sh))
         else sh) (ShardGroupInfo.Shards g)) g).

Definition AddShardOwner (d : Data.t) (shardID nodeID : Z) : Data.t :=
  inShard d shardID (fun owners =>
    if existsb (Z.eqb nodeID) owners then owners else owners ++ [nodeID]).

Definition RemoveShardOwner (d : Data.t) (shardID nodeID : Z) : Data.t :=
  inShard d shardID (List.filter (fun o => negb (o =? nodeID))).

Definition DropShard (d : Data.t) (id : Z) : Data.t :=
  inGroups d (fun g =>
    setShards
      (List.filter (fun sh => negb (ShardInfo.ID sh =? id)) (ShardGroupInfo.Shards g))
      g).

(** "For every group with [StartTime < t < EndTime], sets
    [TruncatedAt = t]; groups wholly past [t] are unchanged." *)
Definition TruncateShardGroups (d : Data.t) (t : Time) : Data.t :=
  inGroups d (fun g =>
    if Before (ShardGroupInfo.StartTime g) t && Before t (ShardGroupInfo.EndTime g)
    then ShardGroupInfo.mk (ShardGroupInfo.ID g) (ShardGroupInfo.StartTime g)
           (ShardGroupInfo.EndTime g) (ShardGroupInfo.DeletedAt g)
           (ShardGroupInfo.Shards g) t
    else g).

(** [StartTime <= t < EndTime] *)
Definition Contains (g : ShardGroupInfo.t) (t : Time) : bool :=
  negb (Before t (ShardGroupInfo.StartTime g)) && Before t (ShardGroupInfo.EndTime g).

(** "Group overlap: [g.StartTime < tmax] and [g.EndTime > tmin]." *)
Definition Overlaps (g : ShardGroupInfo.t) (tmin tmax : Time) : bool :=
  Before (ShardGroupInfo.StartTime g) tmax && After (ShardGroupInfo.EndTime g) tmin.

(** The live group of the policy that covers [t]. *)
Definition ShardGroupByTimestamp (rp : RetentionPolicyInfo.t) (t : Time)
  : option ShardGroupInfo.t :=
  List.find (fun g => Contains g t && negb (Deleted g))
    (RetentionPolicyInfo.ShardGroups rp).

Definition Data_ShardGroupByTimestamp (d : Data.t) (database policy : string) (t : Time)
  : option ShardGroupInfo.t * option error :=
  match Data_RetentionPolicy d database policy with
  | (_, Some err) => (None, Some err)
  | (None, None) => (None, Some (ErrRetentionPolicyNotFound policy))
  | (Some rp, None) => (ShardGroupByTimestamp rp t, None)
  end.

(** Insertion that keeps the groups in start-time order. *)
Fixpoint insertGroup (g : ShardGroupInfo.t) (l : list ShardGroupInfo.t)
  : list ShardGroupInfo.t :=
  match l with
  | [] => [g]
  | x :: l' =>
      if Before (ShardGroupInfo.StartTime g) (ShardGroupInfo.StartTime x)
      then g :: l
      else x :: insertGroup g l'
  end.

(** The owners of a new shard: [replicaN] of the nodes that are not
    frozen, taken in ID order starting at the shard's turn. *)
Definition owners (d : Data.t) (replicaN shardID : Z) : list Z :=
  let ids :=
    List.map NodeInfo.ID
      (List.filter (fun n => negb (NodeInfo.Frozen n)) (Data.DataNodes d)) in
  match ids with
  | [] => []
  | _ =>
      let k := Z.to_nat (shardID mod Z.of_nat (length ids)) in
      take (Z.to_nat replicaN) (drop k ids ++ take k ids)
  end.

(** "Fails if a live group already covers [ts].  Otherwise allocates
    [[StartTime, EndTime)] aligned to [rp.ShardGroupDuration], creates
    [ReplicaN] owner assignments by round-robin over non-frozen data
    nodes, assigns shard IDs from a monotonic counter, inserts into
    [rp.ShardGroups] maintaining start-time order." *)
Definition CreateShardGroup (d : Data.t) (database policy : string) (ts : Time)
  : Data.t * option error :=
  match Data_RetentionPolicy d database policy with
  | (_, Some err) => (d, Some err)
  | (None, None) => (d, Some (ErrRetentionPolicyNotFound policy))
  | (Some rp, None) =>
      if ShardGroupByTimestamp rp ts is Some _ then (d, Some ErrShardGroupExists) else
      let dur := RetentionPolicyInfo.ShardGroupDuration rp in
      if dur <=? 0 then (d, Some (Errorf "shard group duration required")) else
      let start := ts - ts mod dur in
      let gid := addU64 (Data.MaxShardGroupID d) 1 in
      let sid := addU64 (Data.MaxShardID d) 1 in
      let g :=
        ShardGroupInfo.mk gid start (start + dur) 0
          [ShardInfo.mk sid (owners d (RetentionPolicyInfo.ReplicaN rp) sid)] 0 in
      let d :=
        inPolicy d database policy (fun rp =>
          RetentionPolicyInfo.mk
            (RetentionPolicyInfo.Name rp) (RetentionPolicyInfo.ReplicaN rp)
            (RetentionPolicyInfo.Duration rp)
            (RetentionPolicyInfo.ShardGroupDuration rp)
            (insertGroup g (RetentionPolicyInfo.ShardGroups rp))
            (RetentionPolicyInfo.Subscriptions rp)) in
      (Data.mk (Data.ClusterID d) (Data.Index d) (Data.Databases d) (Data.Users d)
         (Data.DataNodes d) (Data.MetaNodes d) (Data.MaxNodeID d) gid sid,
       None)
  end.

(** "Sets [DeletedAt = t] (does not remove)." *)
Definition DeleteShardGroup (d : Data.t) (database policy : string) (id : Z) (t : Time)
  : Data.t * option error :=
  match Data_RetentionPolicy d database policy with
  | (_, Some err) => (d, Some err)
  | (None, None) => (d, Some (ErrRetentionPolicyNotFound policy))
  | (Some rp, None) =>
      if existsb (fun g => ShardGroupInfo.ID g =? id)
           (RetentionPolicyInfo.ShardGroups rp)
      then
        (inPolicy d database policy (fun rp =>
           RetentionPolicyInfo.mk
             (RetentionPolicyInfo.Name rp) (RetentionPolicyInfo.ReplicaN rp)
             (RetentionPolicyInfo.Duration rp)
             (RetentionPolicyInfo.ShardGroupDuration rp)
             (List.map (fun g =>
                if ShardGroupInfo.ID g =? id
                then ShardGroupInfo.mk (ShardGroupInfo.ID g)
                       (ShardGroupInfo.StartTime g) (ShardGroupInfo.EndTime g) t
                       (ShardGroupInfo.Shards g) (ShardGroupInfo.TruncatedAt g)
                else g) (RetentionPolicyInfo.ShardGroups rp))
             (RetentionPolicyInfo.Subscriptions rp)),
         None)
      else (d, Some (Errorf "shard group not found"))
  end.

Definition setQueries (cqs : list ContinuousQueryInfo.t) (di : DatabaseInfo.t)
  : DatabaseInfo.t :=
  DatabaseInfo.mk (DatabaseInfo.Name di) (DatabaseInfo.DefaultRetentionPolicy di)
    (DatabaseInfo.RetentionPolicies di) cqs.

Definition isQuery (name : string) (cq : ContinuousQueryInfo.t) : bool :=
  String.eqb (ContinuousQueryInfo.Name cq) name.

Definition CreateContinuousQuery (d : Data.t) (database name q : string)
  : Data.t * option error :=
  match Database d database with
  | None => (d, Some (ErrDatabaseNotFound database))
  | Some di =>
      match List.find (isQuery name) (DatabaseInfo.ContinuousQueries di) with
      | Some cq =>
          if String.eqb (ContinuousQueryInfo.Query cq) q then (d, None)
          else (d, Some (Errorf "continuous query already exists"))
      | None =>
          (inDatabase d database (fun di =>
             setQueries
               (DatabaseInfo.ContinuousQueries di ++ [ContinuousQueryInfo.mk name q])
               di),
           None)
      end
  end.

Definition DropContinuousQuery (d : Data.t) (database name : string)
  : Data.t * option error :=
  match Database d database with
  | None => (d, None)
  | Some di =>
      if existsb (isQuery name) (DatabaseInfo.ContinuousQueries di)
      then (inDatabase d database (fun di =>
              setQueries
                (List.filter (fun cq => negb (isQuery name cq))
                   (DatabaseInfo.ContinuousQueries di)) di),
            None)
      else (d, Some (Errorf "continuous query not found"))
  end.

Definition setSubscriptions (subs : list SubscriptionInfo.t)
    (rp : RetentionPolicyInfo.t) : RetentionPolicyInfo.t :=
  RetentionPolicyInfo.mk
    (RetentionPolicyInfo.Name rp) (RetentionPolicyInfo.ReplicaN rp)
    (RetentionPolicyInfo.Duration rp) (RetentionPolicyInfo.ShardGroupDuration rp)
    (RetentionPolicyInfo.ShardGroups rp) subs.

Definition isSubscription (name : string) (s : SubscriptionInfo.t) : bool :=
  String.eqb (SubscriptionInfo.Name s) name.

Definition CreateSubscription (d : Data.t) (database rp name mode : string)
    (destinations : list string) : Data.t * option error :=
  match Data_RetentionPolicy d database rp with
  | (_, Some err) => (d, Some err)
  | (None, None) => (d, Some (ErrRetentionPolicyNotFound rp))
  | (Some rpi, None) =>
      if existsb (isSubscription name) (RetentionPolicyInfo.Subscriptions rpi)
      then (d, Some (Errorf "subscription already exists"))
      else
        (inPolicy d database rp (fun rpi =>
           setSubscriptions
             (RetentionPolicyInfo.Subscriptions rpi
              ++ [SubscriptionInfo.mk name mode destinations]) rpi),
         None)
  end.

Definition DropSubscription (d : Data.t) (database rp name : string)
  : Data.t * option error :=
  match Data_RetentionPolicy d database rp with
  | (_, Some err) => (d, Some err)
  | (None, None) => (d, Some (ErrRetentionPolicyNotFound rp))
  | (Some rpi, None) =>
      if existsb (isSubscription name) (RetentionPolicyInfo.Subscriptions rpi)
      then (inPolicy d database rp (fun rpi =>
              setSubscriptions
                (List.filter (fun s => negb (isSubscription name s))
                   (RetentionPolicyInfo.Subscriptions rpi)) rpi),
            None)
      else (d, Some (Errorf "subscription not found"))
  end.

(** A stand-in for the binary form: the version, the cluster and the
    names the snapshot holds. *)
Definition MarshalBinary (d : Data.t) : list byte * option error :=
  (PutUint64 (Data.Index d) ++ PutUint64 (Data.ClusterID d)
   ++ flat_map (fun di => list_byte_of_string (DatabaseInfo.Name di) ++ [newline])
        (Data.Databases d)
   ++ flat_map (fun u =>
        list_byte_of_string (UserInfo.Name u) ++ [newline]
        ++ list_byte_of_string (UserInfo.Hash u) ++ [newline]) (Data.Users d)
   ++ flat_map (fun n => PutUint64 (NodeInfo.ID n)) (Data.DataNodes d),
   None).

(** [meta.DefaultRetentionPolicyInfo()]: the policy "autogen". *)
Definition DefaultRetentionPolicyInfo : RetentionPolicyInfo.t :=
  RetentionPolicyInfo.mk "autogen" 1 0 (168 * Hour) [] [].

Definition NewRetentionPolicyInfo (spec : RetentionPolicySpec.t)
  : RetentionPolicyInfo.t :=
  RetentionPolicyInfo.mk (RetentionPolicySpec.Name spec)
    (default 1 (RetentionPolicySpec.ReplicaN spec))
    (default 0 (RetentionPolicySpec.Duration spec))
    (if RetentionPolicySpec.ShardGroupDuration spec =? 0 then 168 * Hour
     else RetentionPolicySpec.ShardGroupDuration spec)
    [] [].

Definition Matches (spec : RetentionPolicySpec.t) (rpi : option RetentionPolicyInfo.t)
  : bool :=
  match rpi with
  | None => false
  | Some rpi =>
      String.eqb (RetentionPolicySpec.Name spec) (RetentionPolicyInfo.Name rpi)
      && (if RetentionPolicySpec.Duration spec is Some dur
          then dur =? RetentionPolicyInfo.Duration rpi else true)
      && (if RetentionPolicySpec.ReplicaN spec is Some r
          then r =? RetentionPolicyInfo.ReplicaN rpi else true)
  end.

End RefData.

#[global] Instance refDataOps : Meta.DataOps := {|
  Meta.Data_DataNode := RefData.DataNode;
  Meta.Data_CreateDataNode := RefData.CreateDataNode;
  Meta.Data_DeleteDataNode := RefData.DeleteDataNode;
  Meta.Data_IsFreezeDataNode := RefData.IsFreezeDataNode;
  Meta.Data_FreezeDataNode := RefData.setFrozen true;
  Meta.Data_UnfreezeDataNode := RefData.setFrozen false;
  Meta.Data_Database := RefData.Database;
  Meta.Data_CreateDatabase := RefData.CreateDatabase;
  Meta.Data_DropDatabase := RefData.DropDatabase;
  Meta.Data_RetentionPolicy := RefData.Data_RetentionPolicy;
  Meta.Data_CreateRetentionPolicy := RefData.CreateRetentionPolicy;
  Meta.Data_DropRetentionPolicy := RefData.DropRetentionPolicy;
  Meta.Data_UpdateRetentionPolicy := RefData.UpdateRetentionPolicy;
  Meta.Data_CreateUser := RefData.CreateUser;
  Meta.Data_UpdateUser := RefData.UpdateUser;
  Meta.Data_DropUser := RefData.DropUser;
  Meta.Data_SetPrivilege := RefData.SetPrivilege;
  Meta.Data_SetAdminPrivilege := RefData.SetAdminPrivilege;
  Meta.Data_UserPrivileges := RefData.UserPrivileges;
  Meta.Data_UserPrivilege := RefData.UserPrivilege;
  Meta.Data_AdminUserExists := RefData.AdminUserExists;
  Meta.Data_AddShardOwner := RefData.AddShardOwner;
  Meta.Data_RemoveShardOwner := RefData.RemoveShardOwner;
  Meta.Data_DropShard := RefData.DropShard;
  Meta.Data_TruncateShardGroups := RefData.TruncateShardGroups;
  Meta.Data_ShardGroupByTimestamp := RefData.Data_ShardGroupByTimestamp;
  Meta.Data_CreateShardGroup := RefData.CreateShardGroup;
  Meta.Data_DeleteShardGroup := RefData.DeleteShardGroup;
  Meta.Data_CreateContinuousQuery := RefData.CreateContinuousQuery;
  Meta.Data_DropContinuousQuery := RefData.DropContinuousQuery;
  Meta.Data_CreateSubscription := RefData.CreateSubscription;
  Meta.Data_DropSubscription := RefData.DropSubscription;
  Meta.Data_MarshalBinary := RefData.MarshalBinary;
  Meta.MinRetentionPolicyDuration := RefData.MinRetentionPolicyDuration;
  Meta.DefaultRetentionPolicyInfo := RefData.DefaultRetentionPolicyInfo;
  Meta.RetentionPolicySpec_NewRetentionPolicyInfo := RefData.NewRetentionPolicyInfo;
  Meta.RetentionPolicySpec_Matches := RefData.Matches;
  Meta.DatabaseInfo_RetentionPolicy := RefData.RetentionPolicy;
  Meta.RetentionPolicyInfo_ShardGroupByTimestamp := RefData.ShardGroupByTimestamp;
  Meta.ShardGroupInfo_Overlaps := RefData.Overlaps |}.

(** Stand-ins for the two hash functions: the stored hash of a password is
    the password behind a fixed prefix, and the digest of a byte string is
    the string reversed.  Both are injective, so two passwords never
    collide. *)
Module RefCrypto.

Definition bcryptPrefix : string := "$2a$".

Definition GenerateFromPassword (password : string) : string :=
  bcryptPrefix ++ password.

Definition CompareHashAndPassword (hashedPassword password : list byte) : bool :=
  bool_decide (hashedPassword = list_byte_of_string bcryptPrefix ++ password).

Definition Sum256 (b : list byte) : list byte := rev b.

End RefCrypto.

#[global] Instance refCrypto : Meta.Crypto := {|
  Meta.bcrypt_CompareHashAndPassword := RefCrypto.CompareHashAndPassword;
  Meta.sha256_Sum := RefCrypto.Sum256 |}.

(** Collaborators of the processor: points that are their own line of
    text, a queue that is the list of its frames (oldest first), a meta
    client that is the list of the data nodes, and a writer that fails as
    scripted and records what it accepts. *)
Module RefHH.

Definition Point : Type := list byte.

(** Split at newlines; empty lines hold no point. *)
Fixpoint splitLines (b cur : list byte) : list Point :=
  match b with
  | [] => if cur is [] then [] else [cur]
  | x :: b' =>
      if bool_decide (x = newline)
      then (if cur is [] then splitLines b' [] else cur :: splitLines b' [])
      else splitLines b' (cur ++ [x])
  end.

Definition ParsePoints (b : list byte) : list Point * option error :=
  (splitLines b [], None).

Definition Queue : Type := list (list byte).

Definition Current (q : Queue) : list byte * option error :=
  match q with
  | [] => ([], Some EOF)
  | b :: _ => (b, None)
  end.

Definition Advance (q : Queue) : Queue * option error := (tail q, None).

Definition Append (q : Queue) (b : list byte) : Queue * option error :=
  (q ++ [b], None).

Definition DataNode (nodes : list Meta.NodeInfo.t) (id : Z)
  : option Meta.NodeInfo.t * option error :=
  match List.find (fun n => Meta.NodeInfo.ID n =? id) nodes with
  | Some n => (Some n, None)
  | None => (None, Some ErrNodeNotFound)
  end.

Record Writer : Type := mkWriter {
  script : list (option error);
  delivered : list (Z * Z * list Point) }.

Definition WriteShard (w : Writer) (shardID ownerID : Z) (points : list Point)
  : Writer * option error :=
  match script w with
  | Some err :: rest => (mkWriter rest (delivered w), Some err)
  | None :: rest => (mkWriter rest (delivered w ++ [(shardID, ownerID, points)]), None)
  | [] => (mkWriter [] (delivered w ++ [(shardID, ownerID, points)]), None)
  end.

End RefHH.

#[global] Instance refPointOps : HH.PointOps RefHH.Point := {|
  HH.Point_String := fun p => p;
  HH.ParsePoints := RefHH.ParsePoints |}.

#[global] Instance refQueueOps : HH.queueOps RefHH.Queue := {|
  HH.queue_Append := RefHH.Append;
  HH.queue_Current := RefHH.Current;
  HH.queue_Advance := RefHH.Advance;
  HH.queue_PurgeOlderThan := fun q _ => (q, None) |}.

#[global] Instance refMetaClient : HH.metaClient (list Meta.NodeInfo.t) := {|
  HH.meta_DataNode := RefHH.DataNode |}.

#[global] Instance refShardWriter : HH.shardWriter RefHH.Writer RefHH.Point := {|
  HH.writer_WriteShard := RefHH.WriteShard |}.

(** ** Concrete inputs *)

Module Examples.

Import Meta.

(** A processor for node 7 with the default intervals (purge every hour,
    retry after a second, back off to a minute at most), over the
    reference collaborators. *)
Definition p1 : RefHH.Point := list_byte_of_string "cpu value=1 10".
Definition p2 : RefHH.Point := list_byte_of_string "mem value=2 20".

Definition node7 : NodeInfo.t := NodeInfo.mk 7 "h7:8086" "h7:8088" false.

Definition processor (q : RefHH.Queue) (script : list (option error))
    (s : HH.NodeProcessorStatistics)
  : HH.NodeProcessor RefHH.Queue (list NodeInfo.t) RefHH.Writer :=
  HH.mkNodeProcessor Hour Second Minute (10 * 1024 * 1024 * 1024) (168 * Hour) 0
    7 "/var/hh/7" true q [node7] (RefHH.mkWriter script []) s.

Definition frame42 : list byte := HH.marshalWrite 42 [p1; p2].
Definition shortFrame : list byte := [x01; x02; x03].
Definition refused : error := Errorf "connection refused".

(** The state a call leaves ([c] itself if it panics). *)
Definition stateAfter {A : Type} (m : M A) (c : Client) : Client :=
  match m c with
  | Ok (_, c') => c'
  | Panic => c
  end.

(** A client that has created the user "alice", whose password is
    "secret", and the data node at "h7:8088". *)
Definition clientWithAlice : Client :=
  stateAfter (CreateUser "alice" (RefCrypto.GenerateFromPassword "secret") false)
    (NewClient "/var/lib/meta" true).

Definition clientWithNode : Client :=
  stateAfter (CreateDataNode "h7:8086" "h7:8088") clientWithAlice.

(** "alice" has authenticated with "secret", so the auth cache holds an
    entry for her ([salt32] is what the random source handed out).  Then a
    snapshot in which her password is "changed" is restored with
    [ReplaceData]. *)
Definition salt32 : list byte := repeat x2a 32.

Definition clientAuthenticated : Client :=
  stateAfter (Authenticate "alice" "secret" (inl salt32)) clientWithAlice.

Definition restored : Data.t :=
  Data.mk 0 7 []
    [UserInfo.mk "alice" (RefCrypto.GenerateFromPassword "changed") false ∅]
    [] [] 0 0 0.

Definition clientRestored : Client :=
  stateAfter (d ← new restored; ReplaceData d) clientAuthenticated.

(** A client with the database "db0", its automatic policy "autogen"
    (no group yet) and the policy "hourly" with the single group
    [[T, T+1h)], [T] being hour 1000. *)
Definition T : Time := 1000 * Hour.

Definition hourly : RetentionPolicySpec.t :=
  RetentionPolicySpec.mk "hourly" (Some 1) (Some (24 * Hour)) Hour.

Definition clientWithGroup : Client :=
  stateAfter (CreateShardGroup "db0" "hourly" T)
    (stateAfter (CreateRetentionPolicy "db0" (Some hourly) false)
       (stateAfter (CreateDatabase "db0") (NewClient "/var/lib/meta" true))).

(** The group of [clientWithGroup] has been deleted at [T + 2h]. *)
Definition clientWithDeletedGroup : Client :=
  stateAfter (DeleteShardGroup "db0" "hourly" 1 (T + 2 * Hour)) clientWithGroup.

(** The read path: a cached snapshot with one database, one user and one
    data node, each slice over an array of its own. *)
Definition metrics : DatabaseInfo.t := DatabaseInfo.mk "metrics" "" [] [].
Definition renamed : DatabaseInfo.t := DatabaseInfo.mk "renamed" "" [] [].
Definition alice : UserInfo.t := UserInfo.mk "alice" "$2a$secret" false ∅.
Definition mallory : UserInfo.t := UserInfo.mk "mallory" "$2a$guess" true ∅.
Definition node9 : NodeInfo.t := NodeInfo.mk 9 "h9:8086" "h9:8088" false.

Definition sliceClient : Slices.Client :=
  Slices.mkClient {[ 1%positive := [metrics] ]} {[ 1%positive := [alice] ]}
    {[ 1%positive := [node7] ]}
    (Slices.mkData 0 4 (Slices.mkSlice (Some 1%positive) 1)
       (Slices.mkSlice (Some 1%positive) 1) (Slices.mkSlice (Some 1%positive) 1)
       Slices.nilSlice).

End Examples.
(* ===================================================================== *)
(** * Part II: theorems *)
(* ===================================================================== *)

(** ** The envelope of a hinted-handoff frame *)

Lemma Z_of_byte_of_Z (z : Z) : Z_of_byte (byte_of_Z z) = z mod 256.
Proof.
  unfold Z_of_byte, byte_of_Z.
  assert (Hr : 0 <= z mod 256 < 256) by (apply Z.mod_pos_bound; lia).
  destruct (Byte.of_N (Z.to_N (z mod 256))) as [b|] eqn:E.
  - apply Byte.to_of_N in E. rewrite E. lia.
  - apply Byte.of_N_None_iff in E. lia.
Qed.

(** Bit [n] of the byte that [PutUint64] stores for the shift [k]. *)
Lemma byte_bit (v k n : Z) :
  0 <= k -> 0 <= n ->
  Z.testbit ((Z.shiftr v k) mod 2 ^ 8) (n - k)
  = (k <=? n) && (n <? k + 8) && Z.testbit v n.
Proof.
  intros Hk Hn.
  destruct (Z.leb_spec k n) as [Hle|Hlt]; simpl.
  - rewrite Z.testbit_mod_pow2 by lia.
    rewrite Z.shiftr_spec by lia.
    replace (n - k + k) with n by lia.
    destruct (Z.ltb_spec (n - k) 8), (Z.ltb_spec n (k + 8)); try lia; reflexivity.
  - apply Z.testbit_neg_r. lia.
Qed.

Lemma Uint64_PutUint64 (v : Z) : is_uint64 v -> Uint64 (PutUint64 v) = v.
Proof.
  intros [Hlo Hhi]. unfold Uint64, PutUint64.
  rewrite !Z_of_byte_of_Z.
  apply Z.bits_inj'. intros n Hn.
  change 256 with (2 ^ 8).
  repeat rewrite Z.lor_spec.
  repeat (rewrite Z.shiftl_spec by lia).
  rewrite <- (Z.shiftr_0_r v) at 1. replace n with (n - 0) at 1 by lia.
  rewrite !byte_bit by lia.
  assert (Hhigh : 64 <= n -> Z.testbit v n = false).
  { intros Hge. rewrite <- (Z.mod_small v (2 ^ 64)) by lia.
    rewrite Z.testbit_mod_pow2 by lia.
    destruct (Z.ltb_spec n 64); [lia | reflexivity]. }
  destruct (Z_lt_dec n 64) as [Hlt|Hge];
    [| rewrite Hhigh by lia; rewrite !andb_false_r; reflexivity].
  assert (Hcase : n < 8 \/ 8 <= n < 16 \/ 16 <= n < 24 \/ 24 <= n < 32 \/
                  32 <= n < 40 \/ 40 <= n < 48 \/ 48 <= n < 56 \/ 56 <= n) by lia.
  repeat destruct Hcase as [Hcase|Hcase];
    repeat match goal with
    | |- context [?a <=? ?b] =>
        first [ rewrite (proj2 (Z.leb_le a b)) by lia
              | rewrite (proj2 (Z.leb_gt a b)) by lia ]
    | |- context [?a <? ?b] =>
        first [ rewrite (proj2 (Z.ltb_lt a b)) by lia
              | rewrite (proj2 (Z.ltb_ge a b)) by lia ]
    end; simpl; rewrite ?orb_false_r; reflexivity.
Qed.

Section codec.
Context {Point : Type} `{HH.PointOps Point}.

Lemma marshalWrite_loop (points : list Point) (b : list byte) :
  fold_left (fun b p => (b ++ HH.Point_String p) ++ [newline]) points b
  = b ++ HH.lineProtocol points.
Proof.
  revert b. induction points as [|p points IH]; intros b; simpl.
  - now rewrite app_nil_r.
  - rewrite IH. unfold HH.lineProtocol. simpl.
    now rewrite <- !app_assoc.
Qed.

(** An envelope is the eight bytes of the shard ID followed by the text of
    the points. *)
Lemma marshalWrite_envelope (shardID : Z) (points : list Point) :
  HH.marshalWrite shardID points = PutUint64 shardID ++ HH.lineProtocol points.
Proof. apply marshalWrite_loop. Qed.

(** C9.  Decoding an envelope gives back the shard ID it was built from
    (any [uint64]) and the points [models.ParsePoints] reads from their
    line-protocol text, so the very same points whenever the line protocol
    round-trips on them; and a slice of fewer than eight bytes is rejected
    with the error "too short: len = n". *)
Theorem unmarshalWrite_marshalWrite
    (shardID : Z) (points : list Point) (b : list byte) :
  (is_uint64 shardID ->
   HH.ParsePoints (HH.lineProtocol points) = (points, None) ->
   HH.unmarshalWrite (HH.marshalWrite shardID points) = (shardID, points, None))
  /\ ((length b < 8)%nat ->
      HH.unmarshalWrite b
      = (0, [], Some (Errorf ("too short: len = " ++ pretty (length b))))).
Proof.
  split.
  - intros Hs Hparse. unfold HH.unmarshalWrite.
    rewrite marshalWrite_envelope.
    assert (Hlen : length (PutUint64 shardID) = 8%nat) by reflexivity.
    rewrite length_app, Hlen.
    destruct (Nat.ltb_spec (8 + length (HH.lineProtocol points)) 8) as [Hlt|_];
      [lia|].
    rewrite take_app_length' by exact Hlen.
    rewrite drop_app_length' by exact Hlen.
    rewrite Hparse, Uint64_PutUint64 by exact Hs.
    reflexivity.
  - intros Hb. unfold HH.unmarshalWrite.
    destruct (Nat.ltb_spec (length b) 8) as [_|Hge]; [reflexivity | lia].
Qed.

End codec.

Lemma unmarshalWrite_marshalWrite_witness :
  HH.unmarshalWrite (HH.marshalWrite 42 [Examples.p1; Examples.p2])
  = (42, [Examples.p1; Examples.p2], None)
  /\ HH.unmarshalWrite Examples.shortFrame
     = (0, [], Some (Errorf "too short: len = 3")).
Proof.
  destruct (unmarshalWrite_marshalWrite 42 [Examples.p1; Examples.p2]
              Examples.shortFrame) as [Hround Hshort].
  split.
  - apply Hround; [unfold is_uint64; lia | vm_compute; reflexivity].
  - apply Hshort. simpl. lia.
Defined.

(** ** The processor *)

Section processor_facts.
Context {Point Q M W : Type}.
Context `{HH.PointOps Point} `{HH.queueOps Q} `{HH.metaClient M}
        `{HH.shardWriter W Point}.

Local Abbreviation Processor := (HH.NodeProcessor Q M W).

(** [SendWrite] leaves the configured intervals as they are. *)
Lemma SendWrite_intervals (n : Processor) :
  HH.RetryInterval (HH.SendWrite n).1 = HH.RetryInterval n
  /\ HH.RetryMaxInterval (HH.SendWrite n).1 = HH.RetryMaxInterval n.
Proof.
  unfold HH.SendWrite.
  repeat match goal with
  | |- context [let '(_, _) := ?e in _] => destruct e
  | |- context [match ?e with _ => _ end] => destruct e
  end; simpl; auto.
Qed.

(** C5.  [SendWrite] on an active node whose queue hands out the frame
    [buf].  If [buf] does not decode, the queue is advanced, no counter
    moves, nothing is sent to the writer, and the decode error is
    returned.  If it decodes and the writer fails, [WriteNodeReqFail] is
    incremented, the queue is left as it is (so its current frame is still
    [buf]) and the writer's error is returned.  If the writer accepts,
    [WriteNodeReq] is incremented, [WriteNodeReqPoints] grows by the number
    of points, the queue is advanced and [(len(buf), nil)] is returned.
    Counters are [int64]: an increment is [atomic.AddInt64]. *)
Theorem SendWrite_frame
    (n : Processor) (buf : list byte) (shardID : Z) (points : list Point)
    (derr : option error) (w : W) (werr : option error) :
  HH.Active n = (true, None) ->
  HH.queue_Current (HH.queue n) = (buf, None) ->
  HH.unmarshalWrite buf = (shardID, points, derr) ->
  HH.writer_WriteShard (HH.writer n) shardID (HH.nodeID n) points = (w, werr) ->
  let n' := (HH.SendWrite n).1 in
  let s := HH.stats n in
  let s' := HH.stats n' in
  HH.WriteShardReq s' = HH.WriteShardReq s
  /\ HH.WriteShardReqPoints s' = HH.WriteShardReqPoints s
  /\ match derr, werr with
     | Some e, _ =>
         (HH.SendWrite n).2 = (0, Some e)
         /\ HH.queue n' = (HH.queue_Advance (HH.queue n)).1
         /\ HH.writer n' = HH.writer n
         /\ HH.WriteNodeReq s' = HH.WriteNodeReq s
         /\ HH.WriteNodeReqFail s' = HH.WriteNodeReqFail s
         /\ HH.WriteNodeReqPoints s' = HH.WriteNodeReqPoints s
     | None, Some e =>
         (HH.SendWrite n).2 = (0, Some e)
         /\ HH.queue n' = HH.queue n
         /\ HH.queue_Current (HH.queue n') = (buf, None)
         /\ HH.writer n' = w
         /\ HH.WriteNodeReq s' = HH.WriteNodeReq s
         /\ HH.WriteNodeReqFail s' = add64 (HH.WriteNodeReqFail s) 1
         /\ HH.WriteNodeReqPoints s' = HH.WriteNodeReqPoints s
     | None, None =>
         (HH.SendWrite n).2 = (Z.of_nat (length buf), None)
         /\ HH.queue n' = (HH.queue_Advance (HH.queue n)).1
         /\ HH.writer n' = w
         /\ HH.WriteNodeReq s' = add64 (HH.WriteNodeReq s) 1
         /\ HH.WriteNodeReqFail s' = HH.WriteNodeReqFail s
         /\ HH.WriteNodeReqPoints s'
            = add64 (HH.WriteNodeReqPoints s) (Z.of_nat (length points))
     end.
Proof.
  intros Hactive Hcur Hdec Hwrite. unfold HH.SendWrite.
  rewrite Hactive, Hcur, Hdec. simpl.
  destruct derr as [e|].
  - destruct (HH.queue_Advance (HH.queue n)) as [q aerr]. simpl. auto 10.
  - rewrite Hwrite. destruct werr as [e|]; simpl.
    + rewrite Hcur. auto 10.
    + destruct (HH.queue_Advance (HH.queue n)) as [q aerr]. simpl. auto 10.
Qed.

End processor_facts.

Lemma SendWrite_frame_witness :
  let delivered := Examples.processor [Examples.frame42] [] (HH.mkStats 1 2 0 0 0) in
  let rejected :=
    Examples.processor [Examples.frame42] [Some Examples.refused]
      (HH.mkStats 1 2 0 0 0) in
  let poisoned :=
    Examples.processor [Examples.shortFrame; Examples.frame42] []
      (HH.mkStats 1 2 0 0 0) in
  ((HH.SendWrite delivered).2 = (38, None)
   /\ HH.queue (HH.SendWrite delivered).1 = []
   /\ HH.WriteNodeReq (HH.stats (HH.SendWrite delivered).1) = 1
   /\ HH.WriteNodeReqPoints (HH.stats (HH.SendWrite delivered).1) = 2)
  /\ ((HH.SendWrite rejected).2 = (0, Some Examples.refused)
      /\ HH.queue (HH.SendWrite rejected).1 = [Examples.frame42]
      /\ HH.WriteNodeReqFail (HH.stats (HH.SendWrite rejected).1) = 1)
  /\ ((HH.SendWrite poisoned).2 = (0, Some (Errorf "too short: len = 3"))
      /\ HH.queue (HH.SendWrite poisoned).1 = [Examples.frame42]
      /\ HH.WriteNodeReqFail (HH.stats (HH.SendWrite poisoned).1) = 0).
Proof.
  intros delivered rejected poisoned.
  assert (Hd := SendWrite_frame delivered Examples.frame42 42
                  [Examples.p1; Examples.p2] None
                  (RefHH.mkWriter [] [(42, 7, [Examples.p1; Examples.p2])]) None).
  assert (Hr := SendWrite_frame rejected Examples.frame42 42
                  [Examples.p1; Examples.p2] None
                  (RefHH.mkWriter [] []) (Some Examples.refused)).
  assert (Hp := SendWrite_frame poisoned Examples.shortFrame 0 []
                  (Some (Errorf "too short: len = 3"))
                  (RefHH.mkWriter [] [(0, 7, [])]) None).
  do 4 (lapply Hd; [clear Hd; intro Hd | vm_compute; reflexivity]).
  do 4 (lapply Hr; [clear Hr; intro Hr | vm_compute; reflexivity]).
  do 4 (lapply Hp; [clear Hp; intro Hp | vm_compute; reflexivity]).
  vm_compute in Hd, Hr, Hp. vm_compute. tauto.
Defined.

Lemma mul64_small (a b : Z) : is_int64 (a * b) -> mul64 a b = a * b.
Proof.
  unfold is_int64, mul64, wrap64. intros Hr.
  rewrite Z.mod_small by lia. lia.
Qed.

Section backoff.
Context {Point Q M W : Type}.
Context `{HH.PointOps Point} `{HH.queueOps Q} `{HH.metaClient M}
        `{HH.shardWriter W Point}.

Local Abbreviation Processor := (HH.NodeProcessor Q M W).


(** C3 (as the code is).  [Statistics] exports one statistic with five
    values; the value under the key [writeNodeReqPoints] is the counter
    [WriteShardReqPoints], not [WriteNodeReqPoints]. *)
Theorem Statistics_writeNodeReqPoints (n : Processor) (tags : gmap string string) :
  exists st,
    HH.Statistics n tags = [st]
    /\ HH.Values st !! HH.writeShardReq = Some (HH.WriteShardReq (HH.stats n))
    /\ HH.Values st !! HH.writeShardReqPoints
       = Some (HH.WriteShardReqPoints (HH.stats n))
    /\ HH.Values st !! HH.writeNodeReq = Some (HH.WriteNodeReq (HH.stats n))
    /\ HH.Values st !! HH.writeNodeReqFail = Some (HH.WriteNodeReqFail (HH.stats n))
    /\ HH.Values st !! HH.writeNodeReqPoints
       = Some (HH.WriteShardReqPoints (HH.stats n)).
Proof.
  eexists. split; [reflexivity|]. simpl.
  unfold HH.writeShardReq, HH.writeShardReqPoints, HH.writeNodeReq,
    HH.writeNodeReqFail, HH.writeNodeReqPoints.
  repeat split; simplify_map_eq; reflexivity.
Qed.

End backoff.


(** The statistics of a processor that took in five points and delivered
    two of them: [writeNodeReqPoints] is exported as 5. *)
Example Statistics_aliasing :
  let n := Examples.processor [] [] (HH.mkStats 2 5 1 0 2) in
  HH.WriteNodeReqPoints (HH.stats n) = 2
  /\ (HH.Values <$> HH.Statistics n ∅)
     = [ {[ "writeShardReq"%string := 2; "writeShardReqPoints"%string := 5;
            "writeNodeReq"%string := 1; "writeNodeReqFail"%string := 0;
            "writeNodeReqPoints"%string := 5 ]} ].
Proof. vm_compute. split; reflexivity. Qed.

(** ** The metadata client *)

(** Unfold the calls of this development, and nothing of the libraries. *)
Ltac unfold_client :=
  cbv beta iota zeta delta
    [Meta.run Meta.CreateDataNode Meta.DeleteDataNode Meta.CreateDatabase
     Meta.CreateDatabaseWithRetentionPolicy Meta.DropDatabase
     Meta.CreateRetentionPolicy Meta.DropRetentionPolicy
     Meta.UpdateRetentionPolicy Meta.CreateUser Meta.UpdateUser
     Meta.DropUser Meta.SetPrivilege Meta.SetAdminPrivilege
     Meta.AddShardOwner Meta.RemoveShardOwner Meta.DropShard
     Meta.TruncateShardGroups Meta.PruneShardGroups Meta.CreateShardGroup
     Meta.createShardGroup Meta.FreezeDataNode Meta.UnfreezeDataNode
     Meta.DeleteShardGroup Meta.PrecreateShardGroups
     Meta.CreateContinuousQuery Meta.DropContinuousQuery
     Meta.CreateSubscription Meta.DropSubscription Meta.SetData
     Meta.ReplaceData Meta.DataNodeByTCPHost Meta.user Meta.User Meta.data
     Meta.DataIndex Meta.MarshalBinary Meta.commit Meta.snapshot
     Meta.Data_Clone Meta.call Meta.query Meta.load Meta.store Meta.new
     Meta.get Meta.modify Meta.panic mbind mret Meta.M_bind Meta.M_ret
     Meta.set_heap Meta.set_cacheData Meta.set_changed Meta.set_authCache
     Meta.heap Meta.cacheData Meta.changed Meta.authCache Meta.path
     Meta.retentionAutoCreate fst snd Meta.Authenticate
     Meta.hashWithSalt Meta.saltedHash] in *.

Section client_facts.
Import Meta.
Context {ops : DataOps}.

(** A new object never takes the address of the cached one. *)
Lemma fresh_cacheData (c : Client) :
  wf c -> fresh (dom (heap c)) <> cacheData c.
Proof.
  intros Hwf Heq. apply (is_fresh (dom (heap c))).
  rewrite Heq. apply elem_of_dom. exact Hwf.
Qed.

(** C2.  A mutation that returns an error leaves the client as it was:
    [cacheData] points to the same object, the object is unchanged, and so
    is what [MarshalBinary] returns for it; the [changed] channel has not
    been closed and the auth cache is untouched.

    Every mutation but one works on a clone and swaps it in only in
    [commit], whose only failure would be [snapshot]'s, which never fails.
    The three hypotheses are about the snapshot's own methods, which are
    not in the file: [CreateDataNode] runs on the cached object itself, so
    [Data.CreateDataNode] must leave its receiver alone when it fails; and
    [CreateDataNode] and [CreateUser] look up what they created, so the node
    and the user must be there after a successful creation. *)
Theorem failed_mutation_leaves_cache
    (Hfail : forall d h t d' e, Data_CreateDataNode d h t = (d', Some e) -> d' = d)
    (Hnode : forall d h t d',
        Data_CreateDataNode d h t = (d', None) ->
        List.find (fun n => String.eqb (NodeInfo.TCPHost n) t) (Data.DataNodes d')
        <> None)
    (Huser : forall d name hashed admin d',
        Data_CreateUser d name hashed admin = (d', None) ->
        List.find (fun u => String.eqb (UserInfo.Name u) name) (Data.Users d')
        <> None)
    (m : mutation) (c c' : Client) (e : error) :
  wf c ->
  run m c = Ok (Some e, c') ->
  cacheData c' = cacheData c
  /\ heap c' !! cacheData c' = heap c !! cacheData c
  /\ changed c' = changed c
  /\ authCache c' = authCache c
  /\ exists bytes,
       MarshalBinary c = Ok (bytes, c) /\ MarshalBinary c' = Ok (bytes, c').
Proof.
  intros Hwf Hrun.
  enough (Hsame : cacheData c' = cacheData c
                  /\ heap c' !! cacheData c' = heap c !! cacheData c
                  /\ changed c' = changed c
                  /\ authCache c' = authCache c).
  { destruct Hsame as (Hp & Hobj & Hch & Hauth). repeat split; try assumption.
    exists (Data_MarshalBinary (heap c !!! cacheData c)).
    split; [reflexivity|].
    unfold MarshalBinary, query, load, get. cbv [mbind mret M_bind M_ret].
    rewrite !lookup_total_alt, Hobj. reflexivity. }
  pose proof (fresh_cacheData c Hwf) as Hfresh.
  destruct c as [h p n a pa r]. simpl in Hfresh.
  destruct m; unfold_client.
  all: try (repeat case_match; simplify_eq; simpl; repeat split;
            try reflexivity; simplify_map_eq; reflexivity).
  - (* CreateDataNode *)
    destruct (Data_CreateDataNode (h !!! p) httpAddr tcpAddr) as [d' [err|]] eqn:Hc.
    + apply Hfail in Hc. subst d'. simplify_eq. simpl.
      destruct Hwf as [d0 Hd0]. simpl in Hd0.
      rewrite (lookup_total_correct _ _ _ Hd0).
      rewrite insert_id by exact Hd0. auto.
    + apply Hnode in Hc. simpl in Hrun.
      rewrite lookup_total_insert_eq in Hrun.
      destruct (find _ (Data.DataNodes d')); [|congruence].
      simplify_eq.
  - (* CreateUser *)
    rewrite lookup_total_insert_ne in Hrun by exact Hfresh.
    destruct (find _ (Data.Users (h !!! p))) as [u|]; simpl in Hrun.
    all: rewrite lookup_total_insert_eq in Hrun.
    all: destruct (Data_CreateUser (h !!! p) name hashedPassword admin)
           as [d' [err|]] eqn:Hc; simpl in Hrun.
    all: try (simplify_eq; simpl; repeat split; try reflexivity;
              simplify_map_eq; reflexivity).
    all: apply Huser in Hc; rewrite lookup_total_insert_eq in Hrun;
         simpl in Hrun; rewrite lookup_total_insert_eq in Hrun; simpl in Hrun;
         destruct (find _ (Data.Users d')); [|congruence]; simplify_eq.
Qed.

End client_facts.

(** The reference snapshot meets the three hypotheses. *)
Lemma find_app_last {A : Type} (p : A -> bool) (l : list A) (x : A) :
  p x = true -> List.find p (l ++ [x]) <> None.
Proof.
  intros Hx. induction l as [|y l IH]; simpl.
  - rewrite Hx. discriminate.
  - destruct (p y); [discriminate | exact IH].
Qed.

Lemma RefData_CreateDataNode_fails d h t d' e :
  RefData.CreateDataNode d h t = (d', Some e) -> d' = d.
Proof.
  unfold RefData.CreateDataNode. destruct (existsb _ _); congruence.
Qed.

Lemma RefData_CreateDataNode_adds d h t d' :
  RefData.CreateDataNode d h t = (d', None) ->
  List.find (fun n => String.eqb (Meta.NodeInfo.TCPHost n) t) (Meta.Data.DataNodes d')
  <> None.
Proof.
  unfold RefData.CreateDataNode. destruct (existsb _ _); [discriminate|].
  intros [= <-]. simpl. apply find_app_last. simpl. apply String.eqb_refl.
Qed.

Lemma RefData_CreateUser_adds d name hashed admin d' :
  RefData.CreateUser d name hashed admin = (d', None) ->
  List.find (fun u => String.eqb (Meta.UserInfo.Name u) name) (Meta.Data.Users d')
  <> None.
Proof.
  unfold RefData.CreateUser.
  destruct (String.eqb name ""); [discriminate|].
  destruct (RefData.findUser d name); [discriminate|].
  intros [= <-]. simpl. apply find_app_last. simpl. apply String.eqb_refl.
Qed.

Lemma failed_mutation_leaves_cache_witness :
  let c := Examples.clientWithNode in
  let dropBob := Meta.mDropUser "bob" in
  let addTwice := Meta.mCreateDataNode "h9:8086" "h7:8088" in
  let c1 := Examples.stateAfter (Meta.run dropBob) c in
  let c2 := Examples.stateAfter (Meta.run addTwice) c in
  Meta.wf c
  /\ (Meta.run dropBob c = Meta.Ok (Some ErrUserNotFound, c1)
      /\ Meta.cacheData c1 = Meta.cacheData c
      /\ Meta.heap c1 !! Meta.cacheData c1 = Meta.heap c !! Meta.cacheData c)
  /\ (Meta.run addTwice c = Meta.Ok (Some (Errorf "node already exists"), c2)
      /\ Meta.cacheData c2 = Meta.cacheData c
      /\ Meta.heap c2 !! Meta.cacheData c2 = Meta.heap c !! Meta.cacheData c).
Proof.
  intros c dropBob addTwice c1 c2.
  assert (Hwf : Meta.wf c) by (vm_compute; eexists; reflexivity).
  assert (H1 : Meta.run dropBob c = Meta.Ok (Some ErrUserNotFound, c1))
    by (vm_compute; reflexivity).
  assert (H2 : Meta.run addTwice c
               = Meta.Ok (Some (Errorf "node already exists"), c2))
    by (vm_compute; reflexivity).
  destruct (failed_mutation_leaves_cache (ops := refDataOps)
              RefData_CreateDataNode_fails RefData_CreateDataNode_adds
              RefData_CreateUser_adds dropBob c c1 ErrUserNotFound Hwf H1)
    as (Hp1 & Hobj1 & _).
  destruct (failed_mutation_leaves_cache (ops := refDataOps)
              RefData_CreateDataNode_fails RefData_CreateDataNode_adds
              RefData_CreateUser_adds addTwice c c2 (Errorf "node already exists")
              Hwf H2)
    as (Hp2 & Hobj2 & _).
  auto 10.
Defined.

Section users.
Import Meta.
Context {ops : DataOps}.

(** C1 (as the code is).  [user] returns either a user and a nil error or
    no user and [ErrUserNotFound], so the test [err != nil && u != nil] in
    [CreateUser] never holds and the comparison of hash and admin flag is
    never reached.  For a user that already exists, with the very hash and
    admin flag of the call, the outcome is the one of the snapshot's
    [CreateUser]: its error is returned (and the client is left as it
    was), or else a new version is committed.  In no case is the existing
    user returned without a commit. *)
Theorem CreateUser_existing_user
    (name hashedPassword : string) (admin : bool) (c : Client) (u : UserInfo.t) :
  wf c ->
  user name c = Ok (Some u, None, c) ->
  UserInfo.Hash u = hashedPassword ->
  UserInfo.Admin u = admin ->
  match Data_CreateUser (heap c !!! cacheData c) name hashedPassword admin with
  | (_, Some err) =>
      exists c',
        CreateUser name hashedPassword admin c = Ok (None, Some err, c')
        /\ cacheData c' = cacheData c
        /\ heap c' !! cacheData c' = heap c !! cacheData c
        /\ changed c' = changed c
  | (d', None) =>
      exists r c',
        CreateUser name hashedPassword admin c = Ok (r, c')
        /\ changed c' = S (changed c)
        /\ cacheData c' <> cacheData c
        /\ heap c' !! cacheData c'
           = Some (Data.set_Index (addU64 (Data.Index d') 1) d')
  end.
Proof.
  intros Hwf Huser _ _.
  pose proof (fresh_cacheData c Hwf) as Hfresh.
  destruct c as [h p n a pa r]. unfold_client. simpl in Hfresh.
  rewrite lookup_total_insert_ne by exact Hfresh.
  destruct (find _ (Data.Users (h !!! p))) as [u'|]; [|discriminate].
  rewrite lookup_total_insert_eq.
  destruct (Data_CreateUser (h !!! p) name hashedPassword admin) as [d' [err|]].
  - eexists. split; [reflexivity|]. simpl. repeat split.
    now rewrite !lookup_insert_ne by exact Hfresh.
  - simpl. rewrite !lookup_total_insert_eq.
    destruct (find _ _) as [created|]; do 2 eexists.
    all: split; [reflexivity|]; simpl; repeat split;
      [congruence | now rewrite lookup_insert_eq].
Qed.

(** C10 (amended).  [SetData(d)] always succeeds and closes the [changed]
    channel.  It first sets the [Index] of the cached object to 0 and then
    commits a clone of [d]: when [d] is another object than the cached one,
    the installed snapshot is [d] with [Index] one more than [d.Index]
    ([uint64]); when [d] is the cached object itself, the reset is made on
    [d] and the installed snapshot has [Index] 1. *)
Theorem SetData_installs (c : Client) (d : loc) :
  wf c ->
  is_Some (heap c !! d) ->
  exists c',
    SetData d c = Ok (None, c')
    /\ changed c' = S (changed c)
    /\ (d <> cacheData c ->
        heap c' !! cacheData c'
        = Some (Data.set_Index (addU64 (Data.Index (heap c !!! d)) 1) (heap c !!! d)))
    /\ (d = cacheData c ->
        heap c' !! cacheData c' = Some (Data.set_Index 1 (heap c !!! d))).
Proof.
  intros Hwf Hd.
  destruct c as [h p n a pa r]. unfold_client.
  eexists. split; [reflexivity|]. simpl. split; [reflexivity|]. split.
  - intros Hne. rewrite lookup_insert_eq, lookup_total_insert_eq.
    rewrite lookup_total_insert_ne by congruence. reflexivity.
  - intros ->. rewrite lookup_insert_eq, !lookup_total_insert_eq. reflexivity.
Qed.

End users.

Lemma CreateUser_existing_user_witness :
  let c := Examples.clientWithAlice in
  let alice := Meta.UserInfo.mk "alice" "$2a$secret" false ∅ in
  Meta.user "alice" c = Meta.Ok (Some alice, None, c)
  /\ exists c',
       Meta.CreateUser "alice" "$2a$secret" false c
       = Meta.Ok (None, Some ErrUserExists, c')
       /\ Meta.cacheData c' = Meta.cacheData c
       /\ Meta.heap c' !! Meta.cacheData c' = Meta.heap c !! Meta.cacheData c
       /\ Meta.changed c' = Meta.changed c.
Proof.
  intros c alice.
  assert (Hwf : Meta.wf c) by (vm_compute; eexists; reflexivity).
  assert (Huser : Meta.user "alice" c = Meta.Ok (Some alice, None, c))
    by (vm_compute; reflexivity).
  split; [exact Huser|].
  exact (CreateUser_existing_user (ops := refDataOps) "alice" "$2a$secret" false
           c alice Hwf Huser eq_refl eq_refl).
Defined.

(** C10, as stated, fails when the snapshot handed to [SetData] is the
    cached object.  [ReplaceData(d)] makes [d] the cached object; here
    [d.Index] is 7, and after [SetData(d)] the installed snapshot has
    [Index] 1, not 8. *)
Lemma SetData_alias_counterexample :
  let c := Examples.clientRestored in
  let d := Meta.cacheData c in
  Meta.Data.Index (Meta.heap c !!! d) = 7
  /\ (exists c',
        Meta.SetData d c = Meta.Ok (None, c')
        /\ Meta.Data.Index (Meta.heap c' !!! Meta.cacheData c') = 1)
  /\ ~ (forall c',
          Meta.SetData d c = Meta.Ok (None, c') ->
          Meta.Data.Index (Meta.heap c' !!! Meta.cacheData c')
          = addU64 (Meta.Data.Index (Meta.heap c !!! d)) 1).
Proof.
  intros c d.
  assert (Hrun : Meta.SetData d c
                 = Meta.Ok (None, Examples.stateAfter (Meta.SetData d) c))
    by (vm_compute; reflexivity).
  split; [vm_compute; reflexivity|]. split.
  - eexists. split; [exact Hrun | vm_compute; reflexivity].
  - intros Hclaim. specialize (Hclaim _ Hrun). vm_compute in Hclaim. discriminate.
Qed.

Lemma SetData_installs_witness :
  let c := Examples.clientWithAlice in
  let d := Examples.restored in
  let c0 := Examples.stateAfter (Meta.new d) c in
  let p := fresh (dom (Meta.heap c)) in
  Meta.wf c0 /\ Meta.heap c0 !! p = Some d /\ p <> Meta.cacheData c0
  /\ exists c',
       Meta.SetData p c0 = Meta.Ok (None, c')
       /\ Meta.heap c' !! Meta.cacheData c' = Some (Meta.Data.set_Index 8 d).
Proof.
  intros c d c0 p.
  assert (Hwf : Meta.wf c0) by (vm_compute; eexists; reflexivity).
  assert (Hd : Meta.heap c0 !! p = Some d) by (vm_compute; reflexivity).
  assert (Hne : p <> Meta.cacheData c0) by (vm_compute; discriminate).
  split; [exact Hwf|]. split; [exact Hd|]. split; [exact Hne|].
  destruct (SetData_installs c0 p Hwf (ex_intro _ d Hd))
    as (c' & Hrun & _ & Hother & _).
  exists c'. split; [exact Hrun|].
  rewrite (Hother Hne), (lookup_total_correct _ _ _ Hd). reflexivity.
Defined.

Section authentication.
Import Meta.
Context {ops : DataOps} {crypto : Crypto}.

(** [UpdateUser] and [DropUser], when they succeed, leave no entry for the
    user in the auth cache. *)
Lemma UpdateUser_forgets (name hashedPassword : string) (c c' : Client) :
  UpdateUser name hashedPassword c = Ok (None, c') ->
  authCache c' !! name = None.
Proof.
  destruct c as [h p n a pa r]. unfold_client.
  destruct (Data_UpdateUser _ _ _) as [d' [err|]]; [discriminate|].
  intros [= <-]. simpl. apply lookup_delete_eq.
Qed.

Lemma DropUser_forgets (name : string) (c c' : Client) :
  DropUser name c = Ok (None, c') ->
  authCache c' !! name = None.
Proof.
  destruct c as [h p n a pa r]. unfold_client.
  destruct (Data_DropUser _ _) as [d' [err|]]; [discriminate|].
  intros [= <-]. simpl. apply lookup_delete_eq.
Qed.

(** [SetData] and [ReplaceData] leave the auth cache as it is. *)
Lemma ReplaceData_keeps_authCache (d : loc) (c c' : Client) (err : option error) :
  ReplaceData d c = Ok (err, c') -> authCache c' = authCache c.
Proof.
  destruct c as [h p n a pa r]. unfold_client. now intros [= <- <-].
Qed.

Lemma SetData_keeps_authCache (d : loc) (c c' : Client) (err : option error) :
  SetData d c = Ok (err, c') -> authCache c' = authCache c.
Proof.
  destruct c as [h p n a pa r]. unfold_client. now intros [= <- <-].
Qed.

(** C7 (as the code is).  A cache entry is trusted for the password it was
    made with, whatever hash the user has now.  If the cache holds an entry
    for [username] whose salted digest matches [password], [Authenticate]
    returns the user although bcrypt rejects [password] for the stored
    hash; without the entry the same call returns [ErrAuthenticate]. *)
Theorem Authenticate_stale_entry
    (c : Client) (username password : string) (u : UserInfo.t) (au : authUser)
    (rnd : list byte + error) :
  user username c = Ok (Some u, None, c) ->
  authCache c !! username = Some au ->
  hashWithSalt (salt au) password = hash au ->
  bcrypt_CompareHashAndPassword
    (list_byte_of_string (UserInfo.Hash u)) (list_byte_of_string password) = false ->
  let missed := set_authCache (delete username (authCache c)) c in
  Authenticate username password rnd c = Ok (Some u, None, c)
  /\ Authenticate username password rnd missed
     = Ok (None, Some ErrAuthenticate, missed).
Proof.
  intros Huser Hentry Hdigest Hbcrypt missed. subst missed.
  destruct c as [h p n a pa r]. unfold_client. simpl in *.
  destruct (find _ (Data.Users (h !!! p))) as [u'|]; [|discriminate].
  injection Huser as ->.
  rewrite Hentry, lookup_delete_eq, Hbcrypt.
  rewrite bool_decide_eq_true_2 by exact Hdigest.
  split; reflexivity.
Qed.

End authentication.

(** The stale entry is reached through the client's own calls: "alice"
    authenticates with "secret", a snapshot in which her password is
    "changed" is restored, and "secret" is still accepted. *)
Lemma Authenticate_stale_entry_witness :
  let c := Examples.clientRestored in
  let alice := Meta.UserInfo.mk "alice" "$2a$changed" false ∅ in
  let missed := Meta.set_authCache (delete "alice"%string (Meta.authCache c)) c in
  Meta.user "alice" c = Meta.Ok (Some alice, None, c)
  /\ Meta.Authenticate "alice" "secret" (inl Examples.salt32) c
     = Meta.Ok (Some alice, None, c)
  /\ Meta.Authenticate "alice" "secret" (inl Examples.salt32) missed
     = Meta.Ok (None, Some ErrAuthenticate, missed).
Proof.
  intros c alice missed.
  assert (Huser : Meta.user "alice" c = Meta.Ok (Some alice, None, c))
    by (vm_compute; reflexivity).
  split; [exact Huser|].
  eapply (Authenticate_stale_entry (crypto := refCrypto)
            c "alice" "secret" alice _ (inl Examples.salt32) Huser).
  - vm_compute. reflexivity.
  - vm_compute. reflexivity.
  - vm_compute. reflexivity.
Defined.

(** ** Precreation of shard groups *)

Section precreation.
Import Meta.
Context {ops : DataOps}.

Lemma withObject_twice (p : loc) (d d' : Data.t) (c : Client) :
  withObject p d' (withObject p d c) = withObject p d' c.
Proof.
  destruct c. unfold withObject, set_heap. simpl.
  now rewrite insert_insert_eq.
Qed.

Lemma query_withObject {R : Type} (p : loc) (f : Data.t -> R) (d : Data.t) (c : Client) :
  query p f (withObject p d c) = Ok (f d, withObject p d c).
Proof.
  unfold query, load, withObject. cbv [mbind mret M_bind M_ret]. simpl.
  now rewrite lookup_total_insert_eq.
Qed.

Lemma call_withObject {R : Type} (p : loc) (f : Data.t -> Data.t * R)
    (d : Data.t) (c : Client) :
  call p f (withObject p d c) = Ok ((f d).2, withObject p (f d).1 c).
Proof.
  unfold call, load, store, modify. cbv [mbind mret M_bind M_ret].
  unfold withObject at 1 2. simpl. rewrite lookup_total_insert_eq.
  destruct (f d) as [d' r]. simpl.
  unfold withObject, set_heap. simpl. now rewrite insert_insert_eq.
Qed.

Lemma bind_Ok {A B : Type} (m : M A) (f : A -> M B) (c c' : Client) (a : A) :
  m c = Ok (a, c') -> (m ≫= f) c = f a c'.
Proof. intros Hm. cbv [mbind M_bind]. now rewrite Hm. Qed.

(** [createShardGroup] does to the object what [createGroup] does to its
    value. *)
Lemma createShardGroup_createGroup
    (data : loc) (database policy : string) (ts : Time) (d : Data.t) (c : Client) :
  createShardGroup data database policy ts (withObject data d c)
  = Ok ((createGroup d database policy ts).2,
        withObject data (createGroup d database policy ts).1 c).
Proof.
  unfold createShardGroup, createGroup.
  rewrite (bind_Ok _ _ _ _ _ (query_withObject data _ d c)).
  destruct (Data_ShardGroupByTimestamp d database policy ts) as [[sg|] serr];
    simpl; [reflexivity|].
  rewrite (bind_Ok _ _ _ _ _ (call_withObject data _ d c)).
  destruct (Data_CreateShardGroup d database policy ts) as [d' [err|]];
    simpl; [reflexivity|].
  rewrite (bind_Ok _ _ _ _ _ (query_withObject data _ d' c)).
  destruct (Data_RetentionPolicy d' database policy) as [[rpi|] [err|]];
    reflexivity.
Qed.

(** One policy: the loop body against [successorDue] and [createGroup]. *)
Lemma precreateRetentionPolicy_step
    (from to : Time) (data : loc) (database : string) (created : bool)
    (rp : RetentionPolicyInfo.t) (d : Data.t) (c : Client) :
  precreateRetentionPolicy from to data database created rp (withObject data d c)
  = match successorDue from to d database rp with
    | None => Ok (created, withObject data d c)
    | Some ts =>
        match createGroup d database (RetentionPolicyInfo.Name rp) ts with
        | (d', (Some _, None)) => Ok (true, withObject data d' c)
        | (d', (None, None)) => Panic
        | (d', (_, Some _)) => Ok (created, withObject data d' c)
        end
    end.
Proof.
  unfold precreateRetentionPolicy, successorDue.
  destruct (last (RetentionPolicyInfo.ShardGroups rp)) as [g|]; [|reflexivity].
  unfold Before, After, Nanosecond. rewrite Z.mul_1_r.
  rewrite <- !andb_assoc, (andb_comm (ShardGroupInfo.EndTime g <? to)).
  destruct (negb (Deleted g) && ((from <? ShardGroupInfo.EndTime g)
                                 && (ShardGroupInfo.EndTime g <? to)));
    [|reflexivity].
  rewrite (bind_Ok _ _ _ _ _ (query_withObject data _ d c)).
  destruct (Data_ShardGroupByTimestamp d database (RetentionPolicyInfo.Name rp)
              (ShardGroupInfo.EndTime g + 1)) as [[sg|] serr] eqn:Hsg;
    simpl; [reflexivity|].
  rewrite (bind_Ok _ _ _ _ _ (createShardGroup_createGroup data _ _ _ d c)).
  destruct (createGroup d database (RetentionPolicyInfo.Name rp)
              (ShardGroupInfo.EndTime g + 1)) as [d' [[newGroup|] [err|]]];
    reflexivity.
Qed.

(** The inner loop: the policies of one database. *)
Lemma precreate_inner
    (from to : Time) (data : loc) (database : string)
    (rps : list RetentionPolicyInfo.t) (created : bool) (d : Data.t) (c : Client) :
  forRange rps created (precreateRetentionPolicy from to data database)
    (withObject data d c)
  = match precreateAll from to (List.map (fun rp => (database, rp)) rps) d created with
    | Ok (d', created') => Ok (created', withObject data d' c)
    | Panic => Panic
    end.
Proof.
  revert created d. induction rps as [|rp rps IH]; intros created d; simpl.
  - reflexivity.
  - cbv [mbind M_bind]. rewrite precreateRetentionPolicy_step.
    destruct (successorDue from to d database rp) as [ts|]; [|apply IH].
    destruct (createGroup d database (RetentionPolicyInfo.Name rp) ts)
      as [d' [[newGroup|] [err|]]]; try apply IH; reflexivity.
Qed.

Lemma precreateAll_app
    (from to : Time) (jobs1 jobs2 : list (string * RetentionPolicyInfo.t))
    (d : Data.t) (created : bool) :
  precreateAll from to (jobs1 ++ jobs2) d created
  = match precreateAll from to jobs1 d created with
    | Ok (d', created') => precreateAll from to jobs2 d' created'
    | Panic => Panic
    end.
Proof.
  revert d created. induction jobs1 as [|[database rp] jobs1 IH];
    intros d created; simpl; [reflexivity|].
  destruct (successorDue from to d database rp) as [ts|]; [|apply IH].
  destruct (createGroup d database (RetentionPolicyInfo.Name rp) ts)
    as [d' [[newGroup|] [err|]]]; try apply IH; reflexivity.
Qed.

(** The two loops: every policy of every database, in order. *)
Lemma precreate_outer
    (from to : Time) (data : loc) (dbs : list DatabaseInfo.t)
    (created : bool) (d : Data.t) (c : Client) :
  forRange dbs created (fun created di =>
    forRange (DatabaseInfo.RetentionPolicies di) created
      (precreateRetentionPolicy from to data (DatabaseInfo.Name di)))
    (withObject data d c)
  = match precreateAll from to
            (flat_map (fun di =>
               List.map (fun rp => (DatabaseInfo.Name di, rp))
                 (DatabaseInfo.RetentionPolicies di)) dbs) d created with
    | Ok (d', created') => Ok (created', withObject data d' c)
    | Panic => Panic
    end.
Proof.
  revert created d. induction dbs as [|di dbs IH]; intros created d; simpl.
  - reflexivity.
  - cbv [mbind M_bind]. rewrite precreate_inner, precreateAll_app.
    destruct (precreateAll from to _ d created) as [[d' created']|];
      [apply IH | reflexivity].
Qed.

(** Creating groups does not touch [Index], if the snapshot's
    [CreateShardGroup] does not. *)
Lemma precreateAll_Index
    (Hindex : forall d database policy ts,
        Data.Index (Data_CreateShardGroup d database policy ts).1 = Data.Index d)
    (from to : Time) (jobs : list (string * RetentionPolicyInfo.t))
    (d d' : Data.t) (created created' : bool) :
  precreateAll from to jobs d created = Ok (d', created') ->
  Data.Index d' = Data.Index d.
Proof.
  revert d created. induction jobs as [|[database rp] jobs IH];
    intros d created; simpl.
  - now intros [= <- <-].
  - destruct (successorDue from to d database rp) as [ts|]; [|apply IH].
    unfold createGroup.
    specialize (Hindex d database (RetentionPolicyInfo.Name rp) ts).
    destruct (Data_ShardGroupByTimestamp d database _ ts) as [[sg|] serr];
      simpl; [apply IH|].
    destruct (Data_CreateShardGroup d database _ ts) as [d1 [err|]];
      simpl in *; [intros Hr; rewrite (IH _ _ Hr); exact Hindex|].
    destruct (Data_RetentionPolicy d1 database _) as [[rpi|] [err|]];
      try (intros Hr; rewrite (IH _ _ Hr); exact Hindex).
    destruct (RetentionPolicyInfo_ShardGroupByTimestamp rpi ts);
      [intros Hr; rewrite (IH _ _ Hr); exact Hindex | discriminate].
Qed.

(** C8.  [PrecreateShardGroups(from, to)] does what the specification
    says, for all [from] and [to].  A successor is due for a retention
    policy exactly when the policy has a group, its last group [g] is not
    deleted, [from < g.EndTime < to], and no group of the snapshot (as left
    by the creations made so far) covers [g.EndTime + 1ns]; that is the
    timestamp the group is created at.  [precreateAll] makes these
    creations over the policies in order.  If one of them succeeds, the
    result is committed once: the [changed] channel is closed once and the
    installed snapshot has [Index] one more ([uint64]) than the cached one
    had.  Otherwise nothing is committed: the cached object, its [Index]
    and the channel are as before.  The call returns nil in both cases.

    The hypothesis is about the snapshot's [CreateShardGroup], which is not
    in the file: it does not write [Index]. *)
Theorem PrecreateShardGroups_spec (from to : Time) (c : Client) :
  wf c ->
  (forall d database policy ts,
      Data.Index (Data_CreateShardGroup d database policy ts).1 = Data.Index d) ->
  let d0 := heap c !!! cacheData c in
  (forall d database rp ts,
      successorDue from to d database rp = Some ts <->
      exists g,
        last (RetentionPolicyInfo.ShardGroups rp) = Some g
        /\ Deleted g = false
        /\ from < ShardGroupInfo.EndTime g < to
        /\ ts = ShardGroupInfo.EndTime g + 1
        /\ (Data_ShardGroupByTimestamp d database (RetentionPolicyInfo.Name rp) ts).1
           = None)
  /\ match precreateAll from to (policiesOf d0) d0 false with
     | Panic => PrecreateShardGroups from to c = Panic
     | Ok (d', created) =>
         exists c',
           PrecreateShardGroups from to c = Ok (None, c')
           /\ if created
              then changed c' = S (changed c)
                   /\ heap c' !! cacheData c'
                      = Some (Data.set_Index (addU64 (Data.Index d0) 1) d')
              else changed c' = changed c
                   /\ cacheData c' = cacheData c
                   /\ heap c' !! cacheData c' = heap c !! cacheData c
     end.
Proof.
  intros Hwf Hindex d0. split.
  - intros d database rp ts. unfold successorDue.
    destruct (last (RetentionPolicyInfo.ShardGroups rp)) as [g|].
    + destruct (Deleted g) eqn:Hdel; simpl.
      { split; [discriminate|]. intros (g' & [= <-] & Hlive & _). congruence. }
      destruct (Z.ltb_spec from (ShardGroupInfo.EndTime g)) as [Hfrom|Hfrom]; simpl.
      2: { split; [discriminate|]. intros (g' & [= <-] & _ & Hin & _). lia. }
      destruct (Z.ltb_spec (ShardGroupInfo.EndTime g) to) as [Hto|Hto]; simpl.
      2: { split; [discriminate|]. intros (g' & [= <-] & _ & Hin & _). lia. }
      destruct (Data_ShardGroupByTimestamp d database (RetentionPolicyInfo.Name rp)
                  (ShardGroupInfo.EndTime g + 1)) as [[sg|] serr] eqn:Hsg; simpl.
      * split; [discriminate|].
        intros (g' & [= <-] & _ & _ & -> & Hnone). rewrite Hsg in Hnone. discriminate.
      * split.
        -- intros [= <-]. exists g. rewrite Hsg. auto.
        -- intros (g' & [= <-] & _ & _ & -> & _). reflexivity.
    + split; [discriminate|]. intros (g & Hg & _). discriminate.
  - pose proof (fresh_cacheData c Hwf) as Hfresh.
    unfold PrecreateShardGroups.
    assert (Hclone : Data_Clone (cacheData c) c
                     = Ok (fresh (dom (heap c)),
                           withObject (fresh (dom (heap c))) d0 c))
      by reflexivity.
    set (data := fresh (dom (heap c))) in *.
    cbv [mbind M_bind get]. rewrite Hclone, query_withObject.
    change (flat_map _ (Data.Databases d0)) with (policiesOf d0).
    rewrite precreate_outer. fold (policiesOf d0).
    destruct (precreateAll from to (policiesOf d0) d0 false)
      as [[d' created]|] eqn:Hall; [|reflexivity].
    pose proof (precreateAll_Index Hindex _ _ _ _ _ _ _ Hall) as Hidx.
    destruct created.
    + eexists. split.
      * unfold commit, load, store, modify, snapshot, get.
        cbv [mbind mret M_bind M_ret]. simpl.
        rewrite !lookup_total_insert_eq. reflexivity.
      * simpl. rewrite lookup_insert_eq, Hidx. auto.
    + eexists. split; [reflexivity|]. simpl.
      rewrite lookup_insert_ne by exact Hfresh. auto.
Qed.

End precreation.

(** The reference snapshot meets the hypothesis of C8. *)
Lemma RefData_CreateShardGroup_Index d database policy ts :
  Meta.Data.Index (RefData.CreateShardGroup d database policy ts).1
  = Meta.Data.Index d.
Proof.
  unfold RefData.CreateShardGroup.
  destruct (RefData.Data_RetentionPolicy d database policy) as [[rp|] [err|]];
    try reflexivity.
  destruct (RefData.ShardGroupByTimestamp rp ts); [reflexivity|].
  destruct (Meta.RetentionPolicyInfo.ShardGroupDuration rp <=? 0); reflexivity.
Qed.

(** The boundary scenarios 3 and 4 of the specification: one group
    [[T, T+1h)]; nothing is due in [(T-10m, T+30m)], and the group that
    starts at [T+1h] is created for [(T+30m, T+2h)]. *)
Lemma PrecreateShardGroups_spec_witness :
  let c := Examples.clientWithGroup in
  let T := Examples.T in
  let starts (d : Meta.Data.t) :=
    List.map (fun rp =>
      (Meta.RetentionPolicyInfo.Name rp,
       List.map Meta.ShardGroupInfo.StartTime (Meta.RetentionPolicyInfo.ShardGroups rp)))
      (flat_map Meta.DatabaseInfo.RetentionPolicies (Meta.Data.Databases d)) in
  Meta.wf c
  /\ Meta.DataIndex c = Meta.Ok (4, c)
  /\ (exists c',
        Meta.PrecreateShardGroups (T - 10 * Minute) (T + 30 * Minute) c
        = Meta.Ok (None, c')
        /\ Meta.changed c' = Meta.changed c
        /\ Meta.cacheData c' = Meta.cacheData c
        /\ Meta.heap c' !! Meta.cacheData c' = Meta.heap c !! Meta.cacheData c)
  /\ (exists c',
        Meta.PrecreateShardGroups (T + 30 * Minute) (T + 2 * Hour) c
        = Meta.Ok (None, c')
        /\ Meta.changed c' = S (Meta.changed c)
        /\ Meta.Data.Index <$> Meta.heap c' !! Meta.cacheData c' = Some 5
        /\ starts <$> Meta.heap c' !! Meta.cacheData c'
           = Some [("autogen"%string, []); ("hourly"%string, [T; T + Hour])]).
Proof.
  intros c T starts.
  assert (Hwf : Meta.wf c) by (vm_compute; eexists; reflexivity).
  split; [exact Hwf|]. split; [vm_compute; reflexivity|].
  pose proof (PrecreateShardGroups_spec (ops := refDataOps)
                (T - 10 * Minute) (T + 30 * Minute) c Hwf
                RefData_CreateShardGroup_Index) as [_ Hskip].
  pose proof (PrecreateShardGroups_spec (ops := refDataOps)
                (T + 30 * Minute) (T + 2 * Hour) c Hwf
                RefData_CreateShardGroup_Index) as [_ Hhit].
  cbv zeta in Hskip, Hhit.
  set (d0 := Meta.heap c !!! Meta.cacheData c) in *.
  assert (Eskip : Meta.precreateAll (T - 10 * Minute) (T + 30 * Minute)
                    (Meta.policiesOf d0) d0 false = Meta.Ok (d0, false))
    by (vm_compute; reflexivity).
  assert (Ehit : Meta.precreateAll (T + 30 * Minute) (T + 2 * Hour)
                   (Meta.policiesOf d0) d0 false
                 = Meta.Ok ((RefData.CreateShardGroup d0 "db0" "hourly"
                               (T + Hour + 1)).1, true))
    by (vm_compute; reflexivity).
  rewrite Eskip in Hskip. rewrite Ehit in Hhit.
  split; [exact Hskip|].
  destruct Hhit as (c' & Hrun & Hchanged & Hobj).
  exists c'. rewrite Hobj. split; [exact Hrun|]. split; [exact Hchanged|].
  split; vm_compute; reflexivity.
Defined.

(** ** Reads and the slices they return *)

Section slices.
Import Slices.
Context {T : Type}.
Implicit Types (h : gmap Meta.loc (list T)) (s : slice).

Lemma elements_insert_other h s p (l : list T) :
  array s <> Some p -> elements (<[p := l]> h) s = elements h s.
Proof.
  unfold elements. destruct (array s) as [q|]; [|reflexivity].
  intros Hne. rewrite lookup_insert_ne by congruence. reflexivity.
Qed.

Lemma backed_not_fresh h s : backed h s -> array s <> Some (fresh (dom h)).
Proof.
  unfold backed. destruct (array s) as [q|]; [|discriminate].
  intros (l & Hl & _) [= ->].
  apply (is_fresh (dom h)). apply elem_of_dom. eauto.
Qed.

(** A successful assignment through [s] is seen through [s]. *)
Lemma elements_assign h h' s (i : nat) (v : T) :
  assign h s i v = Some h' -> elements h' s = <[i := v]> (elements h s).
Proof.
  unfold assign, elements. destruct (array s) as [p|]; [|discriminate].
  destruct (Nat.ltb_spec i (len s)) as [Hi|Hi]; [|discriminate].
  intros [= <-]. rewrite lookup_insert_eq. simpl.
  apply take_insert_lt. exact Hi.
Qed.

(** It is not seen through a slice over another array. *)
Lemma elements_assign_other h h' s s' (i : nat) (v : T) :
  assign h s i v = Some h' -> array s' <> array s -> elements h' s' = elements h s'.
Proof.
  unfold assign. destruct (array s) as [p|] eqn:Hp; [|discriminate].
  destruct (i <? len s)%nat; [|discriminate].
  intros [= <-] Hne. apply elements_insert_other. exact Hne.
Qed.

(** A copy of a slice shows the same elements, over a new array, and the
    slice it was copied from still shows what it showed. *)
Lemma cloneSlice_spec h h' s s' :
  backed h s ->
  cloneSlice h s = (s', h') ->
  elements h' s' = elements h s
  /\ backed h' s'
  /\ (forall s0, backed h s0 -> elements h' s0 = elements h s0)
  /\ (forall s0, backed h s0 -> backed h' s0)
  /\ (forall s0, backed h s0 -> array s' <> None -> array s0 <> array s').
Proof.
  intros Hb. unfold cloneSlice, make.
  destruct (array s) as [p|] eqn:Hp.
  - intros [= <- <-]. cbn [array len]. split; [|split; [|split; [|split]]].
    + unfold elements at 1. simpl. rewrite lookup_insert_eq. simpl.
      apply firstn_all.
    + unfold backed. cbn [array len]. rewrite lookup_insert_eq. eauto.
    + intros s0 Hs0. apply elements_insert_other. now apply backed_not_fresh.
    + intros s0 Hs0. pose proof (backed_not_fresh _ _ Hs0) as Hne.
      unfold backed in *. destruct (array s0) as [q|]; [|exact I].
      rewrite lookup_insert_ne by congruence. exact Hs0.
    + intros s0 Hs0 _. now apply backed_not_fresh.
  - intros [= <- <-]. cbn [array len]. split; [|split; [|split; [|split]]].
    + unfold elements. rewrite Hp. reflexivity.
    + exact I.
    + reflexivity.
    + auto.
    + intros s0 _ Hnil. now elim Hnil.
Qed.

End slices.

Section reads.
Import Slices.

Lemma seenDatabases_elements (c : Client) :
  seenDatabases c = elements (databaseArrays c) (Databases (cacheData c)).
Proof.
  unfold seenDatabases, Client_Databases, elements.
  destruct (array (Databases (cacheData c))) as [p|] eqn:Hp; simpl;
    rewrite ?Hp; reflexivity.
Qed.

Lemma seenUsers_elements (c : Client) :
  seenUsers c = elements (userArrays c) (Users (cacheData c)).
Proof.
  unfold seenUsers, Client_Users, elements.
  destruct (array (Users (cacheData c))) as [p|] eqn:Hp; simpl;
    rewrite ?Hp; reflexivity.
Qed.

Lemma seenDataNodes_elements (c : Client) :
  seenDataNodes c = elements (nodeArrays c) (DataNodes (cacheData c)).
Proof. reflexivity. Qed.

(** C4 (amended).  [Databases], [Users] and [DataNodes] return the cached
    slice itself (a new empty slice when [Databases] or [Users] find it
    nil): an element assigned through the returned slice is what the next
    read shows at that index.  [Data] returns a copy whose slices have
    arrays of their own: the copy shows the elements of the cache, and an
    assignment through any slice of the copy changes nothing that
    [Databases], [Users] or [DataNodes] show afterwards. *)
Theorem reads_and_aliasing (c : Client) :
  wf c ->
  (forall s c1 i v c2,
      Client_Databases c = (s, c1) -> assignDatabase c1 s i v = Some c2 ->
      seenDatabases c2 = <[i := v]> (seenDatabases c))
  /\ (forall s c1 i v c2,
         Client_Users c = (s, c1) -> assignUser c1 s i v = Some c2 ->
         seenUsers c2 = <[i := v]> (seenUsers c))
  /\ (forall s c1 i v c2,
         Client_DataNodes c = (s, c1) -> assignNode c1 s i v = Some c2 ->
         seenDataNodes c2 = <[i := v]> (seenDataNodes c))
  /\ (forall d c1,
         Client_Data c = (d, c1) ->
         (elements (databaseArrays c1) (Databases d) = seenDatabases c
          /\ elements (userArrays c1) (Users d) = seenUsers c
          /\ elements (nodeArrays c1) (DataNodes d) = seenDataNodes c)
         /\ (forall c2,
                (exists i v, assignDatabase c1 (Databases d) i v = Some c2)
                \/ (exists i v, assignUser c1 (Users d) i v = Some c2)
                \/ (exists i v, assignNode c1 (DataNodes d) i v = Some c2)
                \/ (exists i v, assignNode c1 (MetaNodes d) i v = Some c2) ->
                seenDatabases c2 = seenDatabases c
                /\ seenUsers c2 = seenUsers c
                /\ seenDataNodes c2 = seenDataNodes c)).
Proof.
  intros (Hdb & Hus & Hdn & Hmn).
  split; [|split; [|split]].
  - intros s c1 i v c2. unfold Client_Databases, assignDatabase.
    destruct (array (Databases (cacheData c))) as [p|] eqn:Hp.
    + intros [= <- <-].
      destruct (assign (databaseArrays c) _ i v) as [h'|] eqn:Ha; [|discriminate].
      intros [= <-]. rewrite !seenDatabases_elements. simpl.
      now apply elements_assign.
    + unfold make. intros [= <- <-]. unfold assign. simpl. discriminate.
  - intros s c1 i v c2. unfold Client_Users, assignUser.
    destruct (array (Users (cacheData c))) as [p|] eqn:Hp.
    + intros [= <- <-].
      destruct (assign (userArrays c) _ i v) as [h'|] eqn:Ha; [|discriminate].
      intros [= <-]. rewrite !seenUsers_elements. simpl.
      now apply elements_assign.
    + unfold make. intros [= <- <-]. unfold assign. simpl. discriminate.
  - intros s c1 i v c2. unfold Client_DataNodes, assignNode.
    intros [= <- <-].
    destruct (assign (nodeArrays c) _ i v) as [h'|] eqn:Ha; [|discriminate].
    intros [= <-]. rewrite !seenDataNodes_elements. simpl.
    now apply elements_assign.
  - intros d c1. unfold Client_Data, Data_Clone.
    destruct (cloneSlice (databaseArrays c) (Databases (cacheData c)))
      as [dbs hd] eqn:Ed.
    destruct (cloneSlice (userArrays c) (Users (cacheData c))) as [us hu] eqn:Eu.
    destruct (cloneSlice (nodeArrays c) (DataNodes (cacheData c)))
      as [dns hn] eqn:En.
    destruct (cloneSlice hn (MetaNodes (cacheData c))) as [mns hm] eqn:Em.
    intros [= <- <-]. simpl.
    destruct (cloneSlice_spec _ _ _ _ Hdb Ed) as (Hd1 & _ & Hd3 & _ & Hd5).
    destruct (cloneSlice_spec _ _ _ _ Hus Eu) as (Hu1 & _ & Hu3 & _ & Hu5).
    destruct (cloneSlice_spec _ _ _ _ Hdn En) as (Hn1 & Hn2 & Hn3 & Hn4 & Hn5).
    destruct (cloneSlice_spec _ _ _ _ (Hn4 _ Hmn) Em) as (Hm1 & _ & Hm3 & _ & Hm5).
    pose proof (Hd3 _ Hdb) as Fd. pose proof (Hu3 _ Hus) as Fu.
    assert (Fn : elements hm (DataNodes (cacheData c))
                 = elements (nodeArrays c) (DataNodes (cacheData c)))
      by (rewrite (Hm3 _ (Hn4 _ Hdn)); apply Hn3, Hdn).
    rewrite !seenDatabases_elements, !seenUsers_elements, !seenDataNodes_elements.
    split.
    + split; [exact Hd1|]. split; [exact Hu1|].
      rewrite (Hm3 _ Hn2). exact Hn1.
    + intros c2 [(i & v & Ha)|[(i & v & Ha)|[(i & v & Ha)|(i & v & Ha)]]].
      * unfold assignDatabase in Ha. simpl in Ha.
        destruct (assign hd dbs i v) as [h'|] eqn:Hh; [|discriminate].
        injection Ha as <-.
        rewrite !seenDatabases_elements, !seenUsers_elements,
          !seenDataNodes_elements. simpl.
        assert (Hnn : array dbs <> None)
          by (unfold assign in Hh; destruct (array dbs); congruence).
        rewrite (elements_assign_other _ _ _ _ _ _ Hh) by (apply Hd5; assumption).
        auto.
      * unfold assignUser in Ha. simpl in Ha.
        destruct (assign hu us i v) as [h'|] eqn:Hh; [|discriminate].
        injection Ha as <-.
        rewrite !seenDatabases_elements, !seenUsers_elements,
          !seenDataNodes_elements. simpl.
        assert (Hnn : array us <> None)
          by (unfold assign in Hh; destruct (array us); congruence).
        rewrite (elements_assign_other _ _ _ _ _ _ Hh) by (apply Hu5; assumption).
        auto.
      * unfold assignNode in Ha. simpl in Ha.
        destruct (assign hm dns i v) as [h'|] eqn:Hh; [|discriminate].
        injection Ha as <-.
        rewrite !seenDatabases_elements, !seenUsers_elements,
          !seenDataNodes_elements. simpl.
        assert (Hnn : array dns <> None)
          by (unfold assign in Hh; destruct (array dns); congruence).
        rewrite (elements_assign_other _ _ _ _ _ _ Hh) by (apply Hn5; assumption).
        auto.
      * unfold assignNode in Ha. simpl in Ha.
        destruct (assign hm mns i v) as [h'|] eqn:Hh; [|discriminate].
        injection Ha as <-.
        rewrite !seenDatabases_elements, !seenUsers_elements,
          !seenDataNodes_elements. simpl.
        assert (Hnn : array mns <> None)
          by (unfold assign in Hh; destruct (array mns); congruence).
        rewrite (elements_assign_other _ _ _ _ _ _ Hh)
          by (apply Hm5; [apply Hn4|]; assumption).
        auto.
Qed.

End reads.

(** C4, as stated, fails for [Databases] (and in the same way for [Users]
    and [DataNodes]): the caller renames the database through the slice it
    was handed, and the next read shows the new name. *)
Lemma Databases_alias_counterexample :
  let c := Examples.sliceClient in
  let s := (Slices.Client_Databases c).1 in
  let c1 := (Slices.Client_Databases c).2 in
  exists c2,
    Slices.assignDatabase c1 s 0 Examples.renamed = Some c2
    /\ Slices.seenDatabases c = [Examples.metrics]
    /\ Slices.seenDatabases c2 = [Examples.renamed]
    /\ Slices.seenDatabases c2 <> Slices.seenDatabases c.
Proof.
  eexists. split; [vm_compute; reflexivity|].
  split; [vm_compute; reflexivity|].
  split; [vm_compute; reflexivity|].
  vm_compute. discriminate.
Qed.

Lemma sliceClient_wf : Slices.wf Examples.sliceClient.
Proof.
  repeat split; try exact I;
    (eexists; split; [vm_compute; reflexivity | simpl; lia]).
Qed.

Lemma reads_and_aliasing_witness :
  let c := Examples.sliceClient in
  let s := (Slices.Client_Databases c).1 in
  let d := (Slices.Client_Data c).1 in
  let c1 := (Slices.Client_Data c).2 in
  Slices.wf c
  /\ (forall c2,
         Slices.assignDatabase c s 0 Examples.renamed = Some c2 ->
         Slices.seenDatabases c2 = [Examples.renamed])
  /\ (forall c2,
         Slices.assignDatabase c1 (Slices.Databases d) 0 Examples.renamed = Some c2 ->
         Slices.seenDatabases c2 = [Examples.metrics])
  /\ (forall c2,
         Slices.assignUser c1 (Slices.Users d) 0 Examples.mallory = Some c2 ->
         Slices.seenUsers c2 = [Examples.alice]).
Proof.
  intros c s d c1.
  destruct (reads_and_aliasing c sliceClient_wf) as (Hdbs & _ & _ & Hdata).
  destruct (Hdata d c1 eq_refl) as [_ Hcopy].
  split; [exact sliceClient_wf|]. split; [|split].
  - intros c2 Ha. exact (Hdbs s c 0%nat Examples.renamed c2 eq_refl Ha).
  - intros c2 Ha.
    destruct (Hcopy c2) as (Hd & _ & _); [left; eauto|]. exact Hd.
  - intros c2 Ha.
    destruct (Hcopy c2) as (_ & Hu & _); [right; left; eauto|]. exact Hu.
Defined.

(* ===================================================================== *)
(** * Part III: further properties of the code *)
(* ===================================================================== *)

(** ** Lookups of the metadata client *)

(** A linear search returns the first element that passes the test. *)
Lemma find_first {A : Type} (p : A -> bool) (l : list A) :
  match List.find p l with
  | Some x =>
      exists pre post,
        l = pre ++ x :: post /\ p x = true /\ Forall (fun y => p y = false) pre
  | None => Forall (fun y => p y = false) l
  end.
Proof.
  induction l as [|y l IH]; simpl.
  - constructor.
  - destruct (p y) eqn:Hy.
    + exists [], l. auto.
    + destruct (find p l) as [x|].
      * destruct IH as (pre & post & -> & Hx & Hpre).
        exists (y :: pre), post. auto.
      * constructor; assumption.
Qed.

Section lookups.
Import Meta.
Context {ops : DataOps}.

(** X1.  [user] (and [User], which is [user] under the read lock) returns
    the first user of the cached snapshot whose name is [name], with a nil
    error, or else nil with [ErrUserNotFound], which it does exactly when
    no user has that name.  It never returns a user together with an
    error, and it leaves the client as it is. *)
Theorem user_first_match (name : string) (c : Client) :
  User name c = user name c
  /\ ((exists u pre post,
         user name c = Ok (Some u, None, c)
         /\ Data.Users (heap c !!! cacheData c) = pre ++ u :: post
         /\ UserInfo.Name u = name
         /\ Forall (fun v => UserInfo.Name v <> name) pre)
      \/ (user name c = Ok (None, Some ErrUserNotFound, c)
          /\ Forall (fun v => UserInfo.Name v <> name)
               (Data.Users (heap c !!! cacheData c)))).
Proof.
  split; [reflexivity|].
  unfold user, query, load, get. cbv [mbind mret M_bind M_ret].
  pose proof (find_first (fun u => String.eqb (UserInfo.Name u) name)
                (Data.Users (heap c !!! cacheData c))) as Hfind.
  destruct (find _ _) as [u|].
  - left. destruct Hfind as (pre & post & Hl & Hu & Hpre).
    exists u, pre, post. repeat split; try assumption.
    + now apply String.eqb_eq.
    + eapply Forall_impl; [exact Hpre|]. intros v Hv. now apply String.eqb_neq.
  - right. split; [reflexivity|].
    eapply Forall_impl; [exact Hfind|]. intros v Hv. now apply String.eqb_neq.
Qed.

(** X2.  The node and database lookups: [DataNodeByTCPHost],
    [DataNodeByHTTPHost], [MetaNodeByAddr] and [Database] return the first
    element, in slice order, whose [TCPHost], [Host] or [Name] is the
    argument; the two data-node lookups return [ErrNodeNotFound] when there
    is none, the other two return nil.  None of them changes the client. *)
Theorem node_and_database_lookups (key : string) (c : Client) :
  let d := heap c !!! cacheData c in
  let first {A : Type} (field : A -> string) (l : list A) (r : option A) :=
    match r with
    | Some x =>
        exists pre post,
          l = pre ++ x :: post /\ field x = key
          /\ Forall (fun y => field y <> key) pre
    | None => Forall (fun y => field y <> key) l
    end in
  (exists r,
     DataNodeByTCPHost key c
     = Ok (r, if r is Some _ then None else Some ErrNodeNotFound, c)
     /\ first NodeInfo.TCPHost (Data.DataNodes d) r)
  /\ (exists r,
        DataNodeByHTTPHost key c
        = Ok (r, if r is Some _ then None else Some ErrNodeNotFound, c)
        /\ first NodeInfo.Host (Data.DataNodes d) r)
  /\ (exists r,
        MetaNodeByAddr key c = Ok (r, c)
        /\ first NodeInfo.Host (Data.MetaNodes d) r)
  /\ (exists r,
        Database key c = Ok (r, c)
        /\ first DatabaseInfo.Name (Data.Databases d) r).
Proof.
  intros d first.
  assert (Hfirst : forall (A : Type) (field : A -> string) (l : list A),
             first A field l (List.find (fun x => String.eqb (field x) key) l)).
  { intros A field l. unfold first.
    pose proof (find_first (fun x => String.eqb (field x) key) l) as Hfind.
    destruct (find _ l) as [x|].
    - destruct Hfind as (pre & post & Hl & Hx & Hpre).
      exists pre, post. repeat split; try assumption.
      + now apply String.eqb_eq.
      + eapply Forall_impl; [exact Hpre|]. intros v Hv. now apply String.eqb_neq.
    - eapply Forall_impl; [exact Hfind|]. intros v Hv. now apply String.eqb_neq. }
  unfold DataNodeByTCPHost, DataNodeByHTTPHost, MetaNodeByAddr, Database,
    data, query, load, get.
  cbv [mbind mret M_bind M_ret]. fold d.
  split; [|split; [|split]].
  - exists (List.find (fun n => String.eqb (NodeInfo.TCPHost n) key) (Data.DataNodes d)).
    split; [|apply Hfirst]. destruct (find _ _); reflexivity.
  - exists (List.find (fun n => String.eqb (NodeInfo.Host n) key) (Data.DataNodes d)).
    split; [|apply Hfirst]. destruct (find _ _); reflexivity.
  - eexists. split; [reflexivity|]. apply Hfirst.
  - eexists. split; [reflexivity|]. apply Hfirst.
Qed.

End lookups.

(** ** Copy on write *)

Section copy_on_write.
Import Meta.
Context {ops : DataOps}.

Lemma lookup_not_fresh (h : gmap loc Data.t) (p : loc) (d : Data.t) :
  h !! p = Some d -> fresh (dom h) <> p.
Proof.
  intros Hp Heq. apply (is_fresh (dom h)). rewrite Heq.
  apply elem_of_dom. eauto.
Qed.

Lemma lookup_fresh (h : gmap loc Data.t) : h !! fresh (dom h) = None.
Proof. apply not_elem_of_dom, is_fresh. Qed.

(** [PrecreateShardGroups] writes to its clone only, returns nil, and
    closes the [changed] channel only if it installs the clone. *)
Lemma PrecreateShardGroups_clone
    (from to : Time) (c c' : Client) (r : option error) :
  PrecreateShardGroups from to c = Ok (r, c') ->
  (forall p d, heap c !! p = Some d -> heap c' !! p = Some d)
  /\ r = None
  /\ authCache c' = authCache c
  /\ ((cacheData c' = cacheData c /\ changed c' = changed c)
      \/ (heap c !! cacheData c' = None /\ changed c' = S (changed c))).
Proof.
  unfold PrecreateShardGroups.
  assert (Hclone : Data_Clone (cacheData c) c
                   = Ok (fresh (dom (heap c)),
                         withObject (fresh (dom (heap c)))
                           (heap c !!! cacheData c) c))
    by reflexivity.
  cbv [mbind M_bind get]. rewrite Hclone, query_withObject, precreate_outer.
  destruct (precreateAll _ _ _ _ _) as [[d' created]|]; [|discriminate].
  destruct c as [h p n a pa r0].
  destruct created; unfold_client; unfold withObject; simpl;
    intros [= <- <-]; simpl; (split; [|split; [|split]]); try reflexivity.
  - intros p0 d0 Hp0.
    rewrite !lookup_insert_ne by (eapply lookup_not_fresh; eauto). exact Hp0.
  - right. split; [apply lookup_fresh | reflexivity].
  - intros p0 d0 Hp0.
    rewrite !lookup_insert_ne by (eapply lookup_not_fresh; eauto). exact Hp0.
  - left. split; reflexivity.
Qed.

(** X3.  Every mutation other than [CreateDataNode] and [SetData] works on
    a clone: whatever it returns, every object that existed before the call
    (the cached snapshot, and any snapshot a caller still holds a pointer
    to) has the contents it had.  The cached pointer afterwards is the old
    one, or a newly allocated object, or (for [ReplaceData]) the pointer
    that was passed in. *)
Theorem mutation_copy_on_write
    (m : mutation) (c c' : Client) (r : option error) :
  writesCache m = false ->
  run m c = Ok (r, c') ->
  (forall p d, heap c !! p = Some d -> heap c' !! p = Some d)
  /\ (cacheData c' = cacheData c
      \/ heap c !! cacheData c' = None
      \/ m = mReplaceData (cacheData c')).
Proof.
  intros Hm Hrun.
  assert (Hkeep : forall (h : gmap loc Data.t) p d,
             h !! p = Some d -> fresh (dom h) <> p) by apply lookup_not_fresh.
  destruct m; try discriminate Hm; clear Hm.
  all: try match type of Hrun with
           | run (mPrecreateShardGroups _ _) _ = _ =>
               apply PrecreateShardGroups_clone in Hrun; tauto
           end.
  all: destruct c as [h0 cp0 n0 a0 pa0 r0]; unfold_client.
  all: repeat case_match; simplify_eq; simpl.
  all: split;
    [ intros p0 d0 Hp0; rewrite ?lookup_insert_ne by eauto; exact Hp0
    | first [ left; reflexivity
            | right; left; apply lookup_fresh
            | right; right; reflexivity ] ].
Qed.

(** X4.  A mutation closes the [changed] channel at most once; when it
    does not close it, the cached pointer is the one it was, and when it
    closes it, it returns nil.  So a waiter on the channel is woken for
    every change of the cached pointer, and not by a call that returned an
    error.  The code has one exception to the last point: [CreateUser]
    looks the new user up after the commit, and returns [ErrUserNotFound]
    should the committed snapshot not hold it. *)
Theorem mutation_signals_change
    (m : mutation) (c c' : Client) (r : option error) :
  run m c = Ok (r, c') ->
  (changed c' = changed c /\ cacheData c' = cacheData c)
  \/ (changed c' = S (changed c)
      /\ (r = None
          \/ (r = Some ErrUserNotFound
              /\ exists name hashedPassword admin,
                   m = mCreateUser name hashedPassword admin))).
Proof.
  intros Hrun. destruct m.
  all: try match type of Hrun with
           | run (mPrecreateShardGroups _ _) _ = _ =>
               apply PrecreateShardGroups_clone in Hrun;
               destruct Hrun as (_ & -> & _ & [[? ?]|[? ?]]); auto
           end.
  all: destruct c as [h0 cp0 n0 a0 pa0 r0]; unfold_client.
  all: repeat case_match; simplify_eq; simpl; auto.
  all: right; split; [reflexivity|]; right; split; [reflexivity|]; eauto.
Qed.

(** X5.  What [CreateDataNode] does to the cache.  It calls the snapshot's
    [CreateDataNode] on the cached object itself, so whatever the outcome
    the cached pointer is the one it was and the cached object is as that
    method left it.  When the call returns nil it has also counted [Index]
    up by one ([uint64]) and closed the [changed] channel, and the node it
    returns is the first one of the cached snapshot whose [TCPHost] is
    [tcpAddr].  When it returns an error, the channel is not closed. *)
Theorem CreateDataNode_in_place
    (httpAddr tcpAddr : string) (c c' : Client)
    (r : option NodeInfo.t * option error) :
  CreateDataNode httpAddr tcpAddr c = Ok (r, c') ->
  let d1 := (Data_CreateDataNode (heap c !!! cacheData c) httpAddr tcpAddr).1 in
  cacheData c' = cacheData c
  /\ authCache c' = authCache c
  /\ match r with
     | (Some n, None) =>
         heap c' = <[cacheData c := Data.set_Index (addU64 (Data.Index d1) 1) d1]> (heap c)
         /\ changed c' = S (changed c)
         /\ exists pre post,
              Data.DataNodes d1 = pre ++ n :: post
              /\ NodeInfo.TCPHost n = tcpAddr
              /\ Forall (fun n' => NodeInfo.TCPHost n' <> tcpAddr) pre
     | (None, Some _) =>
         heap c' = <[cacheData c := d1]> (heap c)
         /\ changed c' = changed c
     | _ => False
     end.
Proof.
  destruct c as [h0 cp0 n0 a0 pa0 r0]. unfold_client. simpl.
  destruct (Data_CreateDataNode (h0 !!! cp0) httpAddr tcpAddr) as [d1 [err|]];
    simpl.
  - intros [= <- <-]. simpl. auto.
  - rewrite lookup_total_insert_eq.
    pose proof (find_first (fun n => String.eqb (NodeInfo.TCPHost n) tcpAddr)
                  (Data.DataNodes d1)) as Hfind.
    destruct (find _ (Data.DataNodes d1)) as [n|]; simpl.
    + rewrite !lookup_total_insert_eq. intros [= <- <-]. simpl.
      split; [reflexivity|]. split; [reflexivity|].
      split; [now rewrite insert_insert_eq|]. split; [reflexivity|].
      destruct Hfind as (pre & post & Hl & Hn & Hpre).
      exists pre, post. repeat split; try assumption.
      * now apply String.eqb_eq.
      * eapply Forall_impl; [exact Hpre|]. intros v Hv. now apply String.eqb_neq.
    + intros [= <- <-]. simpl. auto.
Qed.

(** X6.  [UpdateUser] and [DropUser] and the auth cache.  When the call
    returns nil, the entry of [name] is gone from the auth cache and every
    other entry is as it was; when it returns an error (the snapshot's
    method refused), the auth cache is untouched, the [delete] not having
    been deferred yet. *)
Theorem user_change_clears_authCache
    (name hashedPassword : string) (c c' : Client) (r : option error) :
  UpdateUser name hashedPassword c = Ok (r, c')
  \/ DropUser name c = Ok (r, c') ->
  authCache c' = if r is None then delete name (authCache c) else authCache c.
Proof.
  destruct c as [h0 cp0 n0 a0 pa0 r0]. unfold_client.
  intros [Hrun|Hrun]; revert Hrun.
  - destruct (Data_UpdateUser _ _ _) as [d' [err|]]; intros [= <- <-]; reflexivity.
  - destruct (Data_DropUser _ _) as [d' [err|]]; intros [= <- <-]; reflexivity.
Qed.

End copy_on_write.

Lemma mutation_copy_on_write_witness :
  let c := Examples.clientWithAlice in
  let m := Meta.mDropUser "alice" in
  let c' := Examples.stateAfter (Meta.run m) c in
  Meta.run m c = Meta.Ok (None, c')
  /\ Meta.UserCount c = Meta.Ok (1, c)
  /\ Meta.UserCount c' = Meta.Ok (0, c')
  /\ Meta.cacheData c' <> Meta.cacheData c
  /\ Meta.heap c' !! Meta.cacheData c = Meta.heap c !! Meta.cacheData c.
Proof.
  intros c m c'.
  assert (Hrun : Meta.run m c = Meta.Ok (None, c')) by (vm_compute; reflexivity).
  assert (Hwf : Meta.wf c) by (vm_compute; eexists; reflexivity).
  destruct (mutation_copy_on_write (ops := refDataOps) m c c' None eq_refl Hrun)
    as [Hkeep _].
  split; [exact Hrun|]. split; [vm_compute; reflexivity|].
  split; [vm_compute; reflexivity|]. split; [vm_compute; discriminate|].
  destruct Hwf as [d Hd]. rewrite Hd. apply Hkeep. exact Hd.
Defined.

Lemma mutation_signals_change_witness :
  let c := Examples.clientWithAlice in
  let c1 := Examples.stateAfter (Meta.run (Meta.mDropUser "bob")) c in
  let c2 := Examples.stateAfter (Meta.run (Meta.mDropUser "alice")) c in
  (Meta.run (Meta.mDropUser "bob") c = Meta.Ok (Some ErrUserNotFound, c1)
   /\ Meta.changed c1 = Meta.changed c /\ Meta.cacheData c1 = Meta.cacheData c)
  /\ (Meta.run (Meta.mDropUser "alice") c = Meta.Ok (None, c2)
      /\ Meta.changed c2 = S (Meta.changed c)).
Proof.
  intros c c1 c2.
  assert (H1 : Meta.run (Meta.mDropUser "bob") c = Meta.Ok (Some ErrUserNotFound, c1))
    by (vm_compute; reflexivity).
  assert (H2 : Meta.run (Meta.mDropUser "alice") c = Meta.Ok (None, c2))
    by (vm_compute; reflexivity).
  split.
  - split; [exact H1|].
    destruct (mutation_signals_change (ops := refDataOps) _ _ _ _ H1)
      as [Hsame|[Hch _]]; [exact Hsame|].
    vm_compute in Hch. discriminate Hch.
  - split; [exact H2|].
    destruct (mutation_signals_change (ops := refDataOps) _ _ _ _ H2)
      as [[Hsame _]|[Hch _]]; [|exact Hch].
    vm_compute in Hsame. discriminate Hsame.
Defined.

Lemma CreateDataNode_in_place_witness :
  let c := Examples.clientWithAlice in
  let c1 := Examples.stateAfter (Meta.CreateDataNode "h7:8086" "h7:8088") c in
  let c2 := Examples.stateAfter (Meta.CreateDataNode "h9:8086" "h7:8088") c1 in
  (Meta.CreateDataNode "h7:8086" "h7:8088" c
   = Meta.Ok (Some (Meta.NodeInfo.mk 1 "h7:8086" "h7:8088" false), None, c1)
   /\ Meta.cacheData c1 = Meta.cacheData c
   /\ Meta.changed c1 = S (Meta.changed c))
  /\ (Meta.CreateDataNode "h9:8086" "h7:8088" c1
      = Meta.Ok (None, Some (Errorf "node already exists"), c2)
      /\ Meta.cacheData c2 = Meta.cacheData c1
      /\ Meta.changed c2 = Meta.changed c1).
Proof.
  intros c c1 c2.
  assert (H1 : Meta.CreateDataNode "h7:8086" "h7:8088" c
               = Meta.Ok (Some (Meta.NodeInfo.mk 1 "h7:8086" "h7:8088" false), None, c1))
    by (vm_compute; reflexivity).
  assert (H2 : Meta.CreateDataNode "h9:8086" "h7:8088" c1
               = Meta.Ok (None, Some (Errorf "node already exists"), c2))
    by (vm_compute; reflexivity).
  destruct (CreateDataNode_in_place (ops := refDataOps) _ _ _ _ _ H1)
    as (Hp1 & _ & _ & Hch1 & _).
  destruct (CreateDataNode_in_place (ops := refDataOps) _ _ _ _ _ H2)
    as (Hp2 & _ & _ & Hch2).
  auto 10.
Defined.

Lemma user_change_clears_authCache_witness :
  let c := Examples.clientAuthenticated in
  let c1 := Examples.stateAfter (Meta.UpdateUser "alice" "$2a$changed") c in
  let c2 := Examples.stateAfter (Meta.DropUser "bob") c in
  (Meta.UpdateUser "alice" "$2a$changed" c = Meta.Ok (None, c1)
   /\ is_Some (Meta.authCache c !! "alice"%string)
   /\ Meta.authCache c1 !! "alice"%string = None)
  /\ (Meta.DropUser "bob" c = Meta.Ok (Some ErrUserNotFound, c2)
      /\ Meta.authCache c2 = Meta.authCache c).
Proof.
  intros c c1 c2.
  assert (H1 : Meta.UpdateUser "alice" "$2a$changed" c = Meta.Ok (None, c1))
    by (vm_compute; reflexivity).
  assert (H2 : Meta.DropUser "bob" c = Meta.Ok (Some ErrUserNotFound, c2))
    by (vm_compute; reflexivity).
  pose proof (user_change_clears_authCache (ops := refDataOps)
                "alice" "$2a$changed" c c1 None (or_introl H1)) as E1.
  pose proof (user_change_clears_authCache (ops := refDataOps)
                "bob" "" c c2 (Some ErrUserNotFound) (or_intror H2)) as E2.
  split.
  - split; [exact H1|]. split; [vm_compute; eexists; reflexivity|].
    rewrite E1. apply lookup_delete_eq.
  - split; [exact H2 | exact E2].
Defined.

(** ** Authentication *)

Section authentication_facts.
Import Meta.
Context {ops : DataOps} {crypto : Crypto}.

(** X7.  A successful [Authenticate] is remembered.  The call touches
    nothing but the auth cache, and of that only the entry of [username];
    afterwards the entry holds a salt and the salted digest of [password],
    so the same credentials are accepted again from the cache, whatever the
    random source answers, for as long as the user exists and the entry
    stays. *)
Theorem Authenticate_remembers
    (username password : string) (rnd rnd' : list byte + error)
    (c c' : Client) (u : UserInfo.t) :
  Authenticate username password rnd c = Ok (Some u, None, c') ->
  heap c' = heap c /\ cacheData c' = cacheData c /\ changed c' = changed c
  /\ (exists au,
        authCache c' !! username = Some au
        /\ hashWithSalt (salt au) password = hash au)
  /\ (forall other, other <> username ->
        authCache c' !! other = authCache c !! other)
  /\ Authenticate username password rnd' c' = Ok (Some u, None, c').
Proof.
  destruct c as [h0 cp0 n0 a0 pa0 r0]. unfold_client. simpl.
  destruct (find _ (Data.Users (h0 !!! cp0))) as [u'|] eqn:Hfind; [|discriminate].
  assert (Hslow : forall s,
    let c1 := mkClient h0 cp0 n0
                (<[username := mkAuthUser (UserInfo.Hash u') s
                                 (sha256_Sum (s ++ list_byte_of_string password))]> a0)
                pa0 r0 in
    @Ok (option UserInfo.t * option error * Client) (Some u', None, c1)
    = Ok (Some u, None, c') ->
    heap c' = h0 /\ cacheData c' = cp0 /\ changed c' = n0
    /\ (exists au,
          authCache c' !! username = Some au
          /\ sha256_Sum (salt au ++ list_byte_of_string password) = hash au)
    /\ (forall other, other <> username -> authCache c' !! other = a0 !! other)
    /\ Authenticate username password rnd' c' = Ok (Some u, None, c')).
  { intros s c1 [= <- <-]. subst c1. unfold_client. simpl.
    rewrite Hfind, lookup_insert_eq. simpl.
    rewrite bool_decide_eq_true_2 by reflexivity.
    repeat split; try reflexivity.
    - eexists. split; reflexivity.
    - intros other Hother. now rewrite lookup_insert_ne. }
  unfold_client.
  destruct (a0 !! username) as [au|] eqn:Hau.
  - destruct (bool_decide _) eqn:Hhit.
    + intros [= <- <-]. simpl. rewrite Hfind, Hau, Hhit.
      apply bool_decide_eq_true_1 in Hhit. eauto 10.
    + destruct (bcrypt_CompareHashAndPassword _ _); [|discriminate].
      destruct rnd as [s|e]; [|discriminate]. simpl. apply Hslow.
  - destruct (bcrypt_CompareHashAndPassword _ _); [|discriminate].
    destruct rnd as [s|e]; [|discriminate]. simpl. apply Hslow.
Qed.

(** X8.  A failed [Authenticate] changes nothing, caches nothing and
    returns no user.  Its error is [ErrUserNotFound] when no user of the
    cached snapshot has the name (whatever the auth cache holds),
    [ErrAuthenticate] when the cache does not vouch for the password and
    bcrypt rejects it, and otherwise the error of the random source that
    was to provide the salt. *)
Theorem Authenticate_failure
    (username password : string) (rnd : list byte + error)
    (c c' : Client) (r : option UserInfo.t) (e : error) :
  Authenticate username password rnd c = Ok (r, Some e, c') ->
  r = None /\ c' = c
  /\ ((e = ErrUserNotFound
       /\ Forall (fun v => UserInfo.Name v <> username)
            (Data.Users (heap c !!! cacheData c)))
      \/ (exists u,
            user username c = Ok (Some u, None, c)
            /\ ((e = ErrAuthenticate
                 /\ bcrypt_CompareHashAndPassword
                      (list_byte_of_string (UserInfo.Hash u))
                      (list_byte_of_string password) = false)
                \/ rnd = inr e))).
Proof.
  destruct c as [h0 cp0 n0 a0 pa0 r0]. unfold_client. simpl.
  pose proof (find_first (fun v => String.eqb (UserInfo.Name v) username)
                (Data.Users (h0 !!! cp0))) as Hfind.
  destruct (find _ (Data.Users (h0 !!! cp0))) as [u|].
  - destruct (match a0 !! username with Some au => _ | None => false end);
      [discriminate|].
    destruct (bcrypt_CompareHashAndPassword _ _) eqn:Hb; simpl.
    + destruct rnd as [s|e']; simpl; [discriminate|].
      intros [= <- <- <-]. eauto 10.
    + intros [= <- <- <-]. eauto 10.
  - intros [= <- <- <-]. split; [reflexivity|]. split; [reflexivity|]. left.
    split; [reflexivity|].
    eapply Forall_impl; [exact Hfind|]. intros v Hv. now apply String.eqb_neq.
Qed.

End authentication_facts.

Lemma Authenticate_remembers_witness :
  let c := Examples.clientWithAlice in
  let c' := Examples.clientAuthenticated in
  let alice := Meta.UserInfo.mk "alice" "$2a$secret" false ∅ in
  Meta.authCache c = ∅
  /\ Meta.Authenticate "alice" "secret" (inl Examples.salt32) c
     = Meta.Ok (Some alice, None, c')
  /\ Meta.Authenticate "alice" "secret" (inr EOF) c' = Meta.Ok (Some alice, None, c').
Proof.
  intros c c' alice.
  assert (Hrun : Meta.Authenticate "alice" "secret" (inl Examples.salt32) c
                 = Meta.Ok (Some alice, None, c'))
    by (vm_compute; reflexivity).
  split; [vm_compute; reflexivity|]. split; [exact Hrun|].
  apply (Authenticate_remembers (crypto := refCrypto) _ _ _ (inr EOF) _ _ _ Hrun).
Defined.

Lemma Authenticate_failure_witness :
  let c := Examples.clientWithAlice in
  (Meta.Authenticate "alice" "guess" (inl Examples.salt32) c
   = Meta.Ok (None, Some ErrAuthenticate, c))
  /\ (Meta.Authenticate "bob" "secret" (inl Examples.salt32) c
      = Meta.Ok (None, Some ErrUserNotFound, c))
  /\ (exists r c',
        Meta.Authenticate "alice" "secret" (inr EOF) c = Meta.Ok (r, Some EOF, c')
        /\ r = None /\ c' = c).
Proof.
  intros c.
  split; [vm_compute; reflexivity|]. split; [vm_compute; reflexivity|].
  assert (Hrun : Meta.Authenticate "alice" "secret" (inr EOF) c
                 = Meta.Ok (None, Some EOF, Examples.stateAfter
                              (Meta.Authenticate "alice" "secret" (inr EOF)) c))
    by (vm_compute; reflexivity).
  do 2 eexists. split; [exact Hrun|].
  destruct (Authenticate_failure (crypto := refCrypto) _ _ _ _ _ _ _ Hrun)
    as (Hr & Hc & _).
  split; [reflexivity | exact Hc].
Defined.

(** ** Databases and retention policies *)

Section databases.
Import Meta.
Context {ops : DataOps}.

(** X9.  [CreateDatabase] on the value of the cached snapshot.  If the
    snapshot has the database, it is returned and nothing is committed.
    Otherwise the snapshot's [CreateDatabase] is run on a clone, then, only
    if the client was made with [retentionAutoCreate], its
    [CreateRetentionPolicy] for the default policy, made the default; an
    error of either is returned with nothing committed.  If both succeed
    the clone is committed (with [Index] one up, and the [changed] channel
    closed) and what it holds under [name] is returned. *)
Theorem CreateDatabase_spec (name : string) (c : Client) :
  wf c ->
  let d := heap c !!! cacheData c in
  let unchanged (c' : Client) :=
    cacheData c' = cacheData c /\ changed c' = changed c
    /\ heap c' !! cacheData c = heap c !! cacheData c in
  let committed (d' : Data.t) (c' : Client) :=
    changed c' = S (changed c)
    /\ heap c' !! cacheData c' = Some (Data.set_Index (addU64 (Data.Index d') 1) d')
    /\ heap c' !! cacheData c = heap c !! cacheData c in
  exists r c',
    CreateDatabase name c = Ok (r, c')
    /\ match Data_Database d name with
       | Some db => r = (Some db, None) /\ unchanged c'
       | None =>
           match Data_CreateDatabase d name with
           | (_, Some err) => r = (None, Some err) /\ unchanged c'
           | (d1, None) =>
               if retentionAutoCreate c then
                 match Data_CreateRetentionPolicy d1 name
                         DefaultRetentionPolicyInfo true with
                 | (_, Some err) => r = (None, Some err) /\ unchanged c'
                 | (d2, None) => r = (Data_Database d2 name, None) /\ committed d2 c'
                 end
               else r = (Data_Database d1 name, None) /\ committed d1 c'
           end
       end.
Proof.
  intros Hwf d unchanged committed. subst d unchanged committed.
  pose proof (fresh_cacheData c Hwf) as Hfresh.
  destruct c as [h0 cp0 n0 a0 pa0 r0]. simpl in Hfresh.
  unfold CreateDatabase. unfold_client. simpl.
  rewrite !lookup_total_insert_eq.
  destruct (Data_Database (h0 !!! cp0) name) as [db|].
  { do 2 eexists. split; [reflexivity|]. simpl.
    rewrite lookup_insert_ne by exact Hfresh. auto. }
  simpl. rewrite ?lookup_total_insert_eq.
  destruct (Data_CreateDatabase (h0 !!! cp0) name) as [d1 [err|]]; simpl.
  { do 2 eexists. split; [reflexivity|]. simpl.
    rewrite !lookup_insert_ne by exact Hfresh. auto. }
  destruct r0; simpl; rewrite ?lookup_total_insert_eq.
  - destruct (Data_CreateRetentionPolicy d1 name DefaultRetentionPolicyInfo true)
      as [d2 [err|]]; simpl.
    + do 2 eexists. split; [reflexivity|]. simpl.
      rewrite !lookup_insert_ne by exact Hfresh. auto.
    + rewrite !lookup_total_insert_eq.
      do 2 eexists. split; [reflexivity|]. simpl.
      rewrite lookup_insert_eq, !lookup_insert_ne by exact Hfresh. auto.
  - do 2 eexists. split; [reflexivity|]. simpl.
    rewrite lookup_insert_eq, !lookup_insert_ne by exact Hfresh. auto.
Qed.

(** X10.  The checks on the retention-policy spec.  A spec's duration is
    too low exactly when it is given, is below [MinRetentionPolicyDuration]
    and is not zero (so zero passes, and a negative duration does not).
    [CreateDatabaseWithRetentionPolicy] and [CreateRetentionPolicy] return
    [ErrRetentionPolicyDurationTooLow] for such a spec and commit nothing.
    For a nil spec, [CreateDatabaseWithRetentionPolicy] returns an error
    without touching the client, whereas [CreateRetentionPolicy]
    dereferences it. *)
Theorem retention_policy_spec_checks
    (name : string) (makeDefault : bool) (c : Client) :
  wf c ->
  CreateDatabaseWithRetentionPolicy name None c
  = Ok (None,
        Some (Errorf "CreateDatabaseWithRetentionPolicy called with nil spec"), c)
  /\ CreateRetentionPolicy name None makeDefault c = Panic
  /\ forall spec,
       (durationTooLow spec = true <->
        exists dur,
          RetentionPolicySpec.Duration spec = Some dur
          /\ dur < MinRetentionPolicyDuration /\ dur <> 0)
       /\ (durationTooLow spec = true ->
           exists c',
             CreateDatabaseWithRetentionPolicy name (Some spec) c
             = Ok (None, Some ErrRetentionPolicyDurationTooLow, c')
             /\ CreateRetentionPolicy name (Some spec) makeDefault c
                = Ok (None, Some ErrRetentionPolicyDurationTooLow, c')
             /\ cacheData c' = cacheData c
             /\ changed c' = changed c
             /\ heap c' !! cacheData c = heap c !! cacheData c).
Proof.
  intros Hwf. pose proof (fresh_cacheData c Hwf) as Hfresh.
  split; [reflexivity|]. split; [reflexivity|].
  intros spec. split.
  - unfold durationTooLow.
    destruct (RetentionPolicySpec.Duration spec) as [dur|].
    + rewrite andb_true_iff, negb_true_iff, Z.ltb_lt, Z.eqb_neq.
      split.
      * intros [Hlt Hne]. exists dur. auto.
      * intros (dur' & [= <-] & Hlt & Hne). auto.
    + split; [discriminate|]. intros (dur & Hdur & _). discriminate.
  - intros Hlow.
    destruct c as [h0 cp0 n0 a0 pa0 r0]. simpl in Hfresh.
    unfold CreateDatabaseWithRetentionPolicy, CreateRetentionPolicy.
    unfold_client. rewrite Hlow.
    eexists. split; [reflexivity|]. split; [reflexivity|]. simpl.
    rewrite lookup_insert_ne by exact Hfresh. auto.
Qed.

End databases.

Lemma CreateDatabase_spec_witness :
  let c := Meta.NewClient "/var/lib/meta" true in
  let c1 := Examples.stateAfter (Meta.CreateDatabase "db0") c in
  let c2 := Examples.stateAfter (Meta.CreateDatabase "db0") c1 in
  let db0 :=
    Meta.DatabaseInfo.mk "db0" "autogen" [RefData.DefaultRetentionPolicyInfo] [] in
  Meta.wf c /\ Meta.wf c1
  /\ (Meta.CreateDatabase "db0" c = Meta.Ok (Some db0, None, c1)
      /\ Meta.changed c1 = S (Meta.changed c))
  /\ (Meta.CreateDatabase "db0" c1 = Meta.Ok (Some db0, None, c2)
      /\ Meta.cacheData c2 = Meta.cacheData c1
      /\ Meta.changed c2 = Meta.changed c1).
Proof.
  intros c c1 c2 db0.
  assert (Hwf : Meta.wf c) by (vm_compute; eexists; reflexivity).
  assert (Hwf1 : Meta.wf c1) by (vm_compute; eexists; reflexivity).
  split; [exact Hwf|]. split; [exact Hwf1|].
  destruct (CreateDatabase_spec (ops := refDataOps) "db0" c Hwf)
    as (r & c' & Hrun & Hcase).
  destruct (CreateDatabase_spec (ops := refDataOps) "db0" c1 Hwf1)
    as (r1 & c1' & Hrun1 & Hcase1).
  assert (E : Meta.CreateDatabase "db0" c = Meta.Ok (Some db0, None, c1))
    by (vm_compute; reflexivity).
  assert (E1 : Meta.CreateDatabase "db0" c1 = Meta.Ok (Some db0, None, c2))
    by (vm_compute; reflexivity).
  rewrite E in Hrun. rewrite E1 in Hrun1.
  injection Hrun as <- <-. injection Hrun1 as <- <-.
  vm_compute in Hcase. vm_compute in Hcase1.
  split; [split; [exact E | vm_compute; tauto]|].
  split; [exact E1 | vm_compute; tauto].
Defined.

Lemma retention_policy_spec_checks_witness :
  let c := Meta.NewClient "/var/lib/meta" true in
  let brief := Meta.RetentionPolicySpec.mk "brief" (Some 1) (Some Minute) Hour in
  Meta.wf c
  /\ Meta.durationTooLow brief = true
  /\ (exists c',
        Meta.CreateDatabaseWithRetentionPolicy "db0" (Some brief) c
        = Meta.Ok (None, Some ErrRetentionPolicyDurationTooLow, c')
        /\ Meta.cacheData c' = Meta.cacheData c
        /\ Meta.changed c' = Meta.changed c)
  /\ Meta.CreateDatabaseWithRetentionPolicy "db0" None c
     = Meta.Ok (None,
          Some (Errorf "CreateDatabaseWithRetentionPolicy called with nil spec"), c).
Proof.
  intros c brief.
  assert (Hwf : Meta.wf c) by (vm_compute; eexists; reflexivity).
  assert (Hlow : Meta.durationTooLow brief = true) by (vm_compute; reflexivity).
  destruct (retention_policy_spec_checks (ops := refDataOps) "db0" false c Hwf)
    as (Hnil & _ & Hspec).
  destruct (Hspec brief) as [_ Hreject].
  destruct (Hreject Hlow) as (c' & Hrun & _ & Hp & Hch & _).
  split; [exact Hwf|]. split; [exact Hlow|].
  split; [exists c'; auto | exact Hnil].
Defined.

(** ** Shard groups *)

Lemma filter_length_forallb {A : Type} (f : A -> bool) (l : list A) :
  Nat.eqb (length (List.filter f l)) (length l) = forallb f l.
Proof.
  induction l as [|x l IH]; simpl; [reflexivity|].
  destruct (f x); simpl; [exact IH|].
  pose proof (List.filter_length_le f l) as Hle.
  apply Nat.eqb_neq. lia.
Qed.

Lemma filter_forallb_id {A : Type} (f : A -> bool) (l : list A) :
  forallb f l = true -> List.filter f l = l.
Proof.
  induction l as [|x l IH]; simpl; [reflexivity|].
  destruct (f x); simpl; [|discriminate]. intros Hl. now rewrite IH.
Qed.

Section pruning.
Import Meta.
Context {ops : DataOps}.

(** The test of the loop of [PruneShardGroups], on the times as numbers. *)
Lemma remainingShardGroups_filter (expiration : Time) (gs : list ShardGroupInfo.t) :
  remainingShardGroups expiration gs
  = List.filter (fun g => (ShardGroupInfo.DeletedAt g =? 0)
                          || (expiration <=? ShardGroupInfo.DeletedAt g)) gs.
Proof.
  unfold remainingShardGroups. apply List.filter_ext. intros g.
  unfold IsZero, After. f_equal.
  destruct (Z.ltb_spec (ShardGroupInfo.DeletedAt g) expiration),
           (Z.leb_spec expiration (ShardGroupInfo.DeletedAt g)); simpl; lia.
Qed.

Lemma pruneChanged_forallb (expiration : Time) (d : Data.t) :
  pruneChanged expiration (Data.Databases d)
  = negb (forallb (fun g => (ShardGroupInfo.DeletedAt g =? 0)
                            || (expiration <=? ShardGroupInfo.DeletedAt g))
            (shardGroupsOf d)).
Proof.
  unfold pruneChanged, shardGroupsOf.
  induction (Data.Databases d) as [|di dbs IH]; simpl; [reflexivity|].
  rewrite forallb_app, negb_andb, IH. f_equal. clear IH.
  induction (DatabaseInfo.RetentionPolicies di) as [|rp rps IH]; simpl;
    [reflexivity|].
  rewrite forallb_app, negb_andb, IH. f_equal.
  rewrite remainingShardGroups_filter, filter_length_forallb. reflexivity.
Qed.

Lemma shardGroupsOf_prune (expiration : Time) (d : Data.t) :
  shardGroupsOf
    (Data.set_Databases (List.map (pruneDatabase expiration) (Data.Databases d)) d)
  = List.filter (fun g => (ShardGroupInfo.DeletedAt g =? 0)
                          || (expiration <=? ShardGroupInfo.DeletedAt g))
      (shardGroupsOf d).
Proof.
  unfold shardGroupsOf. simpl.
  induction (Data.Databases d) as [|di dbs IH]; simpl; [reflexivity|].
  rewrite List.filter_app, IH. f_equal. clear IH.
  induction (DatabaseInfo.RetentionPolicies di) as [|rp rps IH]; simpl;
    [reflexivity|].
  rewrite List.filter_app, IH, remainingShardGroups_filter. reflexivity.
Qed.

(** What [PruneShardGroups] does, on the value of the cached snapshot. *)
Lemma PruneShardGroups_value (expiration : Time) (c : Client) :
  wf c ->
  let d := heap c !!! cacheData c in
  exists c',
    PruneShardGroups expiration c = Ok (None, c')
    /\ heap c' !! cacheData c = heap c !! cacheData c
    /\ if pruneChanged expiration (Data.Databases d)
       then changed c' = S (changed c)
            /\ heap c' !! cacheData c'
               = Some (Data.set_Index (addU64 (Data.Index d) 1)
                         (Data.set_Databases
                            (List.map (pruneDatabase expiration) (Data.Databases d)) d))
       else cacheData c' = cacheData c /\ changed c' = changed c.
Proof.
  intros Hwf d. subst d.
  pose proof (fresh_cacheData c Hwf) as Hfresh.
  destruct c as [h0 cp0 n0 a0 pa0 r0]. simpl in Hfresh.
  unfold PruneShardGroups. unfold_client. simpl.
  rewrite !lookup_total_insert_eq.
  destruct (pruneChanged expiration (Data.Databases (h0 !!! cp0))); simpl.
  - rewrite !lookup_total_insert_eq.
    eexists. split; [reflexivity|]. simpl.
    rewrite lookup_insert_eq, !lookup_insert_ne by exact Hfresh. auto.
  - eexists. split; [reflexivity|]. simpl.
    rewrite !lookup_insert_ne by exact Hfresh. auto.
Qed.

(** X11.  [PruneShardGroups(expiration)] always returns nil.  A group
    stays if its [DeletedAt] is the zero time or is not before
    [expiration].  If every shard group of the cached snapshot stays,
    nothing is committed.  Otherwise a snapshot is committed whose groups
    are those that stay, in their order, with [Index] one up ([uint64]);
    the object that was cached is left as it was. *)
Theorem PruneShardGroups_spec (expiration : Time) (c : Client) :
  wf c ->
  let d := heap c !!! cacheData c in
  let stays (g : ShardGroupInfo.t) :=
    (ShardGroupInfo.DeletedAt g =? 0) || (expiration <=? ShardGroupInfo.DeletedAt g) in
  exists c',
    PruneShardGroups expiration c = Ok (None, c')
    /\ heap c' !! cacheData c = heap c !! cacheData c
    /\ if forallb stays (shardGroupsOf d)
       then cacheData c' = cacheData c /\ changed c' = changed c
       else changed c' = S (changed c)
            /\ exists d',
                 heap c' !! cacheData c' = Some d'
                 /\ shardGroupsOf d' = List.filter stays (shardGroupsOf d)
                 /\ Data.Index d' = addU64 (Data.Index d) 1
                 /\ Data.Users d' = Data.Users d
                 /\ Data.DataNodes d' = Data.DataNodes d
                 /\ List.map DatabaseInfo.Name (Data.Databases d')
                    = List.map DatabaseInfo.Name (Data.Databases d).
Proof.
  intros Hwf d stays.
  destruct (PruneShardGroups_value expiration c Hwf) as (c' & Hrun & Hold & Hcase).
  exists c'. split; [exact Hrun|]. split; [exact Hold|].
  fold d in Hcase. rewrite pruneChanged_forallb in Hcase. fold stays in Hcase.
  destruct (forallb stays (shardGroupsOf d)); simpl in Hcase; [exact Hcase|].
  destruct Hcase as [Hch Hobj]. split; [exact Hch|].
  eexists. split; [exact Hobj|].
  split; [apply (shardGroupsOf_prune expiration d)|].
  repeat split. simpl. rewrite List.map_map. reflexivity.
Qed.

(** X12.  Pruning again commits nothing: after [PruneShardGroups(e)], a
    call [PruneShardGroups(e')] with [e' <= e] finds every group staying,
    so it leaves the cached pointer and the [changed] channel alone. *)
Theorem PruneShardGroups_again (e e' : Time) (c c' : Client) :
  wf c ->
  e' <= e ->
  PruneShardGroups e c = Ok (None, c') ->
  exists c'',
    PruneShardGroups e' c' = Ok (None, c'')
    /\ cacheData c'' = cacheData c'
    /\ changed c'' = changed c'
    /\ heap c'' !! cacheData c' = heap c' !! cacheData c'.
Proof.
  intros Hwf Hle Hrun.
  destruct (PruneShardGroups_value e c Hwf) as (c1 & Hrun1 & Hold & Hcase).
  rewrite Hrun in Hrun1. injection Hrun1 as <-.
  set (d := heap c !!! cacheData c) in *.
  assert (Hd : exists d',
             heap c' !! cacheData c' = Some d'
             /\ forallb (fun g => (ShardGroupInfo.DeletedAt g =? 0)
                                  || (e <=? ShardGroupInfo.DeletedAt g))
                  (shardGroupsOf d') = true).
  { rewrite pruneChanged_forallb in Hcase.
    destruct (forallb _ (shardGroupsOf d)) eqn:Hall; simpl in Hcase.
    - destruct Hcase as [Hp _]. rewrite Hp, Hold.
      destruct Hwf as [d0 Hd0]. exists d0. split; [exact Hd0|].
      subst d. rewrite (lookup_total_correct _ _ _ Hd0) in Hall. exact Hall.
    - destruct Hcase as [_ Hobj]. eexists. split; [exact Hobj|].
      assert (Hgroups := shardGroupsOf_prune e d).
      unfold shardGroupsOf in *. simpl in *. rewrite Hgroups.
      apply forallb_forall. intros g Hg. apply List.filter_In in Hg. tauto. }
  destruct Hd as (d' & Hd' & Hall).
  assert (Hwf' : wf c') by (eexists; exact Hd').
  destruct (PruneShardGroups_value e' c' Hwf') as (c'' & Hrun' & Hold' & Hcase').
  exists c''. split; [exact Hrun'|].
  rewrite pruneChanged_forallb, (lookup_total_correct _ _ _ Hd') in Hcase'.
  assert (Hall' : forallb (fun g => (ShardGroupInfo.DeletedAt g =? 0)
                                    || (e' <=? ShardGroupInfo.DeletedAt g))
                    (shardGroupsOf d') = true).
  { apply forallb_forall. intros g Hg.
    pose proof (proj1 (forallb_forall _ _) Hall g Hg) as Hstay.
    apply orb_true_iff in Hstay. apply orb_true_iff.
    destruct Hstay as [Hz|Hge]; [left; exact Hz | right].
    apply Z.leb_le in Hge. apply Z.leb_le. lia. }
  rewrite Hall' in Hcase'. simpl in Hcase'. tauto.
Qed.

End pruning.

Lemma PruneShardGroups_spec_witness :
  let c := Examples.clientWithDeletedGroup in
  let T := Examples.T in
  Meta.wf c
  /\ (exists c',
        Meta.PruneShardGroups (T + Hour) c = Meta.Ok (None, c')
        /\ Meta.cacheData c' = Meta.cacheData c
        /\ Meta.changed c' = Meta.changed c)
  /\ (exists c' d',
        Meta.PruneShardGroups (T + 3 * Hour) c = Meta.Ok (None, c')
        /\ Meta.changed c' = S (Meta.changed c)
        /\ Meta.heap c' !! Meta.cacheData c' = Some d'
        /\ Meta.shardGroupsOf d' = []
        /\ Meta.Data.Index d' = 6).
Proof.
  intros c T.
  assert (Hwf : Meta.wf c) by (vm_compute; eexists; reflexivity).
  split; [exact Hwf|].
  destruct (PruneShardGroups_spec (T + Hour) c Hwf)
    as (c1 & Hrun1 & _ & Hcase1).
  destruct (PruneShardGroups_spec (T + 3 * Hour) c Hwf)
    as (c2 & Hrun2 & _ & Hcase2).
  cbv zeta in Hcase1, Hcase2.
  set (d := Meta.heap c !!! Meta.cacheData c) in *.
  assert (E1 : forallb (fun g => (Meta.ShardGroupInfo.DeletedAt g =? 0)
                                 || (T + Hour <=? Meta.ShardGroupInfo.DeletedAt g))
                 (Meta.shardGroupsOf d) = true)
    by (vm_compute; reflexivity).
  assert (E2 : forallb (fun g => (Meta.ShardGroupInfo.DeletedAt g =? 0)
                                 || (T + 3 * Hour <=? Meta.ShardGroupInfo.DeletedAt g))
                 (Meta.shardGroupsOf d) = false)
    by (vm_compute; reflexivity).
  assert (E3 : List.filter
                 (fun g => (Meta.ShardGroupInfo.DeletedAt g =? 0)
                           || (T + 3 * Hour <=? Meta.ShardGroupInfo.DeletedAt g))
                 (Meta.shardGroupsOf d) = [])
    by (vm_compute; reflexivity).
  assert (E4 : addU64 (Meta.Data.Index d) 1 = 6) by (vm_compute; reflexivity).
  rewrite E1 in Hcase1. rewrite E2, E3, E4 in Hcase2.
  split.
  - exists c1. tauto.
  - destruct Hcase2 as (Hch & d' & Hd' & Hgroups & Hidx & _).
    exists c2, d'. auto.
Defined.

Lemma PruneShardGroups_again_witness :
  let c := Examples.clientWithDeletedGroup in
  let T := Examples.T in
  let c' := Examples.stateAfter (Meta.PruneShardGroups (T + 3 * Hour)) c in
  Meta.wf c
  /\ Meta.PruneShardGroups (T + 3 * Hour) c = Meta.Ok (None, c')
  /\ Meta.changed c' = S (Meta.changed c)
  /\ exists c'',
       Meta.PruneShardGroups (T + 3 * Hour) c' = Meta.Ok (None, c'')
       /\ Meta.cacheData c'' = Meta.cacheData c'
       /\ Meta.changed c'' = Meta.changed c'.
Proof.
  intros c T c'.
  assert (Hwf : Meta.wf c) by (vm_compute; eexists; reflexivity).
  assert (Hrun : Meta.PruneShardGroups (T + 3 * Hour) c = Meta.Ok (None, c'))
    by (vm_compute; reflexivity).
  split; [exact Hwf|]. split; [exact Hrun|]. split; [vm_compute; reflexivity|].
  destruct (PruneShardGroups_again (T + 3 * Hour) (T + 3 * Hour)
              c c' Hwf (Z.le_refl _) Hrun) as (c'' & Hrun' & Hp & Hch & _).
  exists c''. auto.
Defined.

Section shard_group_creation.
Import Meta.
Context {ops : DataOps}.

(** X13.  [CreateShardGroup] on the value of the cached snapshot.  If the
    snapshot has a group for the timestamp, that group is returned and the
    client is not touched at all.  Otherwise the group is made on a clone
    as [createGroup] says (the second lookup, on the clone, cannot find
    anything the first did not): an error is returned with nothing
    committed, and a success commits the clone, with [Index] one up and
    the [changed] channel closed.  In both cases the object that was
    cached is left as it was. *)
Theorem CreateShardGroup_spec (database policy : string) (ts : Time) (c : Client) :
  wf c ->
  let d := heap c !!! cacheData c in
  match (Data_ShardGroupByTimestamp d database policy ts).1 with
  | Some sg => CreateShardGroup database policy ts c = Ok (Some sg, None, c)
  | None =>
      exists c',
        heap c' !! cacheData c = heap c !! cacheData c
        /\ match createGroup d database policy ts with
           | (d', (sgi, None)) =>
               CreateShardGroup database policy ts c = Ok (sgi, None, c')
               /\ changed c' = S (changed c)
               /\ heap c' !! cacheData c'
                  = Some (Data.set_Index (addU64 (Data.Index d') 1) d')
           | (_, (_, Some err)) =>
               CreateShardGroup database policy ts c = Ok (None, Some err, c')
               /\ changed c' = changed c
               /\ cacheData c' = cacheData c
           end
  end.
Proof.
  intros Hwf d. subst d.
  pose proof (fresh_cacheData c Hwf) as Hfresh.
  destruct c as [h0 cp0 n0 a0 pa0 r0]. simpl in Hfresh.
  unfold CreateShardGroup, createGroup. unfold_client. simpl.
  destruct (Data_ShardGroupByTimestamp (h0 !!! cp0) database policy ts)
    as [[sg|] serr] eqn:Hsg; simpl; [reflexivity|].
  repeat (first [rewrite lookup_total_insert_eq | rewrite Hsg]; simpl).
  destruct (Data_CreateShardGroup (h0 !!! cp0) database policy ts) as [d1 [err|]];
    simpl.
  { eexists. split; [|split; [reflexivity|]]; simpl;
      [now rewrite !lookup_insert_ne by exact Hfresh | auto]. }
  rewrite ?lookup_total_insert_eq.
  destruct (Data_RetentionPolicy d1 database policy) as [[rpi|] [err|]]; simpl.
  all: rewrite ?lookup_total_insert_eq.
  all: eexists; split; [|split; [reflexivity|]]; simpl;
    rewrite ?lookup_insert_eq, ?lookup_insert_ne by exact Hfresh; auto.
Qed.

End shard_group_creation.

Lemma CreateShardGroup_spec_witness :
  let c := Examples.clientWithGroup in
  let T := Examples.T in
  Meta.wf c
  /\ (exists sg,
        Meta.CreateShardGroup "db0" "hourly" (T + 30 * Minute) c
        = Meta.Ok (Some sg, None, c)
        /\ Meta.ShardGroupInfo.StartTime sg = T)
  /\ (exists c',
        Meta.CreateShardGroup "db0" "daily" T c
        = Meta.Ok (None, Some (ErrRetentionPolicyNotFound "daily"), c')
        /\ Meta.changed c' = Meta.changed c
        /\ Meta.cacheData c' = Meta.cacheData c).
Proof.
  intros c T.
  assert (Hwf : Meta.wf c) by (vm_compute; eexists; reflexivity).
  split; [exact Hwf|].
  pose proof (CreateShardGroup_spec (ops := refDataOps) "db0" "hourly"
                (T + 30 * Minute) c Hwf) as Hhit.
  pose proof (CreateShardGroup_spec (ops := refDataOps) "db0" "daily" T c Hwf)
    as Hmiss.
  cbv zeta in Hhit, Hmiss.
  set (d := Meta.heap c !!! Meta.cacheData c) in *.
  destruct (Meta.Data_ShardGroupByTimestamp d "db0" "hourly" (T + 30 * Minute))
    as [[sg|] serr] eqn:Esg; [|vm_compute in Esg; discriminate Esg].
  simpl in Hhit.
  assert (Emiss : (Meta.Data_ShardGroupByTimestamp d "db0" "daily" T).1 = None)
    by (vm_compute; reflexivity).
  assert (Ecreate : Meta.createGroup d "db0" "daily" T
                    = (d, (None, Some (ErrRetentionPolicyNotFound "daily"))))
    by (vm_compute; reflexivity).
  rewrite Emiss, Ecreate in Hmiss.
  split.
  - exists sg. split; [exact Hhit|]. vm_compute in Esg.
    injection Esg as <- _. reflexivity.
  - destruct Hmiss as (c' & _ & Hrun & Hch & Hp). exists c'. auto.
Defined.

(** ** Shards *)

Lemma firstReturn_None {A B : Type} (body : A -> option B) (l : list A) :
  Meta.firstReturn body l = None <-> Forall (fun x => body x = None) l.
Proof.
  induction l as [|x l IH]; simpl.
  - split; [constructor | reflexivity].
  - destruct (body x) as [b|] eqn:Hx.
    + split; [discriminate|]. intros Hall. inversion Hall; congruence.
    + rewrite IH. split; [now constructor | intros Hall; now inversion Hall].
Qed.

Lemma firstReturn_Some {A B : Type} (body : A -> option B) (l : list A) (b : B) :
  Meta.firstReturn body l = Some b ->
  exists pre x post,
    l = pre ++ x :: post /\ body x = Some b /\ Forall (fun y => body y = None) pre.
Proof.
  induction l as [|x l IH]; simpl; [discriminate|].
  destruct (body x) as [b'|] eqn:Hx.
  - intros [= <-]. exists [], x, l. auto.
  - intros Hl. destruct (IH Hl) as (pre & y & post & -> & Hy & Hpre).
    exists (x :: pre), y, post. auto.
Qed.

Section shards.
Import Meta.
Context {ops : DataOps}.

(** The body of the loop of [ShardOwner] over the groups of a policy. *)
Lemma ShardOwner_group (shardID : Z) (database policy : string)
    (g : ShardGroupInfo.t) :
  let body :=
    if Deleted g then None else
    firstReturn (fun sh =>
      if ShardInfo.ID sh =? shardID then Some (database, policy, Some g) else None)
      (ShardGroupInfo.Shards g) in
  let owns :=
    Deleted g = false
    /\ In shardID (List.map ShardInfo.ID (ShardGroupInfo.Shards g)) in
  (body = None /\ ~ owns) \/ (body = Some (database, policy, Some g) /\ owns).
Proof.
  intros body owns. subst body owns.
  destruct (Deleted g); [left; split; [reflexivity | intros [? _]; discriminate]|].
  induction (ShardGroupInfo.Shards g) as [|sh shs IH]; simpl.
  - left. split; [reflexivity | tauto].
  - destruct (Z.eqb_spec (ShardInfo.ID sh) shardID) as [Heq|Hne].
    + right. auto.
    + destruct IH as [[Hnone Hnot]|[Hsome Howns]].
      * left. split; [exact Hnone | tauto].
      * right. split; [exact Hsome | tauto].
Qed.

(** What the loops of [ShardOwner] find. *)
Lemma ShardOwner_found (shardID : Z) (dbs : list DatabaseInfo.t) :
  let owns (g : ShardGroupInfo.t) :=
    Deleted g = false
    /\ In shardID (List.map ShardInfo.ID (ShardGroupInfo.Shards g)) in
  let groups :=
    flat_map (fun di =>
      flat_map RetentionPolicyInfo.ShardGroups (DatabaseInfo.RetentionPolicies di))
      dbs in
  match
    firstReturn (fun dbi =>
      firstReturn (fun rpi =>
        firstReturn (fun g =>
          if Deleted g then None else
          firstReturn (fun sh =>
            if ShardInfo.ID sh =? shardID
            then Some (DatabaseInfo.Name dbi, RetentionPolicyInfo.Name rpi, Some g)
            else None)
            (ShardGroupInfo.Shards g))
          (RetentionPolicyInfo.ShardGroups rpi))
        (DatabaseInfo.RetentionPolicies dbi))
      dbs
  with
  | Some (database, policy, sgi) =>
      exists di rpi g pre post,
        sgi = Some g
        /\ In di dbs /\ In rpi (DatabaseInfo.RetentionPolicies di)
        /\ In g (RetentionPolicyInfo.ShardGroups rpi)
        /\ database = DatabaseInfo.Name di /\ policy = RetentionPolicyInfo.Name rpi
        /\ owns g
        /\ groups = pre ++ g :: post
        /\ Forall (fun g' => ~ owns g') pre
  | None => Forall (fun g => ~ owns g) groups
  end.
Proof.
  intros owns groups. subst groups.
  assert (Hgs : forall (database policy : string) (gs : list ShardGroupInfo.t),
    match firstReturn (fun g =>
            if Deleted g then None else
            firstReturn (fun sh =>
              if ShardInfo.ID sh =? shardID
              then Some (database, policy, Some g) else None)
              (ShardGroupInfo.Shards g)) gs with
    | Some r =>
        exists g pre post,
          r = (database, policy, Some g) /\ owns g
          /\ gs = pre ++ g :: post /\ Forall (fun g' => ~ owns g') pre
    | None => Forall (fun g => ~ owns g) gs
    end).
  { intros database policy gs. induction gs as [|g gs IH]; simpl; [constructor|].
    destruct (ShardOwner_group shardID database policy g) as [[Hb Hn]|[Hb Ho]];
      cbv zeta in Hb; rewrite Hb.
    - destruct (firstReturn _ gs) as [r|].
      + destruct IH as (g' & pre & post & -> & Ho & -> & Hpre).
        exists g', (g :: pre), post. auto.
      + constructor; assumption.
    - exists g, [], gs. auto. }
  assert (Hrps : forall (database : string) (rps : list RetentionPolicyInfo.t),
    match firstReturn (fun rpi =>
            firstReturn (fun g =>
              if Deleted g then None else
              firstReturn (fun sh =>
                if ShardInfo.ID sh =? shardID
                then Some (database, RetentionPolicyInfo.Name rpi, Some g)
                else None)
                (ShardGroupInfo.Shards g))
              (RetentionPolicyInfo.ShardGroups rpi)) rps with
    | Some r =>
        exists rpi g pre post,
          r = (database, RetentionPolicyInfo.Name rpi, Some g) /\ owns g
          /\ In rpi rps /\ In g (RetentionPolicyInfo.ShardGroups rpi)
          /\ flat_map RetentionPolicyInfo.ShardGroups rps = pre ++ g :: post
          /\ Forall (fun g' => ~ owns g') pre
    | None => Forall (fun g => ~ owns g) (flat_map RetentionPolicyInfo.ShardGroups rps)
    end).
  { intros database rps. induction rps as [|rpi rps IH]; simpl; [constructor|].
    specialize (Hgs database (RetentionPolicyInfo.Name rpi)
                  (RetentionPolicyInfo.ShardGroups rpi)).
    destruct (firstReturn _ (RetentionPolicyInfo.ShardGroups rpi)) as [r|].
    - destruct Hgs as (g & pre & post & -> & Ho & Hl & Hpre).
      exists rpi, g, pre, (post ++ flat_map RetentionPolicyInfo.ShardGroups rps).
      rewrite Hl, <- app_assoc.
      repeat split; simpl; auto; try apply Ho; apply in_elt.
    - destruct (firstReturn _ rps) as [r|].
      + destruct IH as (rpi' & g & pre & post & -> & Ho & Hin & Hg & Hl & Hpre).
        exists rpi', g, (RetentionPolicyInfo.ShardGroups rpi ++ pre), post.
        rewrite Hl, <- app_assoc.
        repeat split; simpl; auto; try apply Ho; apply Forall_app; auto.
      + apply Forall_app. auto. }
  induction dbs as [|di dbs IH]; simpl; [constructor|].
  specialize (Hrps (DatabaseInfo.Name di) (DatabaseInfo.RetentionPolicies di)).
  destruct (firstReturn _ (DatabaseInfo.RetentionPolicies di)) as [r|].
  - destruct Hrps as (rpi & g & pre & post & -> & Ho & Hin & Hg & Hl & Hpre).
    exists di, rpi, g, pre,
      (post ++ flat_map (fun di =>
                 flat_map RetentionPolicyInfo.ShardGroups
                   (DatabaseInfo.RetentionPolicies di)) dbs).
    rewrite Hl, <- app_assoc. repeat split; simpl; auto; apply Ho.
  - destruct (firstReturn _ dbs) as [[[database policy] sgi]|].
    + destruct IH as (di' & rpi & g & pre & post & -> & Hdi & Hin & Hg & -> & ->
                      & Ho & Hl & Hpre).
      exists di', rpi, g,
        (flat_map RetentionPolicyInfo.ShardGroups (DatabaseInfo.RetentionPolicies di)
         ++ pre), post.
      rewrite Hl, <- app_assoc.
      repeat split; simpl; auto; try apply Ho; apply Forall_app; auto.
    + apply Forall_app. auto.
Qed.

(** X14.  [ShardOwner(shardID)] returns the first shard group of the cached
    snapshot, in the order of its databases, policies and groups, that is
    not deleted and has a shard with that ID, together with the names of
    the database and the policy it belongs to.  When no live group has such
    a shard (it does not exist, or only deleted groups hold it) the result
    is two empty strings and nil.  The client is not changed. *)
Theorem ShardOwner_spec (shardID : Z) (c : Client) :
  let d := heap c !!! cacheData c in
  let owns (g : ShardGroupInfo.t) :=
    Deleted g = false
    /\ In shardID (List.map ShardInfo.ID (ShardGroupInfo.Shards g)) in
  exists database policy sgi,
    ShardOwner shardID c = Ok (database, policy, sgi, c)
    /\ match sgi with
       | Some g =>
           owns g
           /\ (exists pre post,
                 shardGroupsOf d = pre ++ g :: post
                 /\ Forall (fun g' => ~ owns g') pre)
           /\ exists di rpi,
                In di (Data.Databases d)
                /\ In rpi (DatabaseInfo.RetentionPolicies di)
                /\ In g (RetentionPolicyInfo.ShardGroups rpi)
                /\ database = DatabaseInfo.Name di
                /\ policy = RetentionPolicyInfo.Name rpi
       | None =>
           database = ""%string /\ policy = ""%string
           /\ Forall (fun g => ~ owns g) (shardGroupsOf d)
       end.
Proof.
  intros d owns. unfold ShardOwner, query, load, get.
  cbv [mbind mret M_bind M_ret]. fold d.
  pose proof (ShardOwner_found shardID (Data.Databases d)) as Hfound.
  cbv zeta in Hfound. fold owns in Hfound.
  destruct (firstReturn _ (Data.Databases d)) as [[[database policy] sgi]|]; simpl.
  - destruct Hfound as (di & rpi & g & pre & post & -> & Hdi & Hrpi & Hg & -> & ->
                        & Ho & Hl & Hpre).
    do 3 eexists. split; [reflexivity|]. simpl.
    split; [exact Ho|]. split; [exists pre, post; auto|].
    exists di, rpi. auto 10.
  - do 3 eexists. split; [reflexivity|]. simpl. auto.
Qed.

(** X15.  [ShardIDs] returns the IDs of all shards of the cached snapshot
    in ascending order: a sorted rearrangement of the IDs of the shards of
    every group, deleted groups included and repetitions kept.  So every
    shard that [ShardOwner] finds an owner for is listed (the converse
    fails for the shards of deleted groups).  The client is not changed. *)
Theorem ShardIDs_spec (c : Client) :
  let d := heap c !!! cacheData c in
  exists ids,
    ShardIDs c = Ok (ids, c)
    /\ StronglySorted Z.le ids
    /\ ids ≡ₚ flat_map (fun g => List.map ShardInfo.ID (ShardGroupInfo.Shards g))
                (shardGroupsOf d)
    /\ forall shardID database policy g,
         ShardOwner shardID c = Ok (database, policy, Some g, c) ->
         In shardID ids.
Proof.
  intros d. unfold ShardIDs, query, load, get.
  cbv [mbind mret M_bind M_ret]. fold d.
  eexists. split; [reflexivity|].
  assert (Hflat : shardIDsOf (Data.Databases d)
                  = flat_map (fun g => List.map ShardInfo.ID (ShardGroupInfo.Shards g))
                      (shardGroupsOf d)).
  { unfold shardIDsOf, shardGroupsOf.
    induction (Data.Databases d) as [|di dbs IH]; simpl; [reflexivity|].
    rewrite flat_map_app, IH. f_equal. clear IH.
    induction (DatabaseInfo.RetentionPolicies di) as [|rp rps IH]; simpl;
      [reflexivity|].
    rewrite flat_map_app, IH. reflexivity. }
  split; [apply StronglySorted_merge_sort; apply _|].
  split; [rewrite merge_sort_Permutation, Hflat; reflexivity|].
  intros shardID database policy g.
  unfold ShardOwner, query, load, get. cbv [mbind mret M_bind M_ret]. fold d.
  pose proof (ShardOwner_found shardID (Data.Databases d)) as Hfound.
  cbv zeta in Hfound.
  destruct (firstReturn _ (Data.Databases d)) as [[[database' policy'] sgi]|];
    simpl; [|discriminate].
  intros [= -> -> ->].
  destruct Hfound as (di & rpi & g' & pre & post & [= <-] & _ & _ & _ & _ & _
                      & [_ Hin] & Hl & _).
  apply (Permutation_in _ (Permutation_sym (merge_sort_Permutation Z.le _))).
  rewrite Hflat. apply in_flat_map. exists g. split; [|exact Hin].
  unfold shardGroupsOf. rewrite Hl. apply in_elt.
Qed.

(** X16.  [ShardGroupsByTimeRange] returns the groups of the policy that
    are not deleted and overlap the range, in the policy's order, and no
    others.  An error of the snapshot's [RetentionPolicy] is passed on, and
    a policy that is not there is [ErrRetentionPolicyNotFound]; both come
    with no groups.  The client is not changed. *)
Theorem ShardGroupsByTimeRange_spec
    (database policy : string) (tmin tmax : Time) (c : Client) :
  let d := heap c !!! cacheData c in
  exists groups err,
    ShardGroupsByTimeRange database policy tmin tmax c = Ok (groups, err, c)
    /\ match Data_RetentionPolicy d database policy with
       | (_, Some e) => groups = [] /\ err = Some e
       | (None, None) =>
           groups = [] /\ err = Some (ErrRetentionPolicyNotFound policy)
       | (Some rpi, None) =>
           err = None
           /\ sublist groups (RetentionPolicyInfo.ShardGroups rpi)
           /\ forall g,
                In g groups <->
                In g (RetentionPolicyInfo.ShardGroups rpi)
                /\ Deleted g = false
                /\ ShardGroupInfo_Overlaps g tmin tmax = true
       end.
Proof.
  intros d. unfold ShardGroupsByTimeRange, query, load, get.
  cbv [mbind mret M_bind M_ret]. fold d.
  destruct (Data_RetentionPolicy d database policy) as [[rpi|] [e|]]; simpl.
  all: do 2 eexists; (split; [reflexivity|]); auto.
  split; [reflexivity|]. split.
  - induction (RetentionPolicyInfo.ShardGroups rpi) as [|g gs IH]; simpl.
    + constructor.
    + destruct (negb _); [now constructor | now apply sublist_cons].
  - intros g. rewrite List.filter_In, negb_true_iff, orb_false_iff, negb_false_iff.
    reflexivity.
Qed.

End shards.

(** The shard of the group of [clientWithGroup] has an owner; once the
    group is deleted it has none, but [ShardIDs] still lists it. *)
Example ShardOwner_deleted_group :
  let live := Examples.clientWithGroup in
  let dead := Examples.clientWithDeletedGroup in
  (exists g,
     Meta.ShardOwner 1 live = Meta.Ok ("db0"%string, "hourly"%string, Some g, live)
     /\ Meta.ShardGroupInfo.StartTime g = Examples.T)
  /\ Meta.ShardOwner 1 dead = Meta.Ok (""%string, ""%string, None, dead)
  /\ Meta.ShardIDs dead = Meta.Ok ([1], dead).
Proof.
  intros live dead. split; [|split]; [|vm_compute; reflexivity..].
  eexists. split; vm_compute; reflexivity.
Qed.

Lemma ShardIDs_spec_witness :
  let c := Examples.clientWithGroup in
  exists ids g,
    Meta.ShardOwner 1 c = Meta.Ok ("db0"%string, "hourly"%string, Some g, c)
    /\ Meta.ShardIDs c = Meta.Ok (ids, c)
    /\ In 1 ids.
Proof.
  intros c.
  destruct (ShardIDs_spec c) as (ids & Hrun & _ & _ & Howner).
  exists ids. eexists. split; [vm_compute; reflexivity|]. split; [exact Hrun|].
  eapply Howner. vm_compute. reflexivity.
Defined.

(** ** The hinted-handoff processor *)

Section processor_more.
Context {Point Q M W : Type}.
Context `{HH.PointOps Point} `{HH.queueOps Q} `{HH.metaClient M}
        `{HH.shardWriter W Point}.

Local Abbreviation Processor := (HH.NodeProcessor Q M W).

(** Decoding an envelope: the shard ID, and what [models.ParsePoints]
    makes of the text of the points. *)
Lemma unmarshalWrite_envelope (shardID : Z) (points : list Point) :
  is_uint64 shardID ->
  HH.unmarshalWrite (HH.marshalWrite shardID points)
  = (shardID, (HH.ParsePoints (HH.lineProtocol points)).1,
     (HH.ParsePoints (HH.lineProtocol points)).2).
Proof.
  intros Hs. unfold HH.unmarshalWrite. rewrite marshalWrite_envelope.
  assert (Hlen : length (PutUint64 shardID) = 8%nat) by reflexivity.
  rewrite length_app, Hlen.
  destruct (Nat.ltb_spec (8 + length (HH.lineProtocol points)) 8) as [Hlt|_];
    [lia|].
  rewrite take_app_length' by exact Hlen.
  rewrite drop_app_length' by exact Hlen.
  rewrite Uint64_PutUint64 by exact Hs.
  destruct (HH.ParsePoints (HH.lineProtocol points)). reflexivity.
Qed.

(** X17.  From [WriteShard] to [SendWrite].  An open processor takes in the
    points of a shard, and the queue then hands out the frame that was
    appended (as it does when it was empty before); the node is active and
    the writer accepts.  Then [SendWrite] hands the writer the very shard
    ID, node ID and points that [WriteShard] was given, reports the length
    of the frame, and advances the queue; of the counters, [WriteShardReq]
    and [WriteNodeReq] are one up and [WriteShardReqPoints] and
    [WriteNodeReqPoints] are up by the number of points ([int64]).  The
    shard ID is a [uint64], and the line protocol round-trips on the
    points. *)
Theorem WriteShard_then_SendWrite
    (n n1 : Processor) (shardID : Z) (points : list Point) (w : W) :
  HH.done n = true ->
  is_uint64 shardID ->
  HH.ParsePoints (HH.lineProtocol points) = (points, None) ->
  HH.WriteShard n shardID points = (n1, None) ->
  HH.queue_Current (HH.queue n1) = (HH.marshalWrite shardID points, None) ->
  HH.Active n = (true, None) ->
  HH.writer_WriteShard (HH.writer n) shardID (HH.nodeID n) points = (w, None) ->
  let n2 := (HH.SendWrite n1).1 in
  (HH.SendWrite n1).2
  = (Z.of_nat (length (HH.marshalWrite shardID points)), None)
  /\ HH.writer n2 = w
  /\ HH.queue n2 = (HH.queue_Advance (HH.queue n1)).1
  /\ HH.stats n2
     = HH.mkStats
         (add64 (HH.WriteShardReq (HH.stats n)) 1)
         (add64 (HH.WriteShardReqPoints (HH.stats n)) (Z.of_nat (length points)))
         (add64 (HH.WriteNodeReq (HH.stats n)) 1)
         (HH.WriteNodeReqFail (HH.stats n))
         (add64 (HH.WriteNodeReqPoints (HH.stats n)) (Z.of_nat (length points))).
Proof.
  intros Hopen Hid Hparse Hwrite Hcur Hactive Hwriter n2. subst n2.
  unfold HH.WriteShard in Hwrite. rewrite Hopen in Hwrite. simpl in Hwrite.
  destruct (HH.queue_Append (HH.queue n) (HH.marshalWrite shardID points))
    as [q aerr].
  injection Hwrite as <- ->.
  unfold HH.SendWrite.
  unfold HH.Active in *. simpl in *.
  destruct (HH.meta_DataNode (HH.meta n) (HH.nodeID n)) as [nio merr].
  assert (Hdec : HH.unmarshalWrite (HH.marshalWrite shardID points)
                 = (shardID, points, None))
    by (rewrite unmarshalWrite_envelope, Hparse by exact Hid; reflexivity).
  destruct merr as [merr|].
  - destruct (bool_decide (merr <> ErrNodeNotFound)); [discriminate|].
    injection Hactive as Hnio. rewrite Hnio. simpl.
    rewrite Hcur, Hdec. simpl. rewrite Hwriter. simpl.
    destruct (HH.queue_Advance q) as [q' aerr']. simpl. auto.
  - injection Hactive as Hnio. rewrite Hnio. simpl.
    rewrite Hcur, Hdec. simpl. rewrite Hwriter. simpl.
    destruct (HH.queue_Advance q) as [q' aerr']. simpl. auto.
Qed.

(** X18.  When [SendWrite] does not get as far as the frame.  [Active]
    passes on an error of the meta client other than [ErrNodeNotFound];
    otherwise the node is active exactly when the meta client returned a
    node.  [SendWrite] returns that error, or [io.EOF] for a node that is
    not active, or the error of [queue.Current], and in all three cases
    leaves the processor as it was: queue, writer and counters.  For a node
    that is not active [sendingLoop] therefore returns [RetryInterval], as
    for an empty queue, and what is queued stays queued. *)
Theorem SendWrite_not_reached (n : Processor) :
  let nio := (HH.meta_DataNode (HH.meta n) (HH.nodeID n)).1 in
  let merr := (HH.meta_DataNode (HH.meta n) (HH.nodeID n)).2 in
  (forall e, merr = Some e -> e <> ErrNodeNotFound ->
     HH.Active n = (false, Some e) /\ HH.SendWrite n = (n, (0, Some e)))
  /\ (merr = None \/ merr = Some ErrNodeNotFound ->
      (nio = None ->
       HH.Active n = (false, None)
       /\ HH.SendWrite n = (n, (0, Some EOF))
       /\ forall maxActive gate curDelay,
            HH.sendingLoop maxActive gate n curDelay = (n, HH.RetryInterval n))
      /\ (nio <> None ->
          HH.Active n = (true, None)
          /\ forall buf e,
               HH.queue_Current (HH.queue n) = (buf, Some e) ->
               HH.SendWrite n = (n, (0, Some e)))).
Proof.
  intros nio merr. subst nio merr.
  unfold HH.sendingLoop, HH.SendWrite, HH.Active.
  destruct (HH.meta_DataNode (HH.meta n) (HH.nodeID n)) as [nio merr]. simpl.
  split.
  - intros e -> Hne. rewrite bool_decide_eq_true_2 by exact Hne. auto.
  - intros Hmerr.
    assert (Hactive :
      match merr with
      | Some err =>
          if bool_decide (err <> ErrNodeNotFound) then (false, Some err)
          else (bool_decide (nio <> None), None)
      | None => (bool_decide (nio <> None), None)
      end = (bool_decide (nio <> None), @None error)).
    { destruct Hmerr as [-> | ->]; [reflexivity|].
      rewrite bool_decide_eq_false_2 by (intros Hne; now apply Hne). reflexivity. }
    rewrite Hactive. split.
    + intros ->. rewrite bool_decide_eq_false_2 by (intros Hne; now apply Hne).
      simpl. split; [reflexivity|]. split; [reflexivity|].
      intros maxActive gate curDelay.
      destruct ((0 <? maxActive) && negb gate); reflexivity.
    + intros Hnio. rewrite bool_decide_eq_true_2 by exact Hnio. simpl.
      split; [reflexivity|]. intros buf e ->. reflexivity.
Qed.

(** [runStep] leaves the configured intervals as they are. *)
Lemma runStep_intervals (n n' : Processor) (w w' : Z) (ev : HH.tick) :
  HH.runStep n w ev = Some (n', w') ->
  HH.RetryInterval n' = HH.RetryInterval n
  /\ HH.RetryMaxInterval n' = HH.RetryMaxInterval n.
Proof.
  destruct ev as [|now|maxActive gate]; simpl.
  - discriminate.
  - destruct (HH.queue_PurgeOlderThan _ _) as [q perr]. intros [= <- <-]. auto.
  - unfold HH.sendingLoop.
    pose proof (SendWrite_intervals n) as Hint.
    destruct ((0 <? maxActive) && negb gate); [intros [= <- <-]; auto|].
    destruct (HH.SendWrite n) as [n1 [sent err]]. simpl in Hint.
    destruct err as [err|]; [|intros [= <- <-]; exact Hint].
    destruct (bool_decide (err = EOF)); [intros [= <- <-]; exact Hint|].
    destruct (HH.RetryMaxInterval n1 <? mul64 2 w); intros [= <- <-]; exact Hint.
Qed.

(** X19.  The wait of the [run] loop stays within the configured bounds.
    If [0 <= RetryInterval <= RetryMaxInterval < 2^62] (so that doubling
    cannot overflow [int64]), then after any sequence of turns of the loop
    (the [done] channel, the purge timer, the sending timer, with whatever
    the queue, the node and the concurrency gate do) the wait before the
    next send is at least [RetryInterval] and at most [RetryMaxInterval],
    and the two settings are what they were. *)
Theorem runLoop_waitTime (n : Processor) (evs : list HH.tick) :
  0 <= HH.RetryInterval n <= HH.RetryMaxInterval n ->
  HH.RetryMaxInterval n < 2 ^ 62 ->
  let n' := (HH.runLoop n (HH.initialWaitTime n) evs).1 in
  let waitTime := (HH.runLoop n (HH.initialWaitTime n) evs).2 in
  HH.RetryInterval n <= waitTime <= HH.RetryMaxInterval n
  /\ HH.RetryInterval n' = HH.RetryInterval n
  /\ HH.RetryMaxInterval n' = HH.RetryMaxInterval n.
Proof.
  intros Hint Hmax. cbv zeta.
  assert (Hinit : HH.RetryInterval n <= HH.initialWaitTime n <= HH.RetryMaxInterval n).
  { unfold HH.initialWaitTime.
    destruct (Z.ltb_spec (HH.RetryMaxInterval n) (HH.RetryInterval n)); lia. }
  revert Hinit. generalize (HH.initialWaitTime n) as w.
  set (RI := HH.RetryInterval n) in *. set (RM := HH.RetryMaxInterval n) in *.
  assert (HRI : HH.RetryInterval n = RI) by reflexivity.
  assert (HRM : HH.RetryMaxInterval n = RM) by reflexivity.
  clearbody RI RM. revert n HRI HRM.
  induction evs as [|ev evs IH]; intros n HRI HRM w Hw; simpl.
  - auto.
  - destruct (HH.runStep n w ev) as [[n1 w1]|] eqn:Hstep; simpl; [|auto].
    destruct (runStep_intervals _ _ _ _ _ Hstep) as [HRI1 HRM1].
    apply IH; [congruence | congruence |].
    destruct ev as [|now|maxActive gate]; simpl in Hstep.
    + discriminate.
    + destruct (HH.queue_PurgeOlderThan _ _) as [q perr].
      injection Hstep as <- <-. exact Hw.
    + unfold HH.sendingLoop in Hstep.
      pose proof (SendWrite_intervals n) as [HRIs HRMs].
      destruct ((0 <? maxActive) && negb gate);
        [injection Hstep as <- <-; lia|].
      destruct (HH.SendWrite n) as [n2 [sent err]]. simpl in HRIs, HRMs.
      destruct err as [err|]; [|injection Hstep as <- <-; lia].
      destruct (bool_decide (err = EOF)); [injection Hstep as <- <-; lia|].
      rewrite mul64_small in Hstep by (unfold is_int64; lia).
      destruct (Z.ltb_spec (HH.RetryMaxInterval n2) (2 * w));
        injection Hstep as <- <-; lia.
Qed.

(** X20.  The tags of the exported statistic.  [Statistics] returns one
    statistic, named "hh_processor:" followed by the directory.  Its tags
    are the caller's, which win over the two the processor sets itself:
    "node", the node ID in decimal, and "path", the directory. *)
Theorem Statistics_tags (n : Processor) (tags : gmap string string) :
  exists st,
    HH.Statistics n tags = [st]
    /\ HH.Name st = ("hh_processor:" ++ HH.dir n)%string
    /\ (forall k v, tags !! k = Some v -> HH.Tags st !! k = Some v)
    /\ (tags !! "node"%string = None ->
        HH.Tags st !! "node"%string = Some (pretty (HH.nodeID n)))
    /\ (tags !! "path"%string = None ->
        HH.Tags st !! "path"%string = Some (HH.dir n))
    /\ (forall k, k <> "node"%string -> k <> "path"%string ->
        HH.Tags st !! k = tags !! k).
Proof.
  eexists. split; [reflexivity|]. simpl.
  split; [reflexivity|]. split; [|split; [|split]].
  - intros k v Hk. apply lookup_union_Some_l. exact Hk.
  - intros Hnone. rewrite lookup_union_r by exact Hnone.
    apply lookup_insert_eq.
  - intros Hnone. rewrite lookup_union_r by exact Hnone.
    rewrite lookup_insert_ne by discriminate. apply lookup_insert_eq.
  - intros k Hnode Hpath.
    destruct (tags !! k) as [v|] eqn:Hk.
    + apply lookup_union_Some_l. exact Hk.
    + rewrite lookup_union_r by exact Hk.
      rewrite !lookup_insert_ne by congruence. apply lookup_empty.
Qed.

(** X21.  A failed [Open] leaves the processor marked open.  [Open] sets
    [done] before it makes the directory and the queue, and does not reset
    it when one of these fails.  So after [Open] has returned an error the
    processor has no new queue, yet a second [Open] returns nil without
    trying again, and [Purge] refuses with "node processor is open". *)
Theorem Open_failure_stays_open
    (n n' : Processor) (mkdir : option string) (created : Q + error)
    (opened : option error) (e : error) :
  HH.Open n mkdir created opened = (n', Some e) ->
  HH.done n = false /\ HH.done n' = true /\ HH.queue n' = HH.queue n
  /\ (forall mkdir' created' opened',
        HH.Open n' mkdir' created' opened' = (n', None))
  /\ (forall removed,
        HH.Purge n' removed = Some (Errorf "node processor is open")).
Proof.
  unfold HH.Open, HH.Purge. destruct (HH.done n) eqn:Hdone; [discriminate|].
  intros Hopen.
  assert (Hn' : n' = HH.set_done true n).
  { destruct mkdir as [msg|]; [congruence|].
    destruct created as [q|err]; [|congruence].
    destruct opened as [err|]; [congruence | discriminate]. }
  subst n'. simpl. auto.
Qed.

(** X22.  After [Close].  The processor is closed: [WriteShard] refuses
    with "node processor is closed" and leaves the counters and the queue
    alone, [Purge] goes ahead and returns what removing the directory
    returns, and a second [Close] returns nil without closing the queue
    again.  [Close] itself returns the error of closing the queue if the
    processor was open, and nil if it was not. *)
Theorem Close_then (n : Processor) (closed : option error) :
  let n' := (HH.Close n closed).1 in
  (HH.Close n closed).2 = (if HH.done n then closed else None)
  /\ HH.done n' = false
  /\ HH.queue n' = HH.queue n /\ HH.stats n' = HH.stats n
  /\ (forall closed', HH.Close n' closed' = (n', None))
  /\ (forall shardID points,
        HH.WriteShard n' shardID points
        = (n', Some (Errorf "node processor is closed")))
  /\ (forall removed, HH.Purge n' removed = removed).
Proof.
  unfold HH.Close, HH.WriteShard, HH.Purge.
  destruct (HH.done n) eqn:Hdone; simpl; rewrite ?Hdone; auto 10.
Qed.

End processor_more.

Lemma WriteShard_then_SendWrite_witness :
  let n := Examples.processor [] [] (HH.mkStats 0 0 0 0 0) in
  let points := [Examples.p1; Examples.p2] in
  let n1 := (HH.WriteShard n 42 points).1 in
  let n2 := (HH.SendWrite n1).1 in
  HH.WriteShard n 42 points = (n1, None)
  /\ HH.queue n1 = [Examples.frame42]
  /\ (HH.SendWrite n1).2 = (38, None)
  /\ RefHH.delivered (HH.writer n2) = [(42, 7, points)]
  /\ HH.queue n2 = []
  /\ HH.stats n2 = HH.mkStats 1 2 1 0 2.
Proof.
  intros n points n1 n2.
  assert (Hwrite : HH.WriteShard n 42 points = (n1, None))
    by (vm_compute; reflexivity).
  pose proof (WriteShard_then_SendWrite n n1 42 points
                (RefHH.mkWriter [] [(42, 7, points)])) as Hsend.
  lapply Hsend; [clear Hsend; intro Hsend | reflexivity].
  lapply Hsend; [clear Hsend; intro Hsend | unfold is_uint64; lia].
  lapply Hsend; [clear Hsend; intro Hsend | vm_compute; reflexivity].
  specialize (Hsend Hwrite).
  do 3 (lapply Hsend; [clear Hsend; intro Hsend | vm_compute; reflexivity]).
  destruct Hsend as (Hres & Hwriter & Hqueue & Hstats).
  split; [exact Hwrite|]. split; [vm_compute; reflexivity|].
  split; [rewrite Hres; vm_compute; reflexivity|].
  split; [fold n2 in Hwriter; rewrite Hwriter; reflexivity|].
  split; [fold n2 in Hqueue; rewrite Hqueue; vm_compute; reflexivity|].
  fold n2 in Hstats. rewrite Hstats. vm_compute. reflexivity.
Defined.

Lemma SendWrite_not_reached_witness :
  let gone : HH.NodeProcessor RefHH.Queue (list Meta.NodeInfo.t) RefHH.Writer :=
    HH.mkNodeProcessor Hour Second Minute (10 * 1024 * 1024 * 1024) (168 * Hour) 0
      7 "/var/hh/7" true [Examples.frame42] [] (RefHH.mkWriter [] [])
      (HH.mkStats 1 2 0 0 0) in
  let idle := Examples.processor [] [] (HH.mkStats 0 0 0 0 0) in
  HH.Active gone = (false, None)
  /\ HH.SendWrite gone = (gone, (0, Some EOF))
  /\ HH.sendingLoop 0 false gone (8 * Second) = (gone, Second)
  /\ HH.Active idle = (true, None)
  /\ HH.SendWrite idle = (idle, (0, Some EOF)).
Proof.
  intros gone idle.
  destruct (SendWrite_not_reached gone) as [_ Hgone].
  destruct (SendWrite_not_reached idle) as [_ Hidle].
  destruct Hgone as [Hgone _]; [right; reflexivity|].
  destruct Hidle as [_ Hidle]; [left; reflexivity|].
  destruct (Hgone eq_refl) as (Hactive & Hsend & Hloop).
  destruct Hidle as [Hactive' Hcur]; [vm_compute; discriminate|].
  split; [exact Hactive|]. split; [exact Hsend|].
  split; [apply Hloop|]. split; [exact Hactive'|].
  apply (Hcur []). reflexivity.
Defined.

Lemma runLoop_waitTime_witness :
  let n :=
    Examples.processor [Examples.frame42]
      [Some Examples.refused; Some Examples.refused; None] (HH.mkStats 1 2 0 0 0) in
  let failing := [HH.tickSend 0 false; HH.tickPurge Examples.T; HH.tickSend 0 false] in
  (HH.runLoop n (HH.initialWaitTime n) failing).2 = 4 * Second
  /\ (HH.runLoop n (HH.initialWaitTime n) (failing ++ [HH.tickSend 0 false])).2
     = Second
  /\ Second <= (HH.runLoop n (HH.initialWaitTime n) failing).2 <= Minute.
Proof.
  intros n failing.
  split; [vm_compute; reflexivity|]. split; [vm_compute; reflexivity|].
  destruct (runLoop_waitTime n failing) as [Hbound _].
  - vm_compute. split; discriminate.
  - vm_compute. reflexivity.
  - exact Hbound.
Defined.

Lemma Statistics_tags_witness :
  let n := Examples.processor [] [] (HH.mkStats 0 0 0 0 0) in
  let tags : gmap string string := {[ "node"%string := "replica-7"%string ]} in
  exists st,
    HH.Statistics n tags = [st]
    /\ HH.Name st = "hh_processor:/var/hh/7"%string
    /\ HH.Tags st !! "node"%string = Some "replica-7"%string
    /\ HH.Tags st !! "path"%string = Some "/var/hh/7"%string.
Proof.
  intros n tags.
  destruct (Statistics_tags n tags) as (st & Hst & Hname & Htags & _ & Hpath & _).
  exists st. split; [exact Hst|]. split; [exact Hname|].
  split; [apply Htags; reflexivity | apply Hpath; reflexivity].
Defined.

Lemma Open_failure_stays_open_witness :
  let n := HH.set_done false (Examples.processor [] [] (HH.mkStats 0 0 0 0 0)) in
  let n' := HH.set_done true n in
  HH.Open n (Some "permission denied"%string) (inl []) None
  = (n', Some (Errorf "mkdir all: permission denied"))
  /\ HH.Open n' None (inl []) None = (n', None)
  /\ HH.Purge n' None = Some (Errorf "node processor is open").
Proof.
  intros n n'.
  assert (Hopen : HH.Open n (Some "permission denied"%string) (inl []) None
                  = (n', Some (Errorf "mkdir all: permission denied")))
    by reflexivity.
  destruct (Open_failure_stays_open _ _ _ _ _ _ Hopen)
    as (_ & _ & _ & Hagain & Hpurge).
  split; [exact Hopen|]. split; [apply Hagain | apply Hpurge].
Defined.

(** ** Commits *)

Section commits.
Import Meta.
Context {ops : DataOps}.

(** X23.  Nineteen mutations are one method of the snapshot, run on a
    clone and committed.  For each of them ([dataMethod] names the method):
    the call returns the method's error; if there is one, nothing is
    committed; if there is none, the clone as the method left it is
    installed with [Index] one up ([uint64]) and the [changed] channel is
    closed once.  In both cases the object that was cached is left as it
    was. *)
Theorem simple_mutation_spec
    (m : mutation) (f : Data.t -> Data.t * option error) (c : Client) :
  wf c ->
  dataMethod m = Some f ->
  let d := heap c !!! cacheData c in
  exists c',
    run m c = Ok ((f d).2, c')
    /\ heap c' !! cacheData c = heap c !! cacheData c
    /\ match (f d).2 with
       | Some _ => cacheData c' = cacheData c /\ changed c' = changed c
       | None =>
           changed c' = S (changed c)
           /\ heap c' !! cacheData c'
              = Some (Data.set_Index (addU64 (Data.Index (f d).1) 1) (f d).1)
       end.
Proof.
  intros Hwf Hm d. subst d.
  pose proof (fresh_cacheData c Hwf) as Hfresh.
  destruct c as [h0 cp0 n0 a0 pa0 r0]. simpl in Hfresh.
  destruct m; try discriminate Hm; injection Hm as <-.
  all: unfold_client; simpl; rewrite !lookup_total_insert_eq.
  all: try match goal with
           | |- context [let '(_, _) := ?e in _] => destruct e as [d1 [err|]]
           end.
  all: simpl; rewrite ?lookup_total_insert_eq.
  all: eexists; split; [reflexivity|]; simpl.
  all: rewrite ?lookup_insert_eq, ?lookup_insert_ne by exact Hfresh; auto.
Qed.

(** X24.  [ReplaceData(d)] installs the caller's pointer, not a copy.  It
    returns nil, closes the [changed] channel and leaves every object as it
    is, [d.Index] included: [DataIndex] then returns [d.Index], not one
    more.  And since [d] is now the cached object, a later
    [CreateDataNode] writes to the object the caller passed in. *)
Theorem ReplaceData_shares_object (d : loc) (c : Client) :
  exists c1,
    ReplaceData d c = Ok (None, c1)
    /\ cacheData c1 = d
    /\ heap c1 = heap c
    /\ changed c1 = S (changed c)
    /\ DataIndex c1 = Ok (Data.Index (heap c !!! d), c1)
    /\ forall httpAddr tcpAddr r c2,
         CreateDataNode httpAddr tcpAddr c1 = Ok (r, c2) ->
         let d1 := (Data_CreateDataNode (heap c !!! d) httpAddr tcpAddr).1 in
         heap c2 !! d
         = Some (if r.2 is None
                 then Data.set_Index (addU64 (Data.Index d1) 1) d1
                 else d1).
Proof.
  destruct c as [h0 cp0 n0 a0 pa0 r0]. unfold_client. simpl.
  eexists. split; [reflexivity|]. simpl.
  do 4 (split; [reflexivity|]).
  intros httpAddr tcpAddr r c2.
  destruct (Data_CreateDataNode (h0 !!! d) httpAddr tcpAddr) as [d1 [err|]]; simpl.
  - intros [= <- <-]. simpl. apply lookup_insert_eq.
  - rewrite lookup_total_insert_eq.
    destruct (find _ (Data.DataNodes d1)) as [n|]; simpl.
    + rewrite !lookup_total_insert_eq. intros [= <- <-]. simpl.
      apply lookup_insert_eq.
    + intros [= <- <-]. simpl. apply lookup_insert_eq.
Qed.

End commits.

Lemma simple_mutation_spec_witness :
  let c := Examples.clientWithAlice in
  let d := Meta.heap c !!! Meta.cacheData c in
  Meta.wf c
  /\ (exists c',
        Meta.run (Meta.mSetAdminPrivilege "alice" true) c = Meta.Ok (None, c')
        /\ Meta.changed c' = S (Meta.changed c)
        /\ Meta.heap c' !! Meta.cacheData c'
           = Some (Meta.Data.set_Index 3 (RefData.SetAdminPrivilege d "alice" true).1))
  /\ (exists c',
        Meta.run (Meta.mSetAdminPrivilege "bob" true) c
        = Meta.Ok (Some ErrUserNotFound, c')
        /\ Meta.cacheData c' = Meta.cacheData c
        /\ Meta.changed c' = Meta.changed c).
Proof.
  intros c d.
  assert (Hwf : Meta.wf c) by (vm_compute; eexists; reflexivity).
  split; [exact Hwf|].
  destruct (simple_mutation_spec (ops := refDataOps)
              (Meta.mSetAdminPrivilege "alice" true) _ c Hwf eq_refl)
    as (c1 & Hrun1 & _ & Hcase1).
  destruct (simple_mutation_spec (ops := refDataOps)
              (Meta.mSetAdminPrivilege "bob" true) _ c Hwf eq_refl)
    as (c2 & Hrun2 & _ & Hcase2).
  cbv zeta in *. fold d in Hrun1, Hcase1, Hrun2, Hcase2.
  assert (E1 : Meta.Data_SetAdminPrivilege d "alice" true
               = ((RefData.SetAdminPrivilege d "alice" true).1, None))
    by (vm_compute; reflexivity).
  assert (E2 : (Meta.Data_SetAdminPrivilege d "bob" true).2 = Some ErrUserNotFound)
    by (vm_compute; reflexivity).
  assert (E3 : addU64 (Meta.Data.Index (RefData.SetAdminPrivilege d "alice" true).1) 1
               = 3)
    by (vm_compute; reflexivity).
  rewrite E1 in Hrun1, Hcase1. rewrite E2 in Hrun2, Hcase2.
  simpl in Hrun1, Hcase1. rewrite E3 in Hcase1.
  split.
  - exists c1. tauto.
  - exists c2. tauto.
Defined.

Lemma ReplaceData_shares_object_witness :
  let c := Examples.clientAuthenticated in
  let c0 := Examples.stateAfter (Meta.new Examples.restored) c in
  let p := fresh (dom (Meta.heap c)) in
  exists c1,
    Meta.ReplaceData p c0 = Meta.Ok (None, c1)
    /\ Meta.DataIndex c1 = Meta.Ok (7, c1)
    /\ forall r c2,
         Meta.CreateDataNode "h7:8086" "h7:8088" c1 = Meta.Ok (r, c2) ->
         Meta.heap c2 !! p <> Meta.heap c0 !! p.
Proof.
  intros c c0 p.
  destruct (ReplaceData_shares_object (ops := refDataOps) p c0)
    as (c1 & Hrun & _ & _ & _ & Hidx & Hnode).
  exists c1. split; [exact Hrun|]. split.
  - rewrite Hidx. f_equal.
  - intros r c2 Hcreate. rewrite (Hnode _ _ _ _ Hcreate).
    cbv zeta.
    assert (E : Meta.heap c0 !! p = Some Examples.restored)
      by (vm_compute; reflexivity).
    rewrite E, (lookup_total_correct _ _ _ E).
    intros Heq. injection Heq as Heq.
    destruct r.2.
    + apply (f_equal Meta.Data.DataNodes) in Heq. vm_compute in Heq. discriminate.
    + apply (f_equal Meta.Data.DataNodes) in Heq. vm_compute in Heq. discriminate.
Defined.

(** ** The auth cache and the mutations *)

Section auth_cache.
Import Meta.
Context {ops : DataOps}.

(** X25.  No mutation but [UpdateUser] and [DropUser] touches the auth
    cache.  In particular [SetData] and [ReplaceData], which replace the
    whole snapshot and with it every user's password hash, and
    [SetAdminPrivilege] and [SetPrivilege] leave every cached salted
    digest in place, whatever they return. *)
Theorem other_mutations_keep_authCache
    (m : mutation) (c c' : Client) (r : option error) :
  (forall name hashedPassword, m <> mUpdateUser name hashedPassword) ->
  (forall name, m <> mDropUser name) ->
  run m c = Ok (r, c') ->
  authCache c' = authCache c.
Proof.
  intros Hupdate Hdrop Hrun. destruct m.
  all: try (now exfalso; eapply Hupdate).
  all: try (now exfalso; eapply Hdrop).
  all: try match type of Hrun with
           | run (mPrecreateShardGroups _ _) _ = _ =>
               apply PrecreateShardGroups_clone in Hrun; tauto
           end.
  all: destruct c as [h0 cp0 n0 a0 pa0 r0]; unfold_client.
  all: repeat case_match; simplify_eq; reflexivity.
Qed.

End auth_cache.

Lemma other_mutations_keep_authCache_witness :
  let c := Examples.clientAuthenticated in
  let c' := Examples.clientRestored in
  let p := fresh (dom (Meta.heap c)) in
  let c0 := Examples.stateAfter (Meta.new Examples.restored) c in
  Meta.run (Meta.mReplaceData p) c0 = Meta.Ok (None, c')
  /\ is_Some (Meta.authCache c !! "alice"%string)
  /\ Meta.authCache c' = Meta.authCache c.
Proof.
  intros c c' p c0.
  assert (Hrun : Meta.run (Meta.mReplaceData p) c0 = Meta.Ok (None, c'))
    by (vm_compute; reflexivity).
  split; [exact Hrun|]. split; [vm_compute; eexists; reflexivity|].
  apply (other_mutations_keep_authCache (ops := refDataOps)
           (Meta.mReplaceData p) c0 c' None);
    [discriminate | discriminate | exact Hrun].
Defined.
